(** * Kappa: a shallow embedding of the function lifecycle supervisor

    The development follows the Go sources:
    - [Cont]    : service/internal/cont/cont.go      (container adapter)
    - [Kappa]   : kappa-service/internal/kappa/kappa.go (function instance)
    - [Service] : kappa-service/cmd/kappa-service/main.go (registry, gateway)
    - [Gateway] : the same file, list and shutdown
    - [Closing] : service/internal/cont/cont.go (Close)
    - [Handler] : pkg/handler/handler.go (the function side of a request)
    - [Runtime] : package runtime (containers by language)

    kappa.go imports the adapter as kappa-service/internal/cont; the copy
    of the package that has the interface it uses (Mounts, RemoveOptions,
    RegisterTmpDir) is the one under service/.

    Calls that leave the process (the container engine, the file system,
    the HTTP client, the UUID generator) are answered by explicit "world"
    records: every function of the model takes the answers the outside
    gives to the calls it makes, and returns the new state, its result and
    the sequence of outside calls it made. *)

From stdpp Require Import gmap strings list fin_maps pretty.

Local Open Scope string_scope.
Local Open Scope list_scope.
Local Open Scope Z_scope.

(* ===================================================================== *)
(** ** The container adapter (package cont) *)
(* ===================================================================== *)

Module Cont.

(** [StopOptions] *)
Record StopOptions := {
  Timeout : Z;            (* time.Duration, nanoseconds *)
  ForceKill : bool;
  RemoveOnStop : bool
}.

(** [specs.Mount] *)
Record Mount := {
  mType : string;
  mSource : string;
  mDestination : string;
  mOptions : list string
}.

Record RemoveOptions := {
  RemoveSnapshotIfExists : bool;
  RemoveContainerIfExists : bool
}.

Record ContainerConfig := {
  Image : string;
  Name : string;
  Namespace : string;
  Command : option (list string);   (* a Go slice: [None] is nil *)
  Env : option (list string);
  Mounts : list Mount;
  RemoveOpts : RemoveOptions
}.

(** [containerd.ProcessStatus]; [StatusUnset] is the zero value of the
    [containerd.Status] struct, which is what [task.Status] hands back
    together with an error. *)
Inductive ProcessStatus :=
| StatusUnset | Running | Created | Stopped | Paused | Pausing | Unknown.

Global Instance ProcessStatus_eq_dec : EqDecision ProcessStatus.
Proof. solve_decision. Defined.

Inductive Signal := SIGTERM | SIGKILL.

(** Errors of the engine, as far as the adapter tells them apart:
    [errors.Is(err, errdefs.ErrNotFound)] or anything else. *)
Inductive EngineError := ErrNotFound | ErrOther.

Definition isNotFound (e : EngineError) : bool :=
  match e with ErrNotFound => true | ErrOther => false end.

(** The handles [containerd.Task] and [containerd.Container]: a field of
    the adapter either holds one or is nil. *)
Inductive TaskHandle := taskHandle.
Inductive EngineContainer := engineContainer.

Record Container := {
  id : string;
  mounts : list Mount;
  container : option EngineContainer;
  task : option TaskHandle;
  config : ContainerConfig;
  logs : list string;
  tempDirs : list string
}.

(** Calls made to the engine and to the file system, in order. *)
Inductive Call :=
| CStatus
| CKill (s : Signal)
| CWait
| CTaskDelete
| CContainerDelete
| CRemoveAll (dir : string).

(** The pieces [Remove] collects and [errors.Join]s. *)
Inductive RemoveErr :=
| FailedDeleteTask (e : EngineError)
| FailedDeleteContainer (e : EngineError)
| FailedRemoveTempDirs (dirs : list string).

Inductive Error :=
| ValidationFailed
| FailedToConnect
| FailedBeforeCreate
| FailedToCreateTask
| FailedToStartTask
| NoRunningTask
| FailedToStop (e : EngineError)
| FailedToWait (e : EngineError)
| FailedToForceKill (e : EngineError)
| Joined (errs : list RemoveErr).

(** What the outside answers during [Remove]. *)
Record RemoveWorld := {
  rmStatusErr : option EngineError;        (* task.Status in Remove *)
  taskDeleteErr : option EngineError;      (* task.Delete *)
  containerDeleteErr : option EngineError; (* container.Delete *)
  removeAllFails : string -> bool          (* os.RemoveAll(dir) fails *)
}.

(** What the outside answers during [Stop]. *)
Record StopWorld := {
  statusRes : ProcessStatus + EngineError; (* task.Status *)
  killErr : option EngineError;            (* task.Kill(signal) *)
  waitErr : option EngineError;            (* task.Wait *)
  exitedInTime : bool;                     (* select: exit before timeout *)
  forceKillErr : option EngineError;       (* task.Kill(SIGKILL) on timeout *)
  removeW : RemoveWorld
}.

(** How far [Container.Start] gets.  Its engine calls (removal of a
    left-over container and snapshot, image pull, container creation,
    task creation, task start) are summarised by the stage at which the
    first of them fails: what matters to the callers is which of the
    fields [container] and [task] have been set by then. *)
Inductive StartOutcome :=
| StartFailsBeforeCreate
| StartFailsCreatingTask
| StartFailsStartingTask
| StartSucceeds.

(** [NewContainer]: default the namespace, validate the `required`
    fields (strings non-empty, slices non-nil), connect to containerd. *)
Definition NewContainer (cfg : ContainerConfig) (connectOk : bool)
  : Error + Container :=
  let cfg := if decide (Namespace cfg = "")
             then {| Image := Image cfg; Name := Name cfg;
                     Namespace := "default"; Command := Command cfg;
                     Env := Env cfg; Mounts := Mounts cfg;
                     RemoveOpts := RemoveOpts cfg |}
             else cfg in
  if decide (Image cfg = "" \/ Name cfg = "" \/ Namespace cfg = ""
             \/ Command cfg = None \/ Env cfg = None)
  then inl ValidationFailed
  else if negb connectOk then inl FailedToConnect
  else inr {| id := Name cfg; mounts := Mounts cfg; container := None;
              task := None; config := cfg; logs := []; tempDirs := [] |}.

Definition Start (c : Container) (o : StartOutcome) : option Error * Container :=
  let set (ec : option EngineContainer) (t : option TaskHandle) :=
    {| id := id c; mounts := mounts c; container := ec; task := t;
       config := config c; logs := logs c; tempDirs := tempDirs c |} in
  match o with
  | StartFailsBeforeCreate => (Some FailedBeforeCreate, c)
  | StartFailsCreatingTask =>
      (Some FailedToCreateTask, set (Some engineContainer) (task c))
  | StartFailsStartingTask =>
      (Some FailedToStartTask, set (Some engineContainer) (Some taskHandle))
  | StartSucceeds => (None, set (Some engineContainer) (Some taskHandle))
  end.

(** One round of the loop of [processLogs]: store the line. (The
    callbacks it then calls live with the caller, see [Kappa].) *)
Definition processLogs (c : Container) (line : string) : Container :=
  {| id := id c; mounts := mounts c; container := container c;
     task := task c; config := config c; logs := logs c ++ [line];
     tempDirs := tempDirs c |}.

(** [StreamLogs] with a non-nil callback: the lines already stored are
    replayed to the callback (they are the result here), then the
    callback is registered. *)
Definition StreamLogs (c : Container) : Error + list string :=
  match task c with
  | None => inl NoRunningTask
  | Some _ => inr (logs c)
  end.

Definition RegisterTmpDir (c : Container) (path : string) : Container :=
  {| id := id c; mounts := mounts c; container := container c;
     task := task c; config := config c; logs := logs c;
     tempDirs := tempDirs c ++ [path] |}.

(** [cleanup]: remove every temp dir, forget them, join the failures. *)
Definition cleanup (c : Container) (w : RemoveWorld)
  : option RemoveErr * Container * list Call :=
  let failed := filter (fun d => removeAllFails w d = true) (tempDirs c) in
  let c' := {| id := id c; mounts := mounts c; container := container c;
               task := task c; config := config c; logs := logs c;
               tempDirs := [] |} in
  (match failed with [] => None | _ => Some (FailedRemoveTempDirs failed) end,
   c', CRemoveAll <$> tempDirs c).

Definition Remove (c : Container) (w : RemoveWorld)
  : option Error * Container * list Call :=
  let '(errs1, tr1) :=
    match task c with
    | Some _ =>
        match rmStatusErr w with
        | None =>
            match taskDeleteErr w with
            | Some e =>
                if isNotFound e then ([], [CStatus; CTaskDelete])
                else ([FailedDeleteTask e], [CStatus; CTaskDelete])
            | None => ([], [CStatus; CTaskDelete])
            end
        | Some _ => ([], [CStatus])
        end
    | None => ([], [])
    end in
  let '(errs2, tr2) :=
    match container c with
    | Some _ =>
        match containerDeleteErr w with
        | Some e =>
            if isNotFound e then ([], [CContainerDelete])
            else ([FailedDeleteContainer e], [CContainerDelete])
        | None => ([], [CContainerDelete])
        end
    | None => ([], [])
    end in
  let '(cerr, c', tr3) := cleanup c w in
  let errs := errs1 ++ errs2 ++ match cerr with Some e => [e] | None => [] end in
  (match errs with [] => None | _ => Some (Joined errs) end,
   c', tr1 ++ tr2 ++ tr3).

(** [status, err := c.task.Status(c.ctx)]: the error is only logged, and
    with an error comes the zero status. *)
Definition observedStatus (w : StopWorld) : ProcessStatus :=
  match statusRes w with inl s => s | inr _ => StatusUnset end.

Definition Stop (c : Container) (opts : StopOptions) (w : StopWorld)
  : option Error * Container * list Call :=
  match task c with
  | None => (Some NoRunningTask, c, [])
  | Some _ =>
      let status := observedStatus w in
      if decide (status ≠ Running) then
        if RemoveOnStop opts then
          let '(e, c', tr) := Remove c (removeW w) in (e, c', CStatus :: tr)
        else (None, c, [CStatus])
      else
        let signal := if ForceKill opts then SIGKILL else SIGTERM in
        match killErr w with
        | Some e =>
            if isNotFound e then
              if RemoveOnStop opts then
                let '(e, c', tr) := Remove c (removeW w) in
                (e, c', CStatus :: CKill signal :: tr)
              else (None, c, [CStatus; CKill signal])
            else (Some (FailedToStop e), c, [CStatus; CKill signal])
        | None =>
            match waitErr w with
            | Some e => (Some (FailedToWait e), c, [CStatus; CKill signal; CWait])
            | None =>
                let trw := [CStatus; CKill signal; CWait] in
                let after (trk : list Call) :=
                  if RemoveOnStop opts then
                    let '(e, c', tr) := Remove c (removeW w) in
                    (e, c', trk ++ tr)
                  else (None, c, trk) in
                if exitedInTime w then after trw
                else
                  match forceKillErr w with
                  | Some e =>
                      if isNotFound e then after (trw ++ [CKill SIGKILL])
                      else (Some (FailedToForceKill e), c, trw ++ [CKill SIGKILL])
                  | None => after (trw ++ [CKill SIGKILL])
                  end
            end
        end
  end.

End Cont.

(* ===================================================================== *)
(** ** The function instance (package kappa) *)
(* ===================================================================== *)

Module Kappa.

(** A decoded JSON value ([any] after [encoding/json]); numbers keep
    their literal. *)
#[local] Unset Elimination Schemes.
Inductive JSON :=
| JNull
| JBool (b : bool)
| JNumber (literal : string)
| JString (s : string)
| JArray (items : list JSON)
| JObject (fields : list (string * JSON)).
#[local] Set Elimination Schemes.

Record KappaEvent := {
  eBody : gmap string JSON;
  ePath : string;
  eHTTPMethod : string;
  eHeaders : gmap string string;
  eQueryParams : gmap string string;
  eRequestID : string
}.

Record KappaResponse := {
  rStatusCode : Z;
  rHeaders : gmap string string;
  rBody : gmap string JSON;
  rRequestID : string
}.

(** [*time.Timer]: the duration it was last set to and whether it is
    still pending ([active = false] once stopped or fired). *)
Record Timer := { duration : Z; active : bool }.

Record KappaFunction := {
  Name : string;
  BinaryPath : string;
  Image : string;
  Env : list string;
  Port : Z;
  container : option Cont.Container;
  containerURL : string;
  logs : list string;
  isRunning : bool;
  requestsProcessed : Z;
  idleTimeout : Z;
  idleTimer : option Timer
}.

Definition Minute : Z := 60 * 1000000000.
Definition Second : Z := 1000000000.

(** Go's [int] on the 64-bit targets the service is built for. *)
Definition wrap64 (z : Z) : Z := (z + 2^63) `mod` 2^64 - 2^63.

Definition NewKappaFunction (name binaryPath image : string)
    (env : list string) (port : Z) : KappaFunction :=
  {| Name := name; BinaryPath := binaryPath; Image := image; Env := env;
     Port := port; container := None; containerURL := ""; logs := [];
     isRunning := false; requestsProcessed := 0;
     idleTimeout := 5 * Minute; idleTimer := None |}.

(** Field updates, one per assignment of the source. *)
Definition set_container (c : option Cont.Container) (lf : KappaFunction) :=
  {| Name := Name lf; BinaryPath := BinaryPath lf; Image := Image lf;
     Env := Env lf; Port := Port lf; container := c;
     containerURL := containerURL lf; logs := logs lf;
     isRunning := isRunning lf; requestsProcessed := requestsProcessed lf;
     idleTimeout := idleTimeout lf; idleTimer := idleTimer lf |}.
Definition set_containerURL (u : string) (lf : KappaFunction) :=
  {| Name := Name lf; BinaryPath := BinaryPath lf; Image := Image lf;
     Env := Env lf; Port := Port lf; container := container lf;
     containerURL := u; logs := logs lf;
     isRunning := isRunning lf; requestsProcessed := requestsProcessed lf;
     idleTimeout := idleTimeout lf; idleTimer := idleTimer lf |}.
Definition set_logs (l : list string) (lf : KappaFunction) :=
  {| Name := Name lf; BinaryPath := BinaryPath lf; Image := Image lf;
     Env := Env lf; Port := Port lf; container := container lf;
     containerURL := containerURL lf; logs := l;
     isRunning := isRunning lf; requestsProcessed := requestsProcessed lf;
     idleTimeout := idleTimeout lf; idleTimer := idleTimer lf |}.
Definition set_isRunning (b : bool) (lf : KappaFunction) :=
  {| Name := Name lf; BinaryPath := BinaryPath lf; Image := Image lf;
     Env := Env lf; Port := Port lf; container := container lf;
     containerURL := containerURL lf; logs := logs lf;
     isRunning := b; requestsProcessed := requestsProcessed lf;
     idleTimeout := idleTimeout lf; idleTimer := idleTimer lf |}.
Definition set_requestsProcessed (n : Z) (lf : KappaFunction) :=
  {| Name := Name lf; BinaryPath := BinaryPath lf; Image := Image lf;
     Env := Env lf; Port := Port lf; container := container lf;
     containerURL := containerURL lf; logs := logs lf;
     isRunning := isRunning lf; requestsProcessed := n;
     idleTimeout := idleTimeout lf; idleTimer := idleTimer lf |}.
Definition set_idleTimeout (d : Z) (lf : KappaFunction) :=
  {| Name := Name lf; BinaryPath := BinaryPath lf; Image := Image lf;
     Env := Env lf; Port := Port lf; container := container lf;
     containerURL := containerURL lf; logs := logs lf;
     isRunning := isRunning lf; requestsProcessed := requestsProcessed lf;
     idleTimeout := d; idleTimer := idleTimer lf |}.
Definition set_idleTimer (t : option Timer) (lf : KappaFunction) :=
  {| Name := Name lf; BinaryPath := BinaryPath lf; Image := Image lf;
     Env := Env lf; Port := Port lf; container := container lf;
     containerURL := containerURL lf; logs := logs lf;
     isRunning := isRunning lf; requestsProcessed := requestsProcessed lf;
     idleTimeout := idleTimeout lf; idleTimer := t |}.

(** [SetIdleTimeout]: a timer that exists is reset to the new duration. *)
Definition SetIdleTimeout (lf : KappaFunction) (d : Z) : KappaFunction :=
  let lf := set_idleTimeout d lf in
  match idleTimer lf with
  | Some _ => set_idleTimer (Some {| duration := d; active := true |}) lf
  | None => lf
  end.

(** [resetIdleTimer]: stop the old timer if any, arm a new one. *)
Definition resetIdleTimer (lf : KappaFunction) : KappaFunction :=
  set_idleTimer (Some {| duration := idleTimeout lf; active := true |}) lf.

(** [cancelIdleTimer]: stop the timer and forget it. *)
Definition cancelIdleTimer (lf : KappaFunction) : KappaFunction :=
  match idleTimer lf with
  | Some _ => set_idleTimer None lf
  | None => lf
  end.

(** The callback [Start] hands to [StreamLogs]. *)
Definition logCallback (lf : KappaFunction) (line : string) : KappaFunction :=
  let l := logs lf ++ [line] in
  if decide (1000 < length l)%nat
  then set_logs (drop (length l - 1000)%nat l) lf
  else set_logs l lf.

(** *** Start and Stop *)

(** Calls that reach outside the instance, in order. *)
Inductive Effect :=
| FxMkdirTemp (pattern : string)
| FxLink (src dst : string)
| FxCopyFile (src dst : string)
| FxChmod (path : string)
| FxNewContainer (cfg : Cont.ContainerConfig)
| FxContainerStart (cfg : Cont.ContainerConfig)
| FxStreamLogs
| FxContainerStop (opts : Cont.StopOptions) (calls : list Cont.Call).

Inductive StartError :=
| FailedCreateTempDir
| FailedCopyBinary
| FailedMakeExecutable
| FailedCreateContainer (e : Cont.Error)
| FailedStartContainer (e : Cont.Error)
| FailedStreamLogs (e : Cont.Error).

Inductive StopError :=
| FailedStopContainer (e : Cont.Error).

(** What the outside answers during [Start]. *)
Record StartWorld := {
  mkdirTemp : option string;        (* os.MkdirTemp: the path, or an error *)
  linkOk : bool;                    (* os.Link *)
  copyOk : bool;                    (* copyFile *)
  chmodOk : bool;                   (* os.Chmod *)
  nameUUID : string;                (* uuid.New().String() *)
  connectOk : bool;                 (* containerd.New, in NewContainer *)
  engineStart : Cont.StartOutcome;  (* container.Start *)
  earlyLogs : list string           (* lines pumped before StreamLogs *)
}.

(** The [cont.ContainerConfig] literal of [Start]. *)
Definition containerConfig (lf : KappaFunction) (tmpPath uuid : string)
  : Cont.ContainerConfig :=
  let env :=
    [ "PORT=" +:+ pretty (Port lf);
      "LAMBDA_TASK_ROOT=/app";
      "LAMBDA_FUNCTION_NAME=" +:+ Name lf;
      "AWS_LAMBDA_RUNTIME_API=localhost:8080" ] ++ Env lf in
  {| Cont.Image := Image lf;
     Cont.Name := "kappa-" +:+ Name lf +:+ "-" +:+ uuid;
     Cont.Command := Some ["/app/main"];
     Cont.Env := Some env;
     Cont.Namespace := "kappa";
     Cont.Mounts :=
       [ {| Cont.mType := "bind"; Cont.mSource := tmpPath;
            Cont.mDestination := "/app";
            Cont.mOptions := ["rbind"; "rw"] |} ];
     Cont.RemoveOpts :=
       {| Cont.RemoveSnapshotIfExists := true;
          Cont.RemoveContainerIfExists := true |} |}.

Definition Start (lf : KappaFunction) (w : StartWorld)
  : option StartError * KappaFunction * list Effect :=
  if isRunning lf then (None, lf, []) (* Already running *)
  else
    let fx := [FxMkdirTemp ("kappa-kappa-" +:+ Name lf +:+ "-*")] in
    match mkdirTemp w with
    | None => (Some FailedCreateTempDir, lf, fx)
    | Some tmpPath =>
        let destBinary := tmpPath +:+ "/main" in
        let fx := fx ++ [FxLink (BinaryPath lf) destBinary] in
        let fx := if linkOk w then fx
                  else fx ++ [FxCopyFile (BinaryPath lf) destBinary] in
        if negb (linkOk w) && negb (copyOk w)
        then (Some FailedCopyBinary, lf, fx)
        else
          let fx := fx ++ [FxChmod destBinary] in
          if negb (chmodOk w) then (Some FailedMakeExecutable, lf, fx)
          else
            let cfg := containerConfig lf tmpPath (nameUUID w) in
            let fx := fx ++ [FxNewContainer cfg] in
            match Cont.NewContainer cfg (connectOk w) with
            | inl e => (Some (FailedCreateContainer e), lf, fx)
            | inr c =>
                let c := Cont.RegisterTmpDir c tmpPath in
                let fx := fx ++ [FxContainerStart (Cont.config c)] in
                match Cont.Start c (engineStart w) with
                | (Some e, _) => (Some (FailedStartContainer e), lf, fx)
                | (None, c) =>
                    let c := foldl Cont.processLogs c (earlyLogs w) in
                    let fx := fx ++ [FxStreamLogs] in
                    match Cont.StreamLogs c with
                    | inl e => (Some (FailedStreamLogs e), lf, fx)
                    | inr replayed =>
                        let lf := foldl logCallback lf replayed in
                        let lf := set_container (Some c) lf in
                        let lf := set_containerURL
                                    ("http://localhost:" +:+ pretty (Port lf)) lf in
                        let lf := set_isRunning true lf in
                        let lf := resetIdleTimer lf in
                        (None, lf, fx)
                    end
                end
            end
    end.

Definition stopOpts : Cont.StopOptions :=
  {| Cont.Timeout := 10 * Second; Cont.ForceKill := true;
     Cont.RemoveOnStop := true |}.

(** [Stop].  [lf.container] is a pointer: what [container.Stop] does to
    the adapter object is seen through the field afterwards. *)
Definition Stop (lf : KappaFunction) (w : Cont.StopWorld)
  : option StopError * KappaFunction * list Effect :=
  match isRunning lf, container lf with
  | true, Some c =>
      let lf := cancelIdleTimer lf in
      let '(err, c', calls) := Cont.Stop c stopOpts w in
      let lf := set_container (Some c') lf in
      let fx := [FxContainerStop stopOpts calls] in
      match err with
      | Some e => (Some (FailedStopContainer e), lf, fx)
      | None => (None, set_isRunning false lf, fx)
      end
  | _, _ => (None, lf, []) (* Already stopped *)
  end.

(** The function [resetIdleTimer] gives to [time.AfterFunc], run when a
    pending timer expires. *)
Definition idleTimerFire (lf : KappaFunction) (w : Cont.StopWorld)
  : option StopError * KappaFunction * list Effect :=
  match idleTimer lf with
  | Some t =>
      if active t then
        let lf := set_idleTimer
                    (Some {| duration := duration t; active := false |}) lf in
        if isRunning lf then Stop lf w else (None, lf, [])
      else (None, lf, [])
  | None => (None, lf, [])
  end.

(** *** Invoke *)

(** Errors of [client.Do]. *)
Inductive DoErr := DialError | ReadWriteError | TimeoutError | CanceledError.

(** [client.Do] answers with a response, whose body then decodes into a
    [KappaResponse] or does not, or with an error. *)
Inductive DoResult :=
| DoOk (decoded : option KappaResponse)
| DoFail (e : DoErr).

Inductive InvokeError :=
| FailedToStart (e : StartError)
| FailedToCreateRequest
| FailedToRestart (e : StartError)
| FailedAfterRestart (e : DoErr)
| FailedToInvoke (e : DoErr)
| FailedToDecode.

(** What [Invoke] does, in order: calls of the instance's own [Start]
    and [Stop] with their result and effects, requests sent, sleeps. *)
Inductive Step :=
| IStart (err : option StartError) (fx : list Effect)
| IStop (err : option StopError) (fx : list Effect)
| IPost (url : string) (requestIdHeader : string) (payload : KappaEvent)
| ISleep (d : Z).

(** What the outside answers during [Invoke].  [idleFire] is the one
    interleaving kept from the concurrent program: the idle timer
    expiring while the first request is in flight. *)
Record InvokeWorld := {
  coldStartW : StartWorld;
  uuid : string;                       (* uuid.New().String() *)
  newRequestOk : bool;                 (* http.NewRequestWithContext *)
  post1 : DoResult;                    (* first client.Do *)
  idleFire : option Cont.StopWorld;
  restartStopW : Cont.StopWorld;
  restartStartW : StartWorld;
  post2 : DoResult                     (* client.Do after the restart *)
}.

Definition set_eRequestID (id : string) (e : KappaEvent) : KappaEvent :=
  {| eBody := eBody e; ePath := ePath e; eHTTPMethod := eHTTPMethod e;
     eHeaders := eHeaders e; eQueryParams := eQueryParams e;
     eRequestID := id |}.

Definition set_rRequestID (id : string) (r : KappaResponse) : KappaResponse :=
  {| rStatusCode := rStatusCode r; rHeaders := rHeaders r;
     rBody := rBody r; rRequestID := id |}.

(** Lines 251-287: make sure the function runs, reset the idle timer,
    give the event a request id, build the request.  The result is the
    event as it is sent and the request's URL. *)
Definition invokePrepare (lf : KappaFunction) (event : KappaEvent)
    (w : InvokeWorld)
  : (InvokeError + KappaEvent * string) * KappaFunction * list Step :=
  let '(serr, lf, tr) :=
    if negb (isRunning lf)
    then let '(e, lf', fx) := Start lf (coldStartW w) in (e, lf', [IStart e fx])
    else (None, lf, []) in
  match serr with
  | Some e => (inl (FailedToStart e), lf, tr)
  | None =>
      let lf := resetIdleTimer lf in
      let event := if decide (eRequestID event = "")
                   then set_eRequestID (uuid w) event else event in
      let url := containerURL lf +:+ "/2015-03-31/functions/function/invocations" in
      if negb (newRequestOk w) then (inl FailedToCreateRequest, lf, tr)
      else (inr (event, url), lf, tr)
  end.

(** The state of the instance when the first [client.Do] returns. *)
Definition duringPost (lf : KappaFunction) (w : InvokeWorld) : KappaFunction :=
  match idleFire w with
  | Some sw => (idleTimerFire lf sw).1.2
  | None => lf
  end.

(** Lines 320-336: decode, backfill the request id, count. *)
Definition invokeFinish (lf : KappaFunction) (event : KappaEvent)
    (decoded : option KappaResponse)
  : (InvokeError + KappaResponse) * KappaFunction :=
  match decoded with
  | None => (inl FailedToDecode, lf)
  | Some kappaResp =>
      let kappaResp := if decide (rRequestID kappaResp = "")
                       then set_rRequestID (eRequestID event) kappaResp
                       else kappaResp in
      (inr kappaResp,
       set_requestsProcessed (wrap64 (requestsProcessed lf + 1)) lf)
  end.

(** Lines 293-319: send, and on an error of [client.Do] restart once. *)
Definition invokeSend (lf : KappaFunction) (event : KappaEvent)
    (url : string) (w : InvokeWorld)
  : (InvokeError + KappaResponse) * KappaFunction * list Step :=
  let post := IPost url (eRequestID event) event in
  let lf := duringPost lf w in
  match post1 w with
  | DoOk decoded =>
      let '(r, lf) := invokeFinish lf event decoded in (r, lf, [post])
  | DoFail err =>
      if isRunning lf then
        let '(serr, lf, sfx) := Stop lf (restartStopW w) in
        let '(rerr, lf, rfx) := Start lf (restartStartW w) in
        let tr := [post; IStop serr sfx; IStart rerr rfx] in
        match rerr with
        | Some e => (inl (FailedToRestart e), lf, tr)
        | None =>
            let tr := tr ++ [ISleep (1 * Second); post] in
            match post2 w with
            | DoFail err => (inl (FailedAfterRestart err), lf, tr)
            | DoOk decoded =>
                let '(r, lf) := invokeFinish lf event decoded in (r, lf, tr)
            end
        end
      else (inl (FailedToInvoke err), lf, [post])
  end.

Definition Invoke (lf : KappaFunction) (event : KappaEvent) (w : InvokeWorld)
  : (InvokeError + KappaResponse) * KappaFunction * list Step :=
  match invokePrepare lf event w with
  | (inl e, lf, tr) => (inl e, lf, tr)
  | (inr (event, url), lf, tr) =>
      let '(r, lf, tr') := invokeSend lf event url w in (r, lf, tr ++ tr')
  end.

Definition GetLogs (lf : KappaFunction) : list string := logs lf.

Definition IsRunning (lf : KappaFunction) : bool := isRunning lf.

End Kappa.

(* ===================================================================== *)
(** ** The registry and its HTTP handlers (package main) *)
(* ===================================================================== *)

Module Service.

Import Kappa.

Record KappaFunctionConfig := {
  cName : string;
  cBinaryPath : string;
  cImage : string;
  cEnv : list string;
  cPort : Z
}.

(** [KappaService.functions]: the registry.  The router and the server
    carry no state of the handlers. *)
Abbreviation Registry := (gmap string KappaFunction).

(** The texts given to [http.Error]. *)
Inductive ErrorText :=
| InvalidRequest
| MissingRequiredFields
| BinaryNotFound (path : string)
| FunctionNotFound (name : string)
| InvalidRequestBody
| InvocationFailed (e : InvokeError)
| FailedToStopFunction (e : StopError).

Inductive ResponseBody :=
| ErrorBody (e : ErrorText)                 (* http.Error *)
| StringMap (fields : list (string * string)) (* a map[string]string, encoded *)
| LogsBody (name : string) (lines : list string)
| JSONBody (b : gmap string JSON)
| NoBody.                                   (* the write was refused *)

Record Response := {
  statusCode : Z;
  headers : gmap string string;
  body : ResponseBody
}.

Definition StatusOK : Z := 200.
Definition StatusCreated : Z := 201.
Definition StatusBadRequest : Z := 400.
Definition StatusNotFound : Z := 404.
Definition StatusInternalServerError : Z := 500.

Definition httpError (e : ErrorText) (code : Z) : Response :=
  {| statusCode := code; headers := ∅; body := ErrorBody e |}.

(** The answer of [os.Stat], as [os.IsNotExist] reads it. *)
Inductive StatResult := StatOk | StatNotExist | StatOtherError.

(** [registerFunction].  [req] is the decoded body, [None] when it does
    not decode; absent fields are the zero values. *)
Definition registerFunction (s : Registry)
    (req : option KappaFunctionConfig) (stat : StatResult)
  : Registry * Response :=
  match req with
  | None => (s, httpError InvalidRequest StatusBadRequest)
  | Some config =>
      if decide (cName config = "" ∨ cBinaryPath config = ""
                 ∨ cImage config = "")
      then (s, httpError MissingRequiredFields StatusBadRequest)
      else
        match stat with
        | StatNotExist =>
            (s, httpError (BinaryNotFound (cBinaryPath config)) StatusBadRequest)
        | _ =>
            let port := if decide (cPort config = 0) then 8080
                        else cPort config in
            let fn := NewKappaFunction (cName config) (cBinaryPath config)
                        (cImage config) (cEnv config) port in
            (<[cName config := fn]> s,
             {| statusCode := StatusCreated; headers := ∅;
                body := StringMap [("name", cName config);
                                   ("status", "registered")] |})
        end
  end.

(** The parts of an [*http.Request] the invoke handler reads. *)
Record Request := {
  reqBody : option (gmap string JSON);   (* decoded, [None] on failure *)
  reqPath : string;
  reqMethod : string;
  reqHeader : gmap string (list string);
  reqQuery : gmap string (list string)
}.

(** A handler answers, or answers after an informational response, or
    panics ([WriteHeader] with a code outside 100..999). *)
Inductive Outcome :=
| Responded (r : Response)
| RespondedAfter (informational : Z) (r : Response)
| Panicked.

(** Lines 165-174 of [invokeFunction]: the envelope's headers are set,
    then [w.WriteHeader(resp.StatusCode)], then the envelope's body is
    encoded to [w].  What the [http.ResponseWriter] makes of it:
    [WriteHeader] panics on a code outside 100..999; a 1xx code other
    than 101 goes out as an informational response and leaves the
    header open, so that the write of the body answers 200; with 101,
    204 and 304 the status stands and the write of the body is refused
    ([http.ErrBodyNotAllowed], which the handler does not look at). *)
Definition writeEnvelope (resp : KappaResponse) : Outcome :=
  let code := rStatusCode resp in
  if decide (code < 100 ∨ 999 < code) then Panicked
  else if decide (code = 101 ∨ code = 204 ∨ code = 304) then
    Responded {| statusCode := code; headers := rHeaders resp;
                 body := NoBody |}
  else if decide (code <= 199) then
    RespondedAfter code
      {| statusCode := StatusOK; headers := rHeaders resp;
         body := JSONBody (rBody resp) |}
  else
    Responded {| statusCode := code; headers := rHeaders resp;
                 body := JSONBody (rBody resp) |}.

Definition invokeFunction (s : Registry) (name : string) (r : Request)
    (w : InvokeWorld) : Registry * Outcome * list Step :=
  match s !! name with
  | None => (s, Responded (httpError (FunctionNotFound name) StatusNotFound), [])
  | Some fn =>
      match reqBody r with
      | None => (s, Responded (httpError InvalidRequestBody StatusBadRequest), [])
      | Some b =>
          let event :=
            {| eBody := b; ePath := reqPath r; eHTTPMethod := reqMethod r;
               eHeaders := omap head (reqHeader r);
               eQueryParams := omap head (reqQuery r);
               eRequestID := "" |} in
          let '(res, fn', tr) := Invoke fn event w in
          let s' := <[name := fn']> s in
          match res with
          | inl err =>
              (s', Responded (httpError (InvocationFailed err)
                                StatusInternalServerError), tr)
          | inr resp => (s', writeEnvelope resp, tr)
          end
      end
  end.

Definition deleteFunction (s : Registry) (name : string)
    (w : Cont.StopWorld) : Registry * Response * list Effect :=
  match s !! name with
  | None => (s, httpError (FunctionNotFound name) StatusNotFound, [])
  | Some fn =>
      let '(err, fn', fx) :=
        if IsRunning fn then Stop fn w else (None, fn, []) in
      match err with
      | Some e =>
          (<[name := fn']> s,
           httpError (FailedToStopFunction e) StatusInternalServerError, fx)
      | None =>
          (delete name s,
           {| statusCode := StatusOK; headers := ∅;
              body := StringMap [("name", name); ("status", "deleted")] |},
           fx)
      end
  end.

Definition getFunctionLogs (s : Registry) (name : string) : Response :=
  match s !! name with
  | None => httpError (FunctionNotFound name) StatusNotFound
  | Some fn =>
      {| statusCode := StatusOK;
         headers := {[ "Content-Type" := "application/json" ]};
         body := LogsBody name (GetLogs fn) |}
  end.

(** *** Histories

    What can happen to a registry, one event at a time: the three
    handlers that change it, and what reaches an instance without going
    through a handler (its methods called directly, its idle timer
    expiring, a log line arriving from its container). *)
Inductive Op :=
| OpRegister (req : option KappaFunctionConfig) (stat : StatResult)
| OpInvoke (name : string) (r : Request) (w : InvokeWorld)
| OpDelete (name : string) (w : Cont.StopWorld)
| OpStart (name : string) (w : StartWorld)
| OpStop (name : string) (w : Cont.StopWorld)
| OpIdleFire (name : string) (w : Cont.StopWorld)
| OpSetIdleTimeout (name : string) (d : Z)
| OpLog (name : string) (line : string).

(** Apply a method to the instance registered under [name], if any. *)
Definition onInstance (s : Registry) (name : string)
    (f : KappaFunction -> KappaFunction) : Registry :=
  match s !! name with
  | Some fn => <[name := f fn]> s
  | None => s
  end.

Definition step (s : Registry) (o : Op) : Registry :=
  match o with
  | OpRegister req stat => (registerFunction s req stat).1
  | OpInvoke name r w => (invokeFunction s name r w).1.1
  | OpDelete name w => (deleteFunction s name w).1.1
  | OpStart name w => onInstance s name (fun fn => (Start fn w).1.2)
  | OpStop name w => onInstance s name (fun fn => (Stop fn w).1.2)
  | OpIdleFire name w => onInstance s name (fun fn => (idleTimerFire fn w).1.2)
  | OpSetIdleTimeout name d => onInstance s name (fun fn => SetIdleTimeout fn d)
  | OpLog name line =>
      onInstance s name
        (fun fn => match container fn with
                   | Some _ => logCallback fn line
                   | None => fn
                   end)
  end.

Definition run (s : Registry) (ops : list Op) : Registry := foldl step s ops.

End Service.

(* ===================================================================== *)
(** ** Vocabulary of the properties *)
(* ===================================================================== *)

Module Spec.

Import Kappa.

(** The idle timer is armed: there is one and it is pending. *)
Definition timerArmed (lf : KappaFunction) : bool :=
  match idleTimer lf with
  | Some t => active t
  | None => false
  end.

(** The four-way equivalence of the data model. *)
Definition lifecycle_equivalence (lf : KappaFunction) : Prop :=
  (isRunning lf = true <-> is_Some (container lf))
  /\ (isRunning lf = true <-> containerURL lf <> "")
  /\ (isRunning lf = true <-> timerArmed lf = true).

(** What holds of every instance between two operations: a running
    instance has its container and its URL, and a timer exists only for
    a running instance. *)
Definition lifecycle_inv (lf : KappaFunction) : Prop :=
  (isRunning lf = true -> is_Some (container lf) /\ containerURL lf <> "")
  /\ (is_Some (idleTimer lf) -> isRunning lf = true).

(** The invariant, for every instance of a registry. *)
Definition registry_inv (s : gmap string KappaFunction) : Prop :=
  map_Forall (fun _ fn => lifecycle_inv fn) s.

(** The container field and the URL are set together. *)
Definition container_url_inv (lf : KappaFunction) : Prop :=
  is_Some (container lf) <-> containerURL lf <> "".

(** The log buffer is within its cap. *)
Definition bounded (lf : KappaFunction) : Prop :=
  (length (logs lf) <= 1000)%nat.

(** The taxonomy of the errors of the outbound request: dial, read and
    write errors are connection-level, an expired deadline and a
    cancelled context are not. *)
Definition connectionLevel (e : DoErr) : bool :=
  match e with
  | DialError | ReadWriteError => true
  | TimeoutError | CanceledError => false
  end.

(** The restarts of a trace of [Invoke]: its calls of [Stop]. *)
Definition isStop (s : Step) : bool :=
  match s with IStop _ _ => true | _ => false end.
Definition isPost (s : Step) : bool :=
  match s with IPost _ _ _ => true | _ => false end.
Definition restarts (tr : list Step) : nat := length (filter isStop tr).
Definition posts (tr : list Step) : nat := length (filter isPost tr).

End Spec.

(* ===================================================================== *)
(** ** Concrete worlds and instances used by the examples *)
(* ===================================================================== *)

Module Sample.

Import Kappa Service.

(** An engine in which everything works. *)
Definition removeOk : Cont.RemoveWorld :=
  {| Cont.rmStatusErr := None; Cont.taskDeleteErr := None;
     Cont.containerDeleteErr := None; Cont.removeAllFails := fun _ => false |}.

Definition stopOk : Cont.StopWorld :=
  {| Cont.statusRes := inl Cont.Running; Cont.killErr := None;
     Cont.waitErr := None; Cont.exitedInTime := true;
     Cont.forceKillErr := None; Cont.removeW := removeOk |}.

(** The task has exited already. *)
Definition stopExited : Cont.StopWorld :=
  {| Cont.statusRes := inl Cont.Stopped; Cont.killErr := None;
     Cont.waitErr := None; Cont.exitedInTime := true;
     Cont.forceKillErr := None; Cont.removeW := removeOk |}.

(** The engine refuses the kill. *)
Definition stopRefused : Cont.StopWorld :=
  {| Cont.statusRes := inl Cont.Running; Cont.killErr := Some Cont.ErrOther;
     Cont.waitErr := None; Cont.exitedInTime := true;
     Cont.forceKillErr := None; Cont.removeW := removeOk |}.

Definition startOk : StartWorld :=
  {| mkdirTemp := Some "/tmp/kappa-kappa-greet-1"; linkOk := true;
     copyOk := true; chmodOk := true;
     nameUUID := "123e4567-e89b-12d3-a456-426614174000";
     connectOk := true; engineStart := Cont.StartSucceeds;
     earlyLogs := [] |}.

Definition greetConfig : KappaFunctionConfig :=
  {| cName := "greet"; cBinaryPath := "/srv/greet"; cImage := "alpine:latest";
     cEnv := ["GREETING=hello"; "PORT=9"]; cPort := 0 |}.

Definition greet : KappaFunction :=
  NewKappaFunction "greet" "/srv/greet" "alpine:latest"
    ["GREETING=hello"; "PORT=9"] 8080.

Definition greetWarm : KappaFunction := (Start greet startOk).1.2.

(** A container handle that was created but never started. *)
Definition idleContainer : Cont.Container :=
  {| Cont.id := "kappa-greet-1"; Cont.mounts := []; Cont.container := None;
     Cont.task := None;
     Cont.config := containerConfig greet "/tmp/kappa-kappa-greet-1" "1";
     Cont.logs := []; Cont.tempDirs := ["/tmp/kappa-kappa-greet-1"] |}.

Definition startedContainer : Cont.Container :=
  (Cont.Start idleContainer Cont.StartSucceeds).2.

Definition emptyEvent : KappaEvent :=
  {| eBody := ∅; ePath := "/functions/greet"; eHTTPMethod := "POST";
     eHeaders := ∅; eQueryParams := ∅; eRequestID := "" |}.

Definition okResponse (id : string) : KappaResponse :=
  {| rStatusCode := 200; rHeaders := ∅; rBody := ∅; rRequestID := id |}.

Definition invokeOk : InvokeWorld :=
  {| coldStartW := startOk;
     uuid := "0b7e1c52-5d4e-4c1b-9d0a-6b1f3f2a9c11";
     newRequestOk := true;
     post1 := DoOk (Some (okResponse ""));
     idleFire := None;
     restartStopW := stopOk;
     restartStartW := startOk;
     post2 := DoOk (Some (okResponse "")) |}.

(** The first request times out; the retry is answered. *)
Definition invokeTimeout : InvokeWorld :=
  {| coldStartW := startOk;
     uuid := "0b7e1c52-5d4e-4c1b-9d0a-6b1f3f2a9c11";
     newRequestOk := true;
     post1 := DoFail TimeoutError;
     idleFire := None;
     restartStopW := stopOk;
     restartStartW := startOk;
     post2 := DoOk (Some (okResponse "")) |}.

(** The first request fails on dial and the restart cannot create its
    temp directory. *)
Definition invokeRestartFails : InvokeWorld :=
  {| coldStartW := startOk;
     uuid := "0b7e1c52-5d4e-4c1b-9d0a-6b1f3f2a9c11";
     newRequestOk := true;
     post1 := DoFail DialError;
     idleFire := None;
     restartStopW := stopOk;
     restartStartW :=
       {| mkdirTemp := None; linkOk := true; copyOk := true; chmodOk := true;
          nameUUID := ""; connectOk := true;
          engineStart := Cont.StartSucceeds; earlyLogs := [] |};
     post2 := DoOk (Some (okResponse "")) |}.

(** The idle timer expires while the first request is in flight, and the
    request then fails. *)
Definition invokeIdleFired : InvokeWorld :=
  {| coldStartW := startOk;
     uuid := "0b7e1c52-5d4e-4c1b-9d0a-6b1f3f2a9c11";
     newRequestOk := true;
     post1 := DoFail ReadWriteError;
     idleFire := Some stopOk;
     restartStopW := stopOk;
     restartStartW := startOk;
     post2 := DoOk (Some (okResponse "")) |}.

Definition emptyRequest : Request :=
  {| reqBody := Some ∅; reqPath := "/functions/greet"; reqMethod := "POST";
     reqHeader := ∅; reqQuery := ∅ |}.

End Sample.

(* ===================================================================== *)
(** ** What is at the path of a binary *)
(* ===================================================================== *)

Module Disk.

(** What [os.Stat] meets at a path: the file; an existing directory
    without the file ([ENOENT]); a file where the path needs a
    directory ([ENOTDIR]), so that nothing exists at the path; a
    directory that may not be searched ([EACCES]), behind which the file
    exists or does not. *)
Inductive PathState :=
| FileThere
| NoSuchFile
| ParentIsFile
| ParentNotSearchable (there : bool).


(** The answer of [os.Stat] as [os.IsNotExist] reads it: of the errors
    above it holds of [ENOENT] only. *)
Definition stat (p : PathState) : Service.StatResult :=
  match p with
  | FileThere => Service.StatOk
  | NoSuchFile => Service.StatNotExist
  | ParentIsFile | ParentNotSearchable _ => Service.StatOtherError
  end.

End Disk.

(* ===================================================================== *)
(** ** The idle timer expiring inside an invocation *)
(* ===================================================================== *)

Module Interleaving.

Import Kappa.

(** [Invoke] up to the re-arming of the idle timer (lines 251-266) on an
    instance it reads as running, when the idle timer expires after the
    read of [isRunning], which is done under the lock and used outside
    it, and before [resetIdleTimer]: the timer's function runs in
    between.  [None]: the instance is read as not running, and [Invoke]
    goes through [Start]. *)
Definition invokeHeadWithExpiry (lf : KappaFunction) (sw : Cont.StopWorld)
  : option KappaFunction :=
  if isRunning lf then Some (resetIdleTimer (idleTimerFire lf sw).1.2)
  else None.

End Interleaving.

(* ===================================================================== *)
(** ** Environment lists *)
(* ===================================================================== *)

Module Environ.

(** The key of an entry KEY=VALUE: what stands before the first [=]. *)
Fixpoint key (entry : string) : string :=
  match entry with
  | EmptyString => EmptyString
  | String c rest =>
      if decide (String c EmptyString = "=") then EmptyString
      else String c (key rest)
  end.

(** The entries of a key, in the order of the list. *)
Definition entriesOf (k : string) (env : list string) : list string :=
  filter (fun entry => key entry = k) env.

(** The entry of a key that is in effect when the entries are applied in
    the order of the list, each one replacing an earlier one of its key.
    This is the reading of an environment list under which the order of
    the list decides who wins a duplicate. *)
Definition effective (k : string) (env : list string) : option string :=
  last (entriesOf k env).

End Environ.

(* ===================================================================== *)
(** ** Observations on call sequences *)
(* ===================================================================== *)

Module Obs.

(** The signals sent, in order. *)
Definition kills (tr : list Cont.Call) : list Cont.Signal :=
  omap (fun c => match c with Cont.CKill s => Some s | _ => None end) tr.

(** The directories [os.RemoveAll] was called on, in order. *)
Definition removed (tr : list Cont.Call) : list string :=
  omap (fun c => match c with Cont.CRemoveAll d => Some d | _ => None end) tr.

(** Calls that destroy something: a task, a container, a directory. *)
Definition destroys (c : Cont.Call) : bool :=
  match c with
  | Cont.CTaskDelete | Cont.CContainerDelete | Cont.CRemoveAll _ => true
  | _ => false
  end.

(** An answer of the engine the adapter lets pass: success or not-found. *)
Definition benign (o : option Cont.EngineError) : Prop :=
  o <> Some Cont.ErrOther.

(** The signal [Stop] starts with. *)
Definition firstSignal (opts : Cont.StopOptions) : Cont.Signal :=
  if Cont.ForceKill opts then Cont.SIGKILL else Cont.SIGTERM.

End Obs.

(* ===================================================================== *)
(** ** The rest of the gateway (package main): list and shutdown *)
(* ===================================================================== *)

Module Gateway.

Import Kappa Service.

(** The [functionInfo] of [listFunctions]. *)
Record functionInfo := { fiName : string; fiIsRunning : bool }.

(** [listFunctions]: one entry per registered function.  A range over a
    Go map has no fixed order; [map_to_list] stands for the order of one
    run. *)
Definition listFunctions (s : Registry) : list functionInfo :=
  (fun p => {| fiName := p.1; fiIsRunning := IsRunning p.2 |})
    <$> map_to_list s.

(** [Shutdown]: stop every function that is running, log a warning for
    each stop that fails, then shut the HTTP server down and return its
    result.  Each function's [Stop] talks to the engine about its own
    container: [w name] is what the engine answers for the function
    [name].  The result is the registry, the warnings by function, and
    whether [server.Shutdown] failed. *)
Definition Shutdown (s : Registry) (w : string -> Cont.StopWorld)
    (serverFails : bool) : Registry * gmap string StopError * bool :=
  (map_imap (fun name fn =>
               Some (if IsRunning fn then (Stop fn (w name)).1.2 else fn)) s,
   map_imap (fun name fn =>
               if IsRunning fn then (Stop fn (w name)).1.1 else None) s,
   serverFails).

End Gateway.

(* ===================================================================== *)
(** ** Well-formed instances *)
(* ===================================================================== *)

Module Wf.

Import Kappa.

(** The URL [Start] gives to an instance. *)
Definition localURL (lf : KappaFunction) : string :=
  "http://localhost:" +:+ pretty (Port lf).

(** What registration fixes of an instance. *)
Definition sameFunction (lf lf' : KappaFunction) : Prop :=
  Name lf' = Name lf /\ BinaryPath lf' = BinaryPath lf
  /\ Image lf' = Image lf /\ Env lf' = Env lf /\ Port lf' = Port lf.

(** The state of an instance hangs together: a running instance is
    reached at its own port, a timer is set to the instance's idle
    timeout, and a container held by the instance was configured from
    the instance and has its task. *)
Definition instance_wf (lf : KappaFunction) : Prop :=
  (isRunning lf = true -> containerURL lf = localURL lf)
  /\ (forall t, idleTimer lf = Some t -> duration t = idleTimeout lf)
  /\ (forall c, container lf = Some c ->
        Cont.task c = Some Cont.taskHandle
        /\ exists tmpPath uuid,
             Cont.config c = containerConfig lf tmpPath uuid
             /\ Cont.id c = Cont.Name (containerConfig lf tmpPath uuid)).

(** One step of an instance: the function stays the same and a
    well-formed instance stays well-formed. *)
Definition keeps (lf lf' : KappaFunction) : Prop :=
  sameFunction lf lf' /\ (instance_wf lf -> instance_wf lf').

(** What [registerFunction] has checked of the instance under [name]. *)
Definition registered (name : string) (lf : KappaFunction) : Prop :=
  Name lf = name /\ name <> "" /\ BinaryPath lf <> "" /\ Image lf <> ""
  /\ Port lf <> 0.

(** Every entry of a registry is what was registered under its key and
    hangs together. *)
Definition registry_wf (s : gmap string KappaFunction) : Prop :=
  map_Forall (fun name fn => registered name fn /\ instance_wf fn) s.

(** The path of the invocation endpoint inside the container. *)
Definition invocationsPath : string :=
  "/2015-03-31/functions/function/invocations".

End Wf.

(* ===================================================================== *)
(** ** The container adapter: Close (package cont) *)
(* ===================================================================== *)

Module Closing.

Import Cont.

(** The errors [Close] joins. *)
Inductive CloseErr :=
| CleanupFailed (e : RemoveErr)
| ClientCloseFailed.

(** [GetLogs]: a copy of the stored lines. *)
Definition GetLogs (c : Container) : list string := logs c.

(** [Close] of a handle made by [NewContainer], whose client is set:
    drop the stored lines, [cleanup], close the client.  The result is
    the list of errors that is joined, empty for nil. *)
Definition Close (c : Container) (w : RemoveWorld) (clientCloseFails : bool)
  : list CloseErr * Container * list Call :=
  let c := {| id := id c; mounts := mounts c; container := container c;
              task := task c; config := config c; logs := [];
              tempDirs := tempDirs c |} in
  let '(cerr, c', tr) := cleanup c w in
  (match cerr with Some e => [CleanupFailed e] | None => [] end
   ++ (if clientCloseFails then [ClientCloseFailed] else []),
   c', tr).

End Closing.

(* ===================================================================== *)
(** ** The function side of an invocation (package handler) *)
(* ===================================================================== *)

Module Handler.

(** [Response] *)
Record Response := {
  StatusCode : Z;
  Headers : gmap string string;
  Body : Kappa.JSON;
  RequestID : string
}.

(** [Event] *)
Record Event := {
  evBody : gmap string Kappa.JSON;
  evPath : string;
  evHTTPMethod : string;
  evHeaders : gmap string string;
  evQueryParams : gmap string string;
  evRequestID : string
}.

(** [Handler]: a function from events to responses. *)
Definition HandlerFn := Event -> Response.

(** What the invocation handler reads of an [*http.Request]:
    [r.Method], [r.Header.Get], [r.URL.Path] and what
    [json.NewDecoder(r.Body).Decode] makes of the body ([None]: an
    error). *)
Record Request := {
  Method : string;
  HeaderGet : string -> string;
  URLPath : string;
  decoded : option Event
}.

(** What is written to the [http.ResponseWriter]: the status, the
    content type if the handler sets it, the value that is encoded. *)
Inductive Payload :=
| NoPayload
| InvalidRequestBody               (* {"error": "Invalid request body"} *)
| Encoded (r : Response).

Record Written := {
  wStatus : Z;
  wContentType : option string;
  wPayload : Payload
}.

(** The lines given to [log.Printf]. *)
Inductive LogLine :=
| LogRequest (requestID path : string)
| LogParseError
| LogResponse (requestID : string) (statusCode : Z).

Definition StatusOK : Z := 200.
Definition StatusBadRequest : Z := 400.
Definition StatusMethodNotAllowed : Z := 405.

(** The route [Start] registers the invocation handler under. *)
Definition invocationsRoute : string :=
  "/2015-03-31/functions/function/invocations".

Definition set_evRequestID (id : string) (e : Event) : Event :=
  {| evBody := evBody e; evPath := evPath e; evHTTPMethod := evHTTPMethod e;
     evHeaders := evHeaders e; evQueryParams := evQueryParams e;
     evRequestID := id |}.

(** The request id of lines 60-63. *)
Definition requestIDOf (r : Request) : string :=
  let requestID := HeaderGet r "Kappa-Runtime-Aws-Request-Id" in
  if decide (requestID = "") then "req-" +:+ HeaderGet r "X-Request-Id"
  else requestID.

(** [createInvocationHandler handler], applied to a request. *)
Definition createInvocationHandler (handler : HandlerFn) (r : Request)
  : Written * list LogLine :=
  if decide (Method r <> "POST") then
    ({| wStatus := StatusMethodNotAllowed; wContentType := None;
        wPayload := NoPayload |}, [])
  else
    let requestID := requestIDOf r in
    let log1 := LogRequest requestID (URLPath r) in
    match decoded r with
    | None =>
        ({| wStatus := StatusBadRequest; wContentType := None;
            wPayload := InvalidRequestBody |}, [log1; LogParseError])
    | Some event =>
        let event := if decide (evRequestID event = "")
                     then set_evRequestID requestID event else event in
        let response := handler event in
        ({| wStatus := StatusOK; wContentType := Some "application/json";
            wPayload := Encoded response |},
         [log1; LogResponse requestID (StatusCode response)])
    end.

(** [NewResponse] *)
Definition NewResponse (statusCode : Z) (body : Kappa.JSON)
    (requestID : string) : Response :=
  {| StatusCode := statusCode;
     Headers := {["Content-Type" := "application/json"]};
     Body := body; RequestID := requestID |}.

End Handler.

(* ===================================================================== *)
(** ** Containers by language (package runtime) *)
(* ===================================================================== *)

Module Runtime.

Record Runtime := {
  Language : string;
  Version : string;
  Code : gmap string string
}.

(** [RuntimeConfig].  The [SetupFn] of both language configurations is
    [os.MkdirAll] of one fixed directory: the field holds the
    directory, [None] for a nil function. *)
Record RuntimeConfig := {
  rcImage : string;
  rcCommand : option (list string);
  rcMounts : list Cont.Mount;
  rcEnv : option (list string);
  rcSetupFn : option string
}.

(** Calls that leave the process, in order.  A path built with
    [filepath.Join(tmpPath, path)] is kept as its two arguments: the
    code does not check [path], and with [..] in it the joined path
    lies outside [tmpPath]. *)
Inductive Fx :=
| FxMkdirTemp (pattern : string) (result : option string)
| FxMkdirAll (path : string)
| FxMkdirAllDirOf (tmpPath path : string)
| FxWriteFile (tmpPath path content : string)
| FxRemoveAll (path : string)
| FxNewContainer (cfg : Cont.ContainerConfig)
| FxStart
| FxWait
| FxStop (opts : Cont.StopOptions) (calls : list Cont.Call)
| FxReadDir (path : string)
| FxClose (calls : list Cont.Call).

Inductive SetupError :=
| SetupFailedTempDir
| SetupFailedNodeModulesDir
| SetupFailedAppDir
| SetupFailedWritePackageJSON
| SetupPackageJSONNotFound
| SetupFailedCreateContainer (e : Cont.Error)
| SetupFailedStart (e : Cont.Error)
| SetupFailedStreamLogs (e : Cont.Error)
| SetupFailedWait
| SetupNpmFailed (exitCode : N)
| SetupNpmTimedOut
| SetupFailedReadDir
| SetupNoModules.

Inductive Error :=
| FailedSetupNodeModules (e : SetupError)
| UnsupportedRuntime (language : string)
| FailedTempDir
| SetupFnFailed
| FailedCreateTmpDir
| FailedCreateDir (path : string)
| FailedWriteCode (path : string)
| ContainerError (e : Cont.Error).

(** What the outside answers during [setupNodeModules]. *)
Record SetupWorld := {
  sMkdirTemp : option string;     (* os.MkdirTemp *)
  sMkdirNodeModulesOk : bool;     (* os.MkdirAll(nodeModulesPath) *)
  sMkdirAppOk : bool;             (* os.MkdirAll(tmpPath+"/app") *)
  sWriteOk : bool;                (* os.WriteFile of package.json *)
  sUUID : string;
  sConnectOk : bool;
  sStart : Cont.StartOutcome;
  sWaitOk : bool;                 (* Task().Wait *)
  sExit : option N;               (* the exit code; None: 5 minutes first *)
  sStopW : Cont.StopWorld;
  sReadDir : option nat;          (* os.ReadDir: the number of entries *)
  sCloseW : Cont.RemoveWorld;
  sClientCloseFails : bool
}.

(** What the outside answers during [NewContainer].  [rangeOrder] is
    the order in which the range over [r.Code] visits its entries. *)
Record World := {
  setupW : SetupWorld;
  mkdirTemp : option string;
  setupFnOk : bool;
  mkdirTmpOk : bool;              (* os.MkdirAll(tmpPath) *)
  rangeOrder : list (string * string);
  mkdirDirOk : string -> bool;    (* os.MkdirAll(dir), by path *)
  writeFileOk : string -> bool;   (* os.WriteFile, by path *)
  nameUUID : string;
  connectOk : bool
}.

Definition nodeModulesPath : string :=
  "/var/kappa-v3/runtimes/nodejs/node_modules".

Definition removeOptions : Cont.RemoveOptions :=
  {| Cont.RemoveSnapshotIfExists := true;
     Cont.RemoveContainerIfExists := true |}.

Definition setupConfig (r : Runtime) (tmpPath uuid : string)
  : Cont.ContainerConfig :=
  {| Cont.Image := "docker.io/library/node:" +:+ Version r;
     Cont.Name := uuid;
     Cont.Namespace := "";
     Cont.Command := Some ["npm"; "install"; "--verbose"];
     Cont.Env := Some [];
     Cont.Mounts :=
       [ {| Cont.mType := "linux"; Cont.mSource := tmpPath;
            Cont.mDestination := "/app";
            Cont.mOptions := ["rbind"; "rw"] |};
         {| Cont.mType := "linux"; Cont.mSource := nodeModulesPath;
            Cont.mDestination := "/app/node_modules";
            Cont.mOptions := ["rbind"; "rw"] |} ];
     Cont.RemoveOpts := removeOptions |}.

Definition timeoutStopOpts : Cont.StopOptions :=
  {| Cont.Timeout := 30 * Kappa.Second; Cont.ForceKill := true;
     Cont.RemoveOnStop := true |}.

Definition cleanStopOpts : Cont.StopOptions :=
  {| Cont.Timeout := 30 * Kappa.Second; Cont.ForceKill := false;
     Cont.RemoveOnStop := true |}.

(** [setupNodeModules] from the start of the setup container on
    (lines 100-164); the deferred function runs after it. *)
Definition setupRun (c : Cont.Container) (w : SetupWorld)
  : option SetupError * Cont.Container * list Fx :=
  let '(serr, c) := Cont.Start c (sStart w) in
  match serr with
  | Some e => (Some (SetupFailedStart e), c, [FxStart])
  | None =>
      match Cont.StreamLogs c with
      | inl e => (Some (SetupFailedStreamLogs e), c, [FxStart])
      | inr _ =>
          if negb (sWaitOk w) then (Some SetupFailedWait, c, [FxStart; FxWait])
          else
            match sExit w with
            | Some exitCode =>
                if decide (exitCode <> 0%N) then
                  (Some (SetupNpmFailed exitCode), c, [FxStart; FxWait])
                else
                  let '(_, c, calls) := Cont.Stop c cleanStopOpts (sStopW w) in
                  let tr := [FxStart; FxWait; FxStop cleanStopOpts calls;
                             FxReadDir nodeModulesPath] in
                  match sReadDir w with
                  | None => (Some SetupFailedReadDir, c, tr)
                  | Some O => (Some SetupNoModules, c, tr)
                  | Some (S _) => (None, c, tr)
                  end
            | None =>
                let '(_, c, calls) := Cont.Stop c timeoutStopOpts (sStopW w) in
                (Some SetupNpmTimedOut, c,
                 [FxStart; FxWait; FxStop timeoutStopOpts calls])
            end
      end
  end.

Definition setupNodeModules (r : Runtime) (w : SetupWorld)
  : option SetupError * list Fx :=
  let mk := FxMkdirTemp "kappa-v3-setup-*" (sMkdirTemp w) in
  match sMkdirTemp w with
  | None => (Some SetupFailedTempDir, [mk])
  | Some tmpPath =>
      let rm := FxRemoveAll tmpPath in
      let tr := [mk; FxMkdirAll nodeModulesPath] in
      if negb (sMkdirNodeModulesOk w)
      then (Some SetupFailedNodeModulesDir, tr ++ [rm])
      else
        let tr := tr ++ [FxMkdirAll (tmpPath +:+ "/app")] in
        if negb (sMkdirAppOk w) then (Some SetupFailedAppDir, tr ++ [rm])
        else
          match Code r !! "package.json" with
          | None => (Some SetupPackageJSONNotFound, tr ++ [rm])
          | Some pkgJSON =>
              let tr := tr ++ [FxWriteFile tmpPath "package.json" pkgJSON] in
              if negb (sWriteOk w)
              then (Some SetupFailedWritePackageJSON, tr ++ [rm])
              else
                let cfg := setupConfig r tmpPath (sUUID w) in
                let tr := tr ++ [FxNewContainer cfg] in
                match Cont.NewContainer cfg (sConnectOk w) with
                | inl e => (Some (SetupFailedCreateContainer e), tr ++ [rm])
                | inr c =>
                    let '(err, c, body) := setupRun c w in
                    let '(_, _, calls) :=
                      Closing.Close c (sCloseW w) (sClientCloseFails w) in
                    (err, tr ++ body ++ [FxClose calls; rm])
                end
          end
  end.

(** [languageConfigs] *)
Definition languageConfigs (language : string)
  : option (string -> string -> RuntimeConfig) :=
  if decide (language = "nodejs") then
    Some (fun version tmpPath =>
      {| rcImage := "docker.io/library/node:" +:+ version;
         rcCommand := Some ["node"; "index.js"];
         rcMounts :=
           [ {| Cont.mType := "linux"; Cont.mSource := tmpPath;
                Cont.mDestination := "/app";
                Cont.mOptions := ["rbind"; "rw"] |};
             {| Cont.mType := "linux";
                Cont.mSource := "/var/kappa-v3/runtimes/nodejs/node_modules";
                Cont.mDestination := "/app/node_modules";
                Cont.mOptions := ["rbind"; "ro"] |} ];
         rcEnv := Some [];
         rcSetupFn := Some "/var/kappa-v3/runtimes/nodejs/node_modules" |})
  else if decide (language = "golang") then
    Some (fun version tmpPath =>
      {| rcImage := "docker.io/library/golang:" +:+ version;
         rcCommand := Some ["go"; "run"; "/app/main.go"];
         rcMounts :=
           [ {| Cont.mType := "linux";
                Cont.mSource := "/var/kappa-v3/runtimes/golang/pkg";
                Cont.mDestination := "/go/pkg";
                Cont.mOptions := ["rbind"; "ro"] |} ];
         rcEnv := None;
         rcSetupFn := Some "/var/kappa-v3/runtimes/golang/pkg" |})
  else None.

(** The loop of [createCodeDirs] over the entries in the order of the
    range. *)
Fixpoint writeCode (tmpPath : string) (entries : list (string * string))
    (w : World) : option Error * list Fx :=
  match entries with
  | [] => (None, [])
  | (path, code) :: rest =>
      if negb (mkdirDirOk w path)
      then (Some (FailedCreateDir path), [FxMkdirAllDirOf tmpPath path])
      else if negb (writeFileOk w path)
      then (Some (FailedWriteCode path),
            [FxMkdirAllDirOf tmpPath path; FxWriteFile tmpPath path code])
      else
        let '(e, tr) := writeCode tmpPath rest w in
        (e, FxMkdirAllDirOf tmpPath path :: FxWriteFile tmpPath path code :: tr)
  end.

Definition createCodeDirs (tmpPath : string) (w : World)
  : option Error * list Fx :=
  if negb (mkdirTmpOk w) then (Some FailedCreateTmpDir, [FxMkdirAll tmpPath])
  else
    let '(e, tr) := writeCode tmpPath (rangeOrder w) w in
    (e, FxMkdirAll tmpPath :: tr).

Definition containerConfig (rc : RuntimeConfig) (uuid : string)
  : Cont.ContainerConfig :=
  {| Cont.Image := rcImage rc; Cont.Name := uuid; Cont.Namespace := "";
     Cont.Command := rcCommand rc; Cont.Env := rcEnv rc;
     Cont.Mounts := rcMounts rc; Cont.RemoveOpts := removeOptions |}.

(** [Runtime.NewContainer] *)
Definition NewContainer (r : Runtime) (w : World)
  : (Error + Cont.Container) * list Fx :=
  let '(serr, tr0) :=
    if decide (Language r = "nodejs") then setupNodeModules r (setupW w)
    else (None, []) in
  match serr with
  | Some e => (inl (FailedSetupNodeModules e), tr0)
  | None =>
      match languageConfigs (Language r) with
      | None => (inl (UnsupportedRuntime (Language r)), tr0)
      | Some configFn =>
          let tr := tr0 ++ [FxMkdirTemp "kappa-v3-*" (mkdirTemp w)] in
          match mkdirTemp w with
          | None => (inl FailedTempDir, tr)
          | Some tmpPath =>
              let runtimeConfig := configFn (Version r) tmpPath in
              let rm := FxRemoveAll tmpPath in
              let '(ferr, tr1) :=
                match rcSetupFn runtimeConfig with
                | Some dir =>
                    (if setupFnOk w then None else Some SetupFnFailed,
                     [FxMkdirAll dir])
                | None => (None, [])
                end in
              match ferr with
              | Some e => (inl e, tr ++ tr1 ++ [rm])
              | None =>
                  let '(cerr, tr2) := createCodeDirs tmpPath w in
                  match cerr with
                  | Some e => (inl e, tr ++ tr1 ++ tr2 ++ [rm])
                  | None =>
                      let config := containerConfig runtimeConfig (nameUUID w) in
                      let tr3 := tr ++ tr1 ++ tr2 ++ [FxNewContainer config] in
                      match Cont.NewContainer config (connectOk w) with
                      | inl e => (inl (ContainerError e), tr3 ++ [rm])
                      | inr container =>
                          (inr (Cont.RegisterTmpDir container tmpPath), tr3)
                      end
                  end
              end
          end
      end
  end.

(** The temp directories [os.MkdirTemp] made, and the paths given to
    [os.RemoveAll], in order. *)
Definition made (tr : list Fx) : list string :=
  omap (fun f => match f with FxMkdirTemp _ (Some p) => Some p | _ => None end)
       tr.

Definition removed (tr : list Fx) : list string :=
  omap (fun f => match f with FxRemoveAll p => Some p | _ => None end) tr.

(** The files written under a directory. *)
Definition written (tmpPath : string) (tr : list Fx)
  : list (string * string) :=
  omap (fun f => match f with
                 | FxWriteFile t path code =>
                     if decide (t = tmpPath) then Some (path, code) else None
                 | _ => None
                 end) tr.

End Runtime.

Module RuntimeSample.

Definition setupOk : Runtime.SetupWorld :=
  {| Runtime.sMkdirTemp := Some "/tmp/kappa-v3-setup-1";
     Runtime.sMkdirNodeModulesOk := true; Runtime.sMkdirAppOk := true;
     Runtime.sWriteOk := true; Runtime.sUUID := "setup-1";
     Runtime.sConnectOk := true; Runtime.sStart := Cont.StartSucceeds;
     Runtime.sWaitOk := true; Runtime.sExit := Some 0%N;
     Runtime.sStopW := Sample.stopExited; Runtime.sReadDir := Some 3%nat;
     Runtime.sCloseW := Sample.removeOk;
     Runtime.sClientCloseFails := false |}.

Definition nodeApp : Runtime.Runtime :=
  {| Runtime.Language := "nodejs"; Runtime.Version := "20";
     Runtime.Code := {["package.json" := "{}"]} |}.

Definition goApp : Runtime.Runtime :=
  {| Runtime.Language := "golang"; Runtime.Version := "1.22";
     Runtime.Code := {["main.go" := "package main"]} |}.

(** The container and the calls of [nodeApp] when everything works. *)
Definition nodeContainer : Cont.Container :=
  {| Cont.id := "run-1";
     Cont.mounts :=
       [ {| Cont.mType := "linux"; Cont.mSource := "/tmp/kappa-v3-2";
            Cont.mDestination := "/app";
            Cont.mOptions := ["rbind"; "rw"] |};
         {| Cont.mType := "linux";
            Cont.mSource := "/var/kappa-v3/runtimes/nodejs/node_modules";
            Cont.mDestination := "/app/node_modules";
            Cont.mOptions := ["rbind"; "ro"] |} ];
     Cont.container := None; Cont.task := None;
     Cont.config :=
       {| Cont.Image := "docker.io/library/node:20"; Cont.Name := "run-1";
          Cont.Namespace := "default";
          Cont.Command := Some ["node"; "index.js"]; Cont.Env := Some [];
          Cont.Mounts :=
            [ {| Cont.mType := "linux"; Cont.mSource := "/tmp/kappa-v3-2";
                 Cont.mDestination := "/app";
                 Cont.mOptions := ["rbind"; "rw"] |};
              {| Cont.mType := "linux";
                 Cont.mSource := "/var/kappa-v3/runtimes/nodejs/node_modules";
                 Cont.mDestination := "/app/node_modules";
                 Cont.mOptions := ["rbind"; "ro"] |} ];
          Cont.RemoveOpts := Runtime.removeOptions |};
     Cont.logs := []; Cont.tempDirs := ["/tmp/kappa-v3-2"] |}.

Definition worldOk (order : list (string * string)) : Runtime.World :=
  {| Runtime.setupW := setupOk;
     Runtime.mkdirTemp := Some "/tmp/kappa-v3-2";
     Runtime.setupFnOk := true; Runtime.mkdirTmpOk := true;
     Runtime.rangeOrder := order;
     Runtime.mkdirDirOk := fun _ => true;
     Runtime.writeFileOk := fun _ => true;
     Runtime.nameUUID := "run-1"; Runtime.connectOk := true |}.

Definition nodeTrace : list Runtime.Fx :=
  Eval vm_compute in
    (Runtime.NewContainer nodeApp (worldOk [("package.json", "{}")])).2.

End RuntimeSample.

Module HandlerSample.

(** A handler that answers with the request id it was given. *)
Definition echo : Handler.HandlerFn :=
  fun event =>
    Handler.NewResponse 200 (Kappa.JString (Handler.evRequestID event))
      (Handler.evRequestID event).

Definition greetEvent (id : string) : Handler.Event :=
  {| Handler.evBody := ∅; Handler.evPath := "/functions/greet";
     Handler.evHTTPMethod := "POST"; Handler.evHeaders := ∅;
     Handler.evQueryParams := ∅; Handler.evRequestID := id |}.

(** A POST as the supervisor sends it. *)
Definition post (id : string) (event : Handler.Event) : Handler.Request :=
  {| Handler.Method := "POST";
     Handler.HeaderGet :=
       fun key => if decide (key = "Kappa-Runtime-Aws-Request-Id")
                  then id else "";
     Handler.URLPath := Handler.invocationsRoute;
     Handler.decoded := Some event |}.

(** A POST of some other client, with an id of its own. *)
Definition foreignPost (event : Handler.Event) : Handler.Request :=
  {| Handler.Method := "POST";
     Handler.HeaderGet :=
       fun key => if decide (key = "X-Request-Id") then "42" else "";
     Handler.URLPath := Handler.invocationsRoute;
     Handler.decoded := Some event |}.

End HandlerSample.

(* ===================================================================== *)
(** ** The container adapter's Stop *)
(* ===================================================================== *)

Section ContStop.

Import Cont.

Lemma Stop_no_task c opts w :
  task c = None -> Stop c opts w = (Some NoRunningTask, c, []).
Proof. intros H. unfold Stop. now rewrite H. Qed.

Lemma Stop_not_running c opts w :
  task c <> None -> observedStatus w <> Running ->
  Stop c opts w =
    if RemoveOnStop opts
    then let '(e, c', tr) := Remove c (removeW w) in (e, c', CStatus :: tr)
    else (None, c, [CStatus]).
Proof.
  intros Ht Hs. unfold Stop.
  destruct (task c) as [t|]; [|congruence].
  now destruct (decide (observedStatus w <> Running)).
Qed.

End ContStop.

(** C6, as the code has it: with no task, [Stop] fails with "no running
    task found" and calls nothing; with a task that is not running
    (whatever the status query says, an error included) it goes straight to
    [Remove] when [RemoveOnStop] is set, its result being that of [Remove],
    and returns nil otherwise, the status query being its only call. *)
Theorem cont_stop_without_running_task (c : Cont.Container)
    (opts : Cont.StopOptions) (w : Cont.StopWorld) :
  (Cont.task c = None ->
     Cont.Stop c opts w = (Some Cont.NoRunningTask, c, []))
  /\ (Cont.task c <> None -> Cont.observedStatus w <> Cont.Running ->
        (Cont.RemoveOnStop opts = true ->
           Cont.Stop c opts w =
             (let '(e, c', tr) := Cont.Remove c (Cont.removeW w) in
              (e, c', Cont.CStatus :: tr)))
        /\ (Cont.RemoveOnStop opts = false ->
              Cont.Stop c opts w = (None, c, [Cont.CStatus]))).
Proof.
  split; [apply Stop_no_task|].
  intros Ht Hs. rewrite (Stop_not_running c opts w Ht Hs).
  split; intros ->; reflexivity.
Qed.

Lemma cont_stop_without_running_task_witness :
  Cont.Stop Sample.idleContainer Kappa.stopOpts Sample.stopOk
    = (Some Cont.NoRunningTask, Sample.idleContainer, [])
  /\ Cont.Stop Sample.startedContainer Kappa.stopOpts Sample.stopExited
     = (let '(e, c', tr) :=
          Cont.Remove Sample.startedContainer (Cont.removeW Sample.stopExited) in
        (e, c', Cont.CStatus :: tr)).
Proof.
  split.
  - apply (cont_stop_without_running_task
             Sample.idleContainer Kappa.stopOpts Sample.stopOk).
    reflexivity.
  - apply (cont_stop_without_running_task
             Sample.startedContainer Kappa.stopOpts Sample.stopExited).
    + discriminate.
    + discriminate.
    + reflexivity.
Defined.

(** C6 as the specification words it fails: a handle whose task is nil makes
    [Stop] return an error, although [RemoveOnStop] is set, and [Remove]
    is not reached (no call is made). *)
Lemma cont_stop_nil_task_fails :
  Cont.task Sample.idleContainer = None
  /\ Cont.RemoveOnStop Kappa.stopOpts = true
  /\ Cont.Stop Sample.idleContainer Kappa.stopOpts Sample.stopOk
     = (Some Cont.NoRunningTask, Sample.idleContainer, []).
Proof. repeat split. Qed.

(* ===================================================================== *)
(** ** The log buffer *)
(* ===================================================================== *)

Section LogBuffer.

Import Kappa.

Lemma logCallback_logs lf line :
  logs (logCallback lf line)
  = drop (length (logs lf ++ [line]) - 1000) (logs lf ++ [line]).
Proof.
  unfold logCallback. case_decide; simpl; [reflexivity|].
  replace (length (logs lf ++ [line]) - 1000)%nat with 0%nat by lia.
  reflexivity.
Qed.

(** The buffer is the last 1000 lines of everything it ever received,
    provided it was so at the start. *)
Lemma logs_foldl_logCallback lines : forall lf seen,
  logs lf = drop (length seen - 1000) seen ->
  logs (foldl logCallback lf lines)
  = drop (length (seen ++ lines) - 1000) (seen ++ lines).
Proof.
  induction lines as [|x lines IH]; intros lf seen H; simpl.
  - now rewrite app_nil_r.
  - rewrite (IH _ (seen ++ [x])).
    + now rewrite <- app_assoc.
    + rewrite logCallback_logs, H.
      rewrite <- (drop_app_le seen [x]) by lia.
      rewrite drop_drop. f_equal.
      rewrite length_drop, !length_app. simpl. lia.
Qed.

Lemma logCallback_length lf line :
  (length (logs lf) <= 1000 ->
   length (logs (logCallback lf line)) <= 1000)%nat.
Proof.
  intros H. rewrite logCallback_logs, length_drop, length_app. simpl. lia.
Qed.

End LogBuffer.

(** C3: whatever lines the log callback receives, one after the other, on
    a freshly registered function, the buffer holds the last 1000 of them
    (all of them while there are fewer) in the order received: its length
    is the smaller of their number and 1000. *)
Theorem log_buffer_keeps_last_1000 (name binaryPath image : string)
    (env : list string) (port : Z) (lines : list string) :
  let lf := foldl Kappa.logCallback
              (Kappa.NewKappaFunction name binaryPath image env port) lines in
  Kappa.GetLogs lf = drop (length lines - 1000) lines
  /\ length (Kappa.GetLogs lf) = Nat.min (length lines) 1000.
Proof.
  simpl. unfold Kappa.GetLogs.
  rewrite (logs_foldl_logCallback lines _ []) by reflexivity.
  simpl. split; [reflexivity|]. rewrite length_drop. lia.
Qed.

(* ===================================================================== *)
(** ** Start and Stop of an instance *)
(* ===================================================================== *)

Section StartStop.

Import Kappa.

(** The callback touches the log buffer only. *)
Lemma logCallback_set_logs lf line :
  logCallback lf line = set_logs (logs (logCallback lf line)) lf.
Proof. unfold logCallback. now case_decide. Qed.

Lemma foldl_logCallback_set_logs lines : forall lf,
  foldl logCallback lf lines
  = set_logs (logs (foldl logCallback lf lines)) lf.
Proof.
  induction lines as [|x lines IH]; intros lf; simpl.
  - now destruct lf.
  - rewrite IH at 1. now rewrite (logCallback_set_logs lf x) at 2.
Qed.

Lemma foldl_processLogs_fields lines : forall c,
  let c' := foldl Cont.processLogs c lines in
  Cont.config c' = Cont.config c /\ Cont.task c' = Cont.task c
  /\ Cont.container c' = Cont.container c
  /\ Cont.tempDirs c' = Cont.tempDirs c.
Proof.
  induction lines as [|x lines IH]; intros c; simpl; [tauto|].
  apply (IH (Cont.processLogs c x)).
Qed.

Lemma NewContainer_config cfg ok c :
  Cont.Namespace cfg <> "" ->
  Cont.NewContainer cfg ok = inr c -> Cont.config c = cfg.
Proof.
  intros Hns. unfold Cont.NewContainer.
  destruct (decide (Cont.Namespace cfg = "")); [congruence|].
  destruct (decide _); [discriminate|].
  destruct (negb ok); [discriminate|].
  intros [= <-]. reflexivity.
Qed.

Lemma Cont_Start_fields c o e c' :
  Cont.Start c o = (e, c') ->
  Cont.config c' = Cont.config c
  /\ (e = None -> Cont.task c' = Some Cont.taskHandle).
Proof.
  destruct o; intros [= <- <-]; simpl; split; congruence.
Qed.

(** What a successful cold start leaves behind. *)
Lemma Start_cold_success lf w lf' fx :
  isRunning lf = false ->
  Start lf w = (None, lf', fx) ->
  exists tmpPath c,
    mkdirTemp w = Some tmpPath
    /\ container lf' = Some c
    /\ Cont.config c = containerConfig lf tmpPath (nameUUID w)
    /\ Cont.task c = Some Cont.taskHandle
    /\ In (FxContainerStart (Cont.config c)) fx
    /\ isRunning lf' = true
    /\ containerURL lf' = "http://localhost:" +:+ pretty (Port lf)
    /\ idleTimer lf' = Some {| duration := idleTimeout lf; active := true |}.
Proof.
  intros Hr. unfold Start. rewrite Hr.
  destruct (mkdirTemp w) as [tmpPath|]; [|discriminate].
  destruct (negb (linkOk w) && negb (copyOk w)); [discriminate|].
  destruct (negb (chmodOk w)); [discriminate|].
  destruct (Cont.NewContainer _ _) as [e|c0] eqn:Hnew; [discriminate|].
  apply NewContainer_config in Hnew; [|discriminate].
  destruct (Cont.Start _ _) as [[e|] c1] eqn:Hst; [discriminate|].
  apply Cont_Start_fields in Hst as [Hcfg Htask]. specialize (Htask eq_refl).
  set (c2 := foldl Cont.processLogs c1 (earlyLogs w)).
  destruct (foldl_processLogs_fields (earlyLogs w) c1) as (Hc & Ht & _).
  fold c2 in Hc, Ht.
  unfold Cont.StreamLogs. rewrite Ht, Htask.
  intros [= <- <-].
  rewrite (foldl_logCallback_set_logs (Cont.logs c2) lf).
  exists tmpPath, c2. simpl. split_and!; try reflexivity.
  - rewrite Hc, Hcfg. exact Hnew.
  - now rewrite Ht.
  - rewrite Hc, Hcfg, !in_app_iff. simpl. tauto.
Qed.

Lemma Start_running lf w :
  isRunning lf = true -> Start lf w = (None, lf, []).
Proof. intros H. unfold Start. now rewrite H. Qed.

Lemma Stop_idle lf w :
  isRunning lf = false \/ container lf = None -> Stop lf w = (None, lf, []).
Proof.
  intros [H|H]; unfold Stop; rewrite H; [reflexivity|].
  now destruct (isRunning lf).
Qed.

(** A failed start leaves the instance as it was. *)
Lemma Start_failure lf w e lf' fx :
  Start lf w = (Some e, lf', fx) -> lf' = lf.
Proof.
  unfold Start. destruct (isRunning lf); [discriminate|].
  destruct (mkdirTemp w); [|now intros [= _ <- _]].
  destruct (_ && _); [now intros [= _ <- _]|].
  destruct (negb (chmodOk w)); [now intros [= _ <- _]|].
  destruct (Cont.NewContainer _ _); [now intros [= _ <- _]|].
  destruct (Cont.Start _ _) as [[?|] ?]; [now intros [= _ <- _]|].
  destruct (Cont.StreamLogs _); [now intros [= _ <- _]|discriminate].
Qed.

End StartStop.

Section EnvFacts.

Lemma entriesOf_app k a b :
  Environ.entriesOf k (a ++ b) = Environ.entriesOf k a ++ Environ.entriesOf k b.
Proof. apply filter_app. Qed.

Lemma effective_app k a b :
  Environ.effective k (a ++ b)
  = match Environ.effective k b with
    | Some e => Some e
    | None => Environ.effective k a
    end.
Proof. unfold Environ.effective. rewrite entriesOf_app. apply last_app. Qed.

Lemma effective_Some k env e :
  Environ.effective k env = Some e -> In e env /\ Environ.key e = k.
Proof.
  unfold Environ.effective, Environ.entriesOf. intros H.
  apply last_Some in H as [l' Hl].
  assert (Hin : e ∈ filter (fun entry => Environ.key entry = k) env).
  { rewrite Hl. apply elem_of_app. right. by apply list_elem_of_singleton. }
  apply list_elem_of_filter in Hin as [Hk Hin]. split; [|exact Hk].
  by apply list_elem_of_In.
Qed.

End EnvFacts.

(** C9: a cold start that succeeds created and started one container, and
    the environment in that container's configuration is the four base
    variables, in the order PORT, LAMBDA_TASK_ROOT, LAMBDA_FUNCTION_NAME,
    AWS_LAMBDA_RUNTIME_API, followed by the function's own entries in
    their order.  No entry is dropped: the entries of a key are the base
    entry, if the key is a base variable, followed by the function's own.
    So the function's entries win duplicates: with the entries applied in
    order, the entry in effect for a key the function gives is the
    function's last entry of that key, and a base variable is in effect
    for a key the function does not give. *)
Theorem start_environment (lf lf' : Kappa.KappaFunction)
    (w : Kappa.StartWorld) (fx : list Kappa.Effect) :
  Kappa.isRunning lf = false ->
  Kappa.Start lf w = (None, lf', fx) ->
  let base := [ "PORT=" +:+ pretty (Kappa.Port lf);
                "LAMBDA_TASK_ROOT=/app";
                "LAMBDA_FUNCTION_NAME=" +:+ Kappa.Name lf;
                "AWS_LAMBDA_RUNTIME_API=localhost:8080" ] in
  exists c,
    Kappa.container lf' = Some c
    /\ In (Kappa.FxContainerStart (Cont.config c)) fx
    /\ Cont.Env (Cont.config c) = Some (base ++ Kappa.Env lf)
    /\ (forall k,
          Environ.entriesOf k (base ++ Kappa.Env lf)
          = Environ.entriesOf k base ++ Environ.entriesOf k (Kappa.Env lf))
    /\ (forall k e,
          Environ.effective k (Kappa.Env lf) = Some e ->
          Environ.effective k (base ++ Kappa.Env lf) = Some e)
    /\ (forall k e,
          In e (Kappa.Env lf) -> Environ.key e = k ->
          exists e', Environ.effective k (base ++ Kappa.Env lf) = Some e'
                     /\ In e' (Kappa.Env lf))
    /\ (forall b,
          In b base ->
          Environ.effective (Environ.key b) (Kappa.Env lf) = None ->
          Environ.effective (Environ.key b) (base ++ Kappa.Env lf) = Some b).
Proof.
  intros Hr Hs base.
  destruct (Start_cold_success lf w lf' fx Hr Hs)
    as (tmpPath & c & _ & Hc & Hcfg & _ & Hin & _).
  exists c. split; [exact Hc|]. split; [exact Hin|].
  split; [rewrite Hcfg; reflexivity|].
  split; [intros k; apply entriesOf_app|].
  split; [|split].
  - intros k e He. rewrite effective_app, He. reflexivity.
  - intros k e Hine Hk.
    destruct (Environ.effective k (Kappa.Env lf)) as [e'|] eqn:He.
    + exists e'. rewrite effective_app, He. split; [reflexivity|].
      exact (proj1 (effective_Some _ _ _ He)).
    + exfalso. unfold Environ.effective in He. apply last_None in He.
      assert (Hel : e ∈ Environ.entriesOf k (Kappa.Env lf)).
      { apply list_elem_of_filter. split; [exact Hk|by apply list_elem_of_In]. }
      rewrite He in Hel. by apply not_elem_of_nil in Hel.
  - intros b Hb Hnone. rewrite effective_app, Hnone.
    destruct Hb as [<-|[<-|[<-|[<-|[]]]]]; reflexivity.
Qed.

Lemma start_environment_witness :
  exists c,
    Kappa.container Sample.greetWarm = Some c
    /\ In (Kappa.FxContainerStart (Cont.config c))
          (Kappa.Start Sample.greet Sample.startOk).2
    /\ Cont.Env (Cont.config c)
       = Some [ "PORT=8080"; "LAMBDA_TASK_ROOT=/app";
                "LAMBDA_FUNCTION_NAME=greet";
                "AWS_LAMBDA_RUNTIME_API=localhost:8080";
                "GREETING=hello"; "PORT=9" ]
    /\ Environ.effective "PORT"
         [ "PORT=8080"; "LAMBDA_TASK_ROOT=/app";
           "LAMBDA_FUNCTION_NAME=greet";
           "AWS_LAMBDA_RUNTIME_API=localhost:8080";
           "GREETING=hello"; "PORT=9" ] = Some "PORT=9"
    /\ Environ.effective "LAMBDA_TASK_ROOT"
         [ "PORT=8080"; "LAMBDA_TASK_ROOT=/app";
           "LAMBDA_FUNCTION_NAME=greet";
           "AWS_LAMBDA_RUNTIME_API=localhost:8080";
           "GREETING=hello"; "PORT=9" ] = Some "LAMBDA_TASK_ROOT=/app".
Proof.
  destruct (start_environment Sample.greet Sample.greetWarm Sample.startOk
              (Kappa.Start Sample.greet Sample.startOk).2 eq_refl eq_refl)
    as (c & Hc & Hin & Henv & _ & Hwin & _ & Hbase).
  exists c. split; [exact Hc|]. split; [exact Hin|]. split; [exact Henv|].
  split.
  - apply (Hwin "PORT" "PORT=9"). reflexivity.
  - apply (Hbase "LAMBDA_TASK_ROOT=/app"); [right; left; reflexivity|reflexivity].
Defined.

(** C10: [Start] on a running instance returns nil, leaves the instance as
    it is and calls nothing outside; so does [Stop] on an instance that is
    not running or has no container. *)
Theorem start_stop_idempotent (lf : Kappa.KappaFunction)
    (sw : Kappa.StartWorld) (pw : Cont.StopWorld) :
  (Kappa.isRunning lf = true -> Kappa.Start lf sw = (None, lf, []))
  /\ (Kappa.isRunning lf = false \/ Kappa.container lf = None ->
        Kappa.Stop lf pw = (None, lf, [])).
Proof. split; [apply Start_running|apply Stop_idle]. Qed.

Lemma start_stop_idempotent_witness :
  Kappa.Start Sample.greetWarm Sample.startOk = (None, Sample.greetWarm, [])
  /\ Kappa.Stop Sample.greet Sample.stopOk = (None, Sample.greet, []).
Proof.
  split.
  - apply (start_stop_idempotent Sample.greetWarm Sample.startOk Sample.stopOk).
    reflexivity.
  - apply (start_stop_idempotent Sample.greet Sample.startOk Sample.stopOk).
    left. reflexivity.
Defined.


(* ===================================================================== *)
(** ** The lifecycle invariant *)
(* ===================================================================== *)

Section Lifecycle.

Import Kappa Service Spec.

Lemma inv_New name binaryPath image env port :
  lifecycle_inv (NewKappaFunction name binaryPath image env port).
Proof.
  split; simpl; [discriminate|]. intros [t Ht]. discriminate.
Qed.

Lemma localhost_URL_nonempty p : "http://localhost:" +:+ p <> "".
Proof. discriminate. Qed.

Lemma inv_Start lf w : lifecycle_inv lf -> lifecycle_inv (Start lf w).1.2.
Proof.
  intros Hinv. destruct (isRunning lf) eqn:Hr.
  - now rewrite Start_running.
  - destruct (Start lf w) as [[[e|] lf'] fx] eqn:Hs; simpl.
    + now rewrite (Start_failure _ _ _ _ _ Hs).
    + destruct (Start_cold_success lf w lf' fx Hr Hs)
        as (tmp & c & _ & Hc & _ & _ & _ & Hrun & Hurl & _).
      split; [|now intros _].
      intros _. rewrite Hc, Hurl. split; [by eexists|].
      apply localhost_URL_nonempty.
Qed.

Lemma inv_Stop lf w : lifecycle_inv lf -> lifecycle_inv (Stop lf w).1.2.
Proof.
  intros Hinv. unfold Stop.
  destruct (isRunning lf) eqn:Hr; [|exact Hinv].
  destruct (container lf) as [c|] eqn:Hc; [|exact Hinv].
  destruct Hinv as [H1 _]. destruct (H1 Hr) as [_ Hurl].
  destruct (Cont.Stop c stopOpts w) as [[[e|] c'] calls]; simpl;
    unfold cancelIdleTimer; destruct (idleTimer lf) eqn:Ht; simpl;
    (split;
     [ simpl; intros Hrun;
       first [discriminate | split; [by eexists | exact Hurl]]
     | simpl; rewrite ?Ht; intros [? ?]; discriminate ]).
Qed.

Lemma inv_idleTimerFire lf w :
  lifecycle_inv lf -> lifecycle_inv (idleTimerFire lf w).1.2.
Proof.
  intros Hinv. unfold idleTimerFire.
  destruct (idleTimer lf) as [t|] eqn:Ht; [|exact Hinv].
  destruct (active t); [|exact Hinv]. simpl.
  assert (Hr : isRunning lf = true) by (apply Hinv; rewrite Ht; by eexists).
  rewrite Hr. apply inv_Stop.
  destruct Hinv as [H1 H2]. split; simpl; [exact H1|now intros _].
Qed.

Lemma inv_resetIdleTimer lf :
  isRunning lf = true -> lifecycle_inv lf -> lifecycle_inv (resetIdleTimer lf).
Proof. intros Hr [H1 H2]. split; simpl; [exact H1|now intros _]. Qed.

Lemma inv_SetIdleTimeout lf d :
  lifecycle_inv lf -> lifecycle_inv (SetIdleTimeout lf d).
Proof.
  intros [H1 H2]. unfold SetIdleTimeout. simpl.
  destruct (idleTimer lf) eqn:Ht; split; simpl; try exact H1.
  - intros _. apply H2. by eexists.
  - rewrite Ht. exact H2.
Qed.

Lemma inv_logCallback lf line :
  lifecycle_inv lf -> lifecycle_inv (logCallback lf line).
Proof. intros H. rewrite logCallback_set_logs. exact H. Qed.

Lemma inv_invokeFinish lf event decoded :
  lifecycle_inv lf -> lifecycle_inv (invokeFinish lf event decoded).2.
Proof. intros H. unfold invokeFinish. now destruct decoded. Qed.

Lemma inv_duringPost lf w : lifecycle_inv lf -> lifecycle_inv (duringPost lf w).
Proof.
  intros H. unfold duringPost. destruct (idleFire w); [|exact H].
  now apply inv_idleTimerFire.
Qed.

Lemma inv_invokePrepare lf event w :
  lifecycle_inv lf -> lifecycle_inv (invokePrepare lf event w).1.2.
Proof.
  intros Hinv. unfold invokePrepare.
  destruct (isRunning lf) eqn:Hr; simpl.
  - destruct (negb (newRequestOk w)); simpl; now apply inv_resetIdleTimer.
  - destruct (Start lf (coldStartW w)) as [[[e|] lf'] fx] eqn:Hs; simpl.
    + now rewrite (Start_failure _ _ _ _ _ Hs).
    + pose proof (inv_Start lf (coldStartW w) Hinv) as Hinv'.
      rewrite Hs in Hinv'. simpl in Hinv'.
      destruct (Start_cold_success lf _ lf' fx Hr Hs)
        as (_ & _ & _ & _ & _ & _ & _ & Hrun & _).
      destruct (negb (newRequestOk w)); simpl; now apply inv_resetIdleTimer.
Qed.

Lemma inv_invokeSend lf event url w :
  lifecycle_inv lf -> lifecycle_inv (invokeSend lf event url w).1.2.
Proof.
  intros Hinv. unfold invokeSend.
  pose proof (inv_duringPost lf w Hinv) as Hd.
  destruct (post1 w) as [decoded|err].
  - pose proof (inv_invokeFinish (duringPost lf w) event decoded Hd) as Hf.
    now destruct (invokeFinish _ _ _).
  - destruct (isRunning (duringPost lf w)); [|exact Hd].
    pose proof (inv_Stop _ (restartStopW w) Hd) as Hs.
    destruct (Stop _ _) as [[serr lf1] sfx]. simpl in Hs.
    pose proof (inv_Start _ (restartStartW w) Hs) as Hr.
    destruct (Start _ _) as [[[e|] lf2] rfx]; simpl in Hr; [exact Hr|].
    destruct (post2 w) as [decoded|err2]; [|exact Hr].
    pose proof (inv_invokeFinish lf2 event decoded Hr) as Hf.
    now destruct (invokeFinish _ _ _).
Qed.

Lemma inv_Invoke lf event w :
  lifecycle_inv lf -> lifecycle_inv (Invoke lf event w).1.2.
Proof.
  intros Hinv. unfold Invoke.
  pose proof (inv_invokePrepare lf event w Hinv) as Hp.
  destruct (invokePrepare lf event w) as [[[e|[ev url]] lf1] tr];
    simpl in Hp; [exact Hp|].
  pose proof (inv_invokeSend lf1 ev url w Hp) as Hs.
  now destruct (invokeSend _ _ _ _) as [[r lf2] tr'].
Qed.

Lemma inv_onInstance s name f :
  (forall fn, lifecycle_inv fn -> lifecycle_inv (f fn)) ->
  registry_inv s -> registry_inv (onInstance s name f).
Proof.
  intros Hf Hs. unfold onInstance.
  destruct (s !! name) as [fn|] eqn:Hl; [|exact Hs].
  apply map_Forall_insert_2; [|exact Hs]. apply Hf. exact (Hs _ _ Hl).
Qed.

Lemma inv_step s o : registry_inv s -> registry_inv (step s o).
Proof.
  intros Hs. destruct o as [req stat|name r w|name w|name w|name w|name w|name d|name line];
    simpl.
  - unfold registerFunction. destruct req as [config|]; [|exact Hs].
    destruct (decide _); [exact Hs|].
    destruct stat; simpl; try exact Hs;
      (apply map_Forall_insert_2; [apply inv_New|exact Hs]).
  - unfold invokeFunction. destruct (s !! name) as [fn|] eqn:Hl; [|exact Hs].
    destruct (reqBody r) as [b|]; [|exact Hs].
    pose proof (inv_Invoke fn
      {| eBody := b; ePath := reqPath r; eHTTPMethod := reqMethod r;
         eHeaders := omap head (reqHeader r);
         eQueryParams := omap head (reqQuery r); eRequestID := "" |}
      w (Hs _ _ Hl)) as Hi.
    destruct (Invoke _ _ _) as [[[err|resp] fn'] tr]; simpl in *.
    + now apply map_Forall_insert_2.
    + now apply map_Forall_insert_2.
  - unfold deleteFunction. destruct (s !! name) as [fn|] eqn:Hl; [|exact Hs].
    unfold IsRunning. destruct (isRunning fn).
    + pose proof (inv_Stop fn w (Hs _ _ Hl)) as Hi.
      destruct (Stop fn w) as [[[e|] fn'] fx]; simpl in *.
      * now apply map_Forall_insert_2.
      * now apply map_Forall_delete.
    + simpl. now apply map_Forall_delete.
  - apply inv_onInstance; [|exact Hs]. intros fn. apply inv_Start.
  - apply inv_onInstance; [|exact Hs]. intros fn. apply inv_Stop.
  - apply inv_onInstance; [|exact Hs]. intros fn. apply inv_idleTimerFire.
  - apply inv_onInstance; [|exact Hs]. intros fn H. now apply inv_SetIdleTimeout.
  - apply inv_onInstance; [|exact Hs]. intros fn H.
    destruct (container fn); [now apply inv_logCallback|exact H].
Qed.

Lemma inv_run ops : forall s, registry_inv s -> registry_inv (run s ops).
Proof.
  induction ops as [|o ops IH]; intros s Hs; [exact Hs|].
  apply IH, inv_step, Hs.
Qed.

(** A [Stop] that goes through clears the running flag and the timer and
    nothing else of the lifecycle: container and URL stay. *)
Lemma Stop_success lf w lf' fx :
  isRunning lf = true -> Stop lf w = (None, lf', fx) ->
  is_Some (container lf) ->
  isRunning lf' = false /\ idleTimer lf' = None
  /\ is_Some (container lf') /\ containerURL lf' = containerURL lf.
Proof.
  intros Hr Hs [c Hc]. unfold Stop in Hs. rewrite Hr, Hc in Hs.
  destruct (Cont.Stop c stopOpts w) as [[[e|] c'] calls]; [discriminate|].
  injection Hs as <- _. unfold cancelIdleTimer.
  destruct (idleTimer lf) eqn:Ht; simpl; rewrite ?Ht;
    split_and!; try reflexivity; by eexists.
Qed.

End Lifecycle.

(** C1 as the specification words it fails: register, start, stop.  The instance
    is then not running, but its container field is still set and its URL
    still populated, so the equivalence of the data model does not hold. *)
Lemma lifecycle_equivalence_fails_after_stop :
  exists fn,
    Service.run ∅
      [Service.OpRegister (Some Sample.greetConfig) Service.StatOk;
       Service.OpStart "greet" Sample.startOk;
       Service.OpStop "greet" Sample.stopOk] !! "greet" = Some fn
    /\ Kappa.isRunning fn = false
    /\ is_Some (Kappa.container fn)
    /\ Kappa.containerURL fn = "http://localhost:8080"
    /\ ~ Spec.lifecycle_equivalence fn.
Proof.
  eexists. split; [vm_compute; reflexivity|].
  split_and!; [reflexivity|by eexists|reflexivity|].
  intros (H & _ & _). destruct H as [_ H].
  assert (Hf : false = true) by (apply H; by eexists). discriminate.
Qed.

(** When the engine refuses to stop the container, [Stop] has cancelled
    the timer by then and the instance stays running without one. *)
Example running_without_timer_after_failed_stop :
  exists fn,
    Service.run ∅
      [Service.OpRegister (Some Sample.greetConfig) Service.StatOk;
       Service.OpStart "greet" Sample.startOk;
       Service.OpStop "greet" Sample.stopRefused] !! "greet" = Some fn
    /\ Kappa.isRunning fn = true /\ Kappa.idleTimer fn = None.
Proof. eexists. split; [vm_compute; reflexivity|]. by split. Qed.

(* ===================================================================== *)
(** ** The registry's handlers *)
(* ===================================================================== *)

Section Handlers.

Import Kappa Service.

Lemma registerFunction_valid s config stat :
  cName config <> "" -> cBinaryPath config <> "" -> cImage config <> "" ->
  stat <> StatNotExist ->
  registerFunction s (Some config) stat
  = (<[cName config :=
         NewKappaFunction (cName config) (cBinaryPath config) (cImage config)
           (cEnv config) (if decide (cPort config = 0) then 8080 else cPort config)]> s,
     {| statusCode := StatusCreated; headers := ∅;
        body := StringMap [("name", cName config); ("status", "registered")] |}).
Proof.
  intros Hn Hb Hi Hs. unfold registerFunction.
  destruct (decide _) as [[?|[?|?]]|_]; [congruence..|].
  now destruct stat.
Qed.


Lemma invokeFunction_unknown s name r w :
  s !! name = None ->
  invokeFunction s name r w
  = (s, Responded (httpError (FunctionNotFound name) StatusNotFound), []).
Proof. intros H. unfold invokeFunction. now rewrite H. Qed.

End Handlers.




(** C2, as the code has it.  No history gives the registry two entries of
    one name.  A valid registration under a name that is taken is answered
    201, like any other: the instance that was there is replaced by a
    fresh one, the other entries and the number of entries stay. *)
Theorem register_duplicate_replaces :
  (forall ops : list Service.Op,
     NoDup (map_to_list (Service.run ∅ ops)).*1)
  /\ (forall (s : gmap string Kappa.KappaFunction)
        (config : Service.KappaFunctionConfig) (stat : Service.StatResult)
        (old : Kappa.KappaFunction),
        Service.cName config <> "" -> Service.cBinaryPath config <> "" ->
        Service.cImage config <> "" -> stat <> Service.StatNotExist ->
        s !! Service.cName config = Some old ->
        let '(s', resp) := Service.registerFunction s (Some config) stat in
        Service.statusCode resp = 201
        /\ (exists fn, s' !! Service.cName config = Some fn
              /\ Kappa.isRunning fn = false /\ Kappa.container fn = None
              /\ Kappa.logs fn = [] /\ Kappa.requestsProcessed fn = 0)
        /\ (forall n, n <> Service.cName config -> s' !! n = s !! n)
        /\ size s' = size s).
Proof.
  split; [intros ops; apply NoDup_fst_map_to_list|].
  intros s config stat old Hn Hb Hi Hs Hold.
  rewrite (registerFunction_valid s config stat Hn Hb Hi Hs).
  split_and!.
  - reflexivity.
  - eexists. rewrite lookup_insert_eq. by split_and!.
  - intros n Hne. by rewrite lookup_insert_ne.
  - rewrite map_size_insert_Some; [reflexivity|by eexists].
Qed.

Lemma register_duplicate_replaces_witness :
  let '(s', resp) :=
    Service.registerFunction {[ "greet" := Sample.greetWarm ]}
      (Some Sample.greetConfig) Service.StatOk in
  Service.statusCode resp = 201
  /\ (exists fn, s' !! "greet" = Some fn
        /\ Kappa.isRunning fn = false /\ Kappa.container fn = None
        /\ Kappa.logs fn = [] /\ Kappa.requestsProcessed fn = 0)
  /\ (forall n, n <> "greet" ->
        s' !! n = ({[ "greet" := Sample.greetWarm ]} : gmap string _) !! n)
  /\ size s' = size ({[ "greet" := Sample.greetWarm ]} : gmap string _).
Proof.
  apply (proj2 register_duplicate_replaces
           {[ "greet" := Sample.greetWarm ]} Sample.greetConfig
           Service.StatOk Sample.greetWarm);
    try discriminate.
  apply lookup_singleton_eq.
Defined.

(** C2 as the specification words it fails: the second registration of a name is
    answered 201, not 409, and the running instance that held the name is
    gone from the registry, a cold one in its place. *)
Lemma register_twice_is_created :
  let s1 := Service.run ∅
              [Service.OpRegister (Some Sample.greetConfig) Service.StatOk;
               Service.OpStart "greet" Sample.startOk] in
  let '(s2, resp) :=
    Service.registerFunction s1 (Some Sample.greetConfig) Service.StatOk in
  Kappa.isRunning <$> (s1 !! "greet") = Some true
  /\ Service.statusCode resp = 201
  /\ Service.statusCode resp <> 409
  /\ Kappa.isRunning <$> (s2 !! "greet") = Some false.
Proof. vm_compute. split_and!; try reflexivity. discriminate. Qed.


(* ===================================================================== *)
(** ** Invoke: the request id and the restart *)
(* ===================================================================== *)

Section InvokeFacts.

Import Kappa Spec.

Lemma restarts_app a b : restarts (a ++ b) = (restarts a + restarts b)%nat.
Proof. unfold restarts. now rewrite filter_app, length_app. Qed.

Lemma posts_app a b : posts (a ++ b) = (posts a + posts b)%nat.
Proof. unfold posts. now rewrite filter_app, length_app. Qed.

Lemma counts_single_post url h p :
  restarts [IPost url h p] = 0%nat /\ posts [IPost url h p] = 1%nat.
Proof. by split. Qed.

Lemma counts_restart url h p serr sfx rerr rfx :
  let tr := [IPost url h p; IStop serr sfx; IStart rerr rfx]
            ++ match rerr with
               | None => [ISleep (1 * Second); IPost url h p]
               | Some _ => []
               end in
  restarts tr = 1%nat /\ (posts tr <= 2)%nat.
Proof. destruct rerr; split; cbv; lia. Qed.

(** The id under which an invocation travels. *)
Lemma invokePrepare_ok lf event w ev url lf1 tr :
  invokePrepare lf event w = (inr (ev, url), lf1, tr) ->
  ev = (if decide (eRequestID event = "")
        then set_eRequestID (uuid w) event else event)
  /\ restarts tr = 0%nat /\ posts tr = 0%nat
  /\ Forall (fun s => exists e fx, s = IStart e fx) tr.
Proof.
  unfold invokePrepare.
  destruct (isRunning lf); simpl.
  - destruct (negb (newRequestOk w)); [discriminate|].
    intros [= <- _ _ <-]. by split_and!.
  - destruct (Start lf (coldStartW w)) as [[[e|] lf'] fx]; [discriminate|].
    destruct (negb (newRequestOk w)); [discriminate|].
    intros [= <- _ _ <-]. split_and!; try reflexivity.
    constructor; [by do 2 eexists|constructor].
Qed.

Lemma invokePrepare_err_trace lf event w e lf1 tr :
  invokePrepare lf event w = (inl e, lf1, tr) ->
  restarts tr = 0%nat /\ posts tr = 0%nat.
Proof.
  unfold invokePrepare.
  destruct (isRunning lf); simpl.
  - destruct (negb (newRequestOk w)); [|discriminate].
    intros [= _ _ <-]. by split.
  - destruct (Start lf (coldStartW w)) as [[[e0|] lf'] fx].
    + intros [= _ _ <-]. by split.
    + destruct (negb (newRequestOk w)); [|discriminate].
      intros [= _ _ <-]. by split.
Qed.

(** The shape of what [invokeSend] does. *)
Lemma invokeSend_trace lf ev url w :
  let post := IPost url (eRequestID ev) ev in
  let tr := (invokeSend lf ev url w).2 in
  match post1 w with
  | DoOk _ => tr = [post]
  | DoFail _ =>
      if isRunning (duringPost lf w) then
        exists serr sfx rerr rfx,
          tr = [post; IStop serr sfx; IStart rerr rfx]
               ++ match rerr with
                  | None => [ISleep (1 * Second); post]
                  | Some _ => []
                  end
      else tr = [post]
  end.
Proof.
  unfold invokeSend. simpl.
  destruct (post1 w) as [decoded|err].
  - now destruct (invokeFinish _ _ _).
  - destruct (isRunning (duringPost lf w)); [|reflexivity].
    destruct (Stop _ _) as [[serr lf1] sfx].
    destruct (Start _ _) as [[rerr lf2] rfx].
    exists serr, sfx, rerr, rfx.
    destruct rerr; [reflexivity|].
    destruct (post2 w); [|reflexivity].
    now destruct (invokeFinish _ _ _).
Qed.

(** A successful [invokeSend] answers with the decoded envelope of the
    request that was answered, its id filled in if empty. *)
Lemma invokeSend_ok lf ev url w resp lf' tr :
  invokeSend lf ev url w = (inr resp, lf', tr) ->
  exists decoded,
    (post1 w = DoOk (Some decoded)
     \/ (exists e, post1 w = DoFail e) /\ post2 w = DoOk (Some decoded))
    /\ resp = (if decide (rRequestID decoded = "")
               then set_rRequestID (eRequestID ev) decoded else decoded).
Proof.
  unfold invokeSend.
  destruct (post1 w) as [[decoded|]|err]; simpl.
  - intros [= <- _ _]. exists decoded. split; [by left|reflexivity].
  - discriminate.
  - destruct (isRunning (duringPost lf w)); [|discriminate].
    destruct (Stop _ _) as [[serr lf1] sfx].
    destruct (Start _ _) as [[[e|] lf2] rfx]; [discriminate|].
    destruct (post2 w) as [[decoded|]|err2]; simpl; try discriminate.
    intros [= <- _ _]. exists decoded. split; [|reflexivity].
    right. split; [by eexists|reflexivity].
Qed.

End InvokeFacts.

(** C5: an [Invoke] that returns a response returns one whose requestId
    is not empty.  The invocation's id is the event's, or the generated
    UUID when the event has none; every request sent carries it in the
    Kappa-Runtime-Aws-Request-Id header and in the event, and at least one
    request is sent.  The response is the decoded envelope, with the
    invocation's id filled in when the envelope's is empty: its requestId
    is the one sent unless the container set another. *)
Theorem invoke_request_id (lf lf' : Kappa.KappaFunction)
    (event : Kappa.KappaEvent) (w : Kappa.InvokeWorld)
    (resp : Kappa.KappaResponse) (tr : list Kappa.Step) :
  Kappa.uuid w <> "" ->
  Kappa.Invoke lf event w = (inr resp, lf', tr) ->
  let id := if decide (Kappa.eRequestID event = "")
            then Kappa.uuid w else Kappa.eRequestID event in
  id <> ""
  /\ Kappa.rRequestID resp <> ""
  /\ (exists url payload, In (Kappa.IPost url id payload) tr)
  /\ (forall url h payload,
        In (Kappa.IPost url h payload) tr ->
        h = id /\ Kappa.eRequestID payload = id)
  /\ (exists decoded,
        (Kappa.post1 w = Kappa.DoOk (Some decoded)
         \/ (exists e, Kappa.post1 w = Kappa.DoFail e)
            /\ Kappa.post2 w = Kappa.DoOk (Some decoded))
        /\ Kappa.rRequestID resp
           = (if decide (Kappa.rRequestID decoded = "")
              then id else Kappa.rRequestID decoded)).
Proof.
  intros Hu Hinv. unfold Kappa.Invoke in Hinv.
  destruct (Kappa.invokePrepare lf event w) as [[[e|[ev url]] lf1] tr0] eqn:Hp;
    [discriminate|].
  destruct (invokePrepare_ok _ _ _ _ _ _ _ Hp) as (Hev & _ & _ & Htr0).
  destruct (Kappa.invokeSend lf1 ev url w) as [[r lf2] tr1] eqn:Hs.
  injection Hinv as -> -> <-.
  assert (Hid : Kappa.eRequestID ev
                = if decide (Kappa.eRequestID event = "")
                  then Kappa.uuid w else Kappa.eRequestID event).
  { rewrite Hev. now case_decide. }
  assert (Hne : Kappa.eRequestID ev <> "").
  { rewrite Hid. now case_decide. }
  destruct (invokeSend_ok _ _ _ _ _ _ _ Hs) as (decoded & Hdec & Hresp).
  pose proof (invokeSend_trace lf1 ev url w) as Htr. simpl in Htr.
  rewrite Hs in Htr. simpl in Htr.
  cbv zeta. rewrite <- Hid. split_and!.
  - exact Hne.
  - rewrite Hresp. case_decide; simpl; assumption.
  - exists url, ev. apply in_or_app. right.
    destruct (Kappa.post1 w); [subst tr1; now left|].
    destruct (Kappa.isRunning _); [|subst tr1; now left].
    destruct Htr as (? & ? & ? & ? & ->). now left.
  - intros u h p [Hin|Hin]%in_app_or.
    + rewrite Forall_forall in Htr0. apply list_elem_of_In in Hin.
      destruct (Htr0 _ Hin) as (? & ? & ?). discriminate.
    + assert (Hposts : forall l, In (Kappa.IPost u h p) l ->
                Forall (fun s => Spec.isPost s = true ->
                                 s = Kappa.IPost url (Kappa.eRequestID ev) ev) l ->
                h = Kappa.eRequestID ev /\ Kappa.eRequestID p = Kappa.eRequestID ev).
      { intros l Hl Hall. rewrite Forall_forall in Hall.
        apply list_elem_of_In in Hl.
        specialize (Hall _ Hl eq_refl). by injection Hall as -> -> ->. }
      apply (Hposts tr1 Hin).
      destruct (Kappa.post1 w).
      * subst tr1. by repeat constructor.
      * destruct (Kappa.isRunning _); [|subst tr1; by repeat constructor].
        destruct Htr as (? & ? & [?|] & ? & ->); simpl;
          repeat constructor; try discriminate.
  - exists decoded. split; [exact Hdec|].
    rewrite Hresp. now case_decide.
Qed.

Lemma invoke_request_id_witness :
  let id := "0b7e1c52-5d4e-4c1b-9d0a-6b1f3f2a9c11" in
  let '(_, _, tr) :=
    Kappa.Invoke Sample.greet Sample.emptyEvent Sample.invokeOk in
  let resp := Kappa.set_rRequestID id (Sample.okResponse "") in
  id <> ""
  /\ Kappa.rRequestID resp <> ""
  /\ (exists url payload, In (Kappa.IPost url id payload) tr)
  /\ (forall url h payload,
        In (Kappa.IPost url h payload) tr ->
        h = id /\ Kappa.eRequestID payload = id)
  /\ (exists decoded,
        (Kappa.post1 Sample.invokeOk = Kappa.DoOk (Some decoded)
         \/ (exists e, Kappa.post1 Sample.invokeOk = Kappa.DoFail e)
            /\ Kappa.post2 Sample.invokeOk = Kappa.DoOk (Some decoded))
        /\ Kappa.rRequestID resp
           = (if decide (Kappa.rRequestID decoded = "")
              then id else Kappa.rRequestID decoded)).
Proof.
  apply (invoke_request_id Sample.greet
           (Kappa.Invoke Sample.greet Sample.emptyEvent Sample.invokeOk).1.2
           Sample.emptyEvent Sample.invokeOk
           (Kappa.set_rRequestID "0b7e1c52-5d4e-4c1b-9d0a-6b1f3f2a9c11"
              (Sample.okResponse ""))
           (Kappa.Invoke Sample.greet Sample.emptyEvent Sample.invokeOk).2).
  - discriminate.
  - vm_compute. reflexivity.
Defined.

(** C4, as the code has it.  Within one [Invoke] there is at most one
    restart and there are at most two requests.  A restart happens exactly
    when the first request was sent, [client.Do] answered it with an error
    -- any error, a timeout as well as a refused connection -- and the
    instance was running at that moment.  The restart is one [Stop], then
    one [Start], and, when that [Start] succeeded, a sleep and one more
    send of the same request; when it failed, its error is surfaced
    without a retry.  Nothing before the first request restarts or sends. *)
Theorem invoke_restarts_at_most_once (lf : Kappa.KappaFunction)
    (event : Kappa.KappaEvent) (w : Kappa.InvokeWorld) :
  let '(res, lf', tr) := Kappa.Invoke lf event w in
  (Spec.restarts tr <= 1)%nat
  /\ (Spec.posts tr <= 2)%nat
  /\ (Spec.restarts tr = 1%nat <->
        exists ev url lf1 tr0 err,
          Kappa.invokePrepare lf event w = (inr (ev, url), lf1, tr0)
          /\ Kappa.post1 w = Kappa.DoFail err
          /\ Kappa.isRunning (Kappa.duringPost lf1 w) = true)
  /\ (Spec.restarts tr = 1%nat ->
        exists tr0 post serr sfx rerr rfx,
          Spec.isPost post = true
          /\ Spec.restarts tr0 = 0%nat /\ Spec.posts tr0 = 0%nat
          /\ tr = tr0 ++ [post; Kappa.IStop serr sfx; Kappa.IStart rerr rfx]
                      ++ match rerr with
                         | None => [Kappa.ISleep (1 * Kappa.Second); post]
                         | Some _ => []
                         end
          /\ (forall e, rerr = Some e -> res = inl (Kappa.FailedToRestart e))).
Proof.
  unfold Kappa.Invoke.
  destruct (Kappa.invokePrepare lf event w) as [[[e|[ev url]] lf1] tr0] eqn:Hp.
  - destruct (invokePrepare_err_trace _ _ _ _ _ _ Hp) as [Hr0 Hp0].
    rewrite Hr0, Hp0. split_and!; try lia.
    split; [discriminate|]. intros (? & ? & ? & ? & ? & [=] & _).
  - destruct (invokePrepare_ok _ _ _ _ _ _ _ Hp) as (_ & Hr0 & Hp0 & _).
    pose proof (invokeSend_trace lf1 ev url w) as Htr. simpl in Htr.
    destruct (Kappa.invokeSend lf1 ev url w) as [[r lf2] tr1] eqn:Hs.
    simpl in Htr. rewrite restarts_app, posts_app, Hr0, Hp0, !Nat.add_0_l.
    destruct (Kappa.post1 w) as [decoded|err] eqn:Hp1.
    { subst tr1.
      destruct (counts_single_post url (Kappa.eRequestID ev) ev) as [-> ->].
      split_and!; [lia|lia| |discriminate].
      split; [discriminate|]. intros (? & ? & ? & ? & ? & _ & [=] & _). }
    destruct (Kappa.isRunning (Kappa.duringPost lf1 w)) eqn:Hrun.
    2:{ subst tr1.
        destruct (counts_single_post url (Kappa.eRequestID ev) ev) as [-> ->].
        split_and!; [lia|lia| |discriminate].
        split; [discriminate|].
        intros (? & ? & ? & ? & ? & [= <- <- <- <-] & _ & Hr).
        congruence. }
    destruct Htr as (serr & sfx & rerr & rfx & ->).
    match goal with
    | |- context [Spec.restarts ?t] =>
        destruct (counts_restart url (Kappa.eRequestID ev) ev serr sfx rerr rfx
                  : Spec.restarts t = 1%nat /\ (Spec.posts t <= 2)%nat)
          as [Hc1 Hc2]
    end.
    rewrite Hc1.
    split_and!.
    + lia.
    + exact Hc2.
    + split; [|reflexivity].
      intros _. exists ev, url, lf1, tr0, err. by split_and!.
    + intros _.
      exists tr0, (Kappa.IPost url (Kappa.eRequestID ev) ev), serr, sfx, rerr, rfx.
      split_and!; try reflexivity; try assumption.
      intros e ->. unfold Kappa.invokeSend in Hs. rewrite Hp1, Hrun in Hs.
      destruct (Kappa.Stop _ _) as [[? ?] ?].
      destruct (Kappa.Start _ _) as [[[?|] ?] ?].
      * congruence.
      * destruct (Kappa.post2 w); [destruct (Kappa.invokeFinish _ _ _)|];
          discriminate.
Qed.

Lemma invoke_restarts_at_most_once_witness :
  let '(res, lf', tr) :=
    Kappa.Invoke Sample.greetWarm Sample.emptyEvent Sample.invokeTimeout in
  exists tr0 post serr sfx rerr rfx,
    Spec.isPost post = true
    /\ Spec.restarts tr0 = 0%nat /\ Spec.posts tr0 = 0%nat
    /\ tr = tr0 ++ [post; Kappa.IStop serr sfx; Kappa.IStart rerr rfx]
                ++ match rerr with
                   | None => [Kappa.ISleep (1 * Kappa.Second); post]
                   | Some _ => []
                   end
    /\ (forall e, rerr = Some e -> res = inl (Kappa.FailedToRestart e)).
Proof.
  pose proof (invoke_restarts_at_most_once
                Sample.greetWarm Sample.emptyEvent Sample.invokeTimeout) as H.
  remember (Kappa.Invoke Sample.greetWarm Sample.emptyEvent Sample.invokeTimeout)
    as x eqn:E in H |- *.
  vm_compute in E. subst x.
  destruct H as (_ & _ & _ & H). apply H. reflexivity.
Defined.

(** C4 as the specification words it fails: the first request of this invocation
    of a running function times out, which is not a connection-level
    error, and the function is restarted all the same. *)
Lemma invoke_restarts_on_timeout :
  let '(_, _, tr) :=
    Kappa.Invoke Sample.greetWarm Sample.emptyEvent Sample.invokeTimeout in
  Kappa.isRunning Sample.greetWarm = true
  /\ Kappa.post1 Sample.invokeTimeout = Kappa.DoFail Kappa.TimeoutError
  /\ Spec.connectionLevel Kappa.TimeoutError = false
  /\ Spec.restarts tr = 1%nat
  /\ Spec.posts tr = 2%nat.
Proof. vm_compute. by split_and!. Qed.

(** The restart whose [Start] fails surfaces that error: one request only. *)
Example restart_failure_is_not_retried :
  let '(res, lf', tr) :=
    Kappa.Invoke Sample.greetWarm Sample.emptyEvent Sample.invokeRestartFails in
  res = inl (Kappa.FailedToRestart Kappa.FailedCreateTempDir)
  /\ Spec.restarts tr = 1%nat /\ Spec.posts tr = 1%nat
  /\ Kappa.isRunning lf' = false.
Proof. vm_compute. by split_and!. Qed.

(** A request that fails after the idle timer has stopped the function is
    not followed by a restart. *)
Example no_restart_when_not_running :
  let '(res, lf', tr) :=
    Kappa.Invoke Sample.greetWarm Sample.emptyEvent Sample.invokeIdleFired in
  res = inl (Kappa.FailedToInvoke Kappa.ReadWriteError)
  /\ Spec.restarts tr = 0%nat /\ Spec.posts tr = 1%nat.
Proof. vm_compute. by split_and!. Qed.

(* ===================================================================== *)
(** ** The log bound along histories *)
(* ===================================================================== *)

Section LogBound.

Import Kappa Service Spec.

Lemma bounded_foldl_logCallback lines : forall lf,
  bounded lf -> bounded (foldl logCallback lf lines).
Proof.
  induction lines as [|x lines IH]; intros lf H; simpl; [exact H|].
  apply IH, logCallback_length, H.
Qed.

Lemma Start_logs lf w :
  exists lines, logs (Start lf w).1.2 = logs (foldl logCallback lf lines).
Proof.
  destruct (isRunning lf) eqn:Hr.
  - rewrite Start_running by exact Hr. by exists [].
  - destruct (Start lf w) as [[[e|] lf'] fx] eqn:Hs; simpl.
    + rewrite (Start_failure _ _ _ _ _ Hs). by exists [].
    + revert Hs. unfold Start. rewrite Hr.
      destruct (mkdirTemp w); [|discriminate].
      destruct (_ && _); [discriminate|].
      destruct (negb (chmodOk w)); [discriminate|].
      destruct (Cont.NewContainer _ _); [discriminate|].
      destruct (Cont.Start _ _) as [[?|] ?]; [discriminate|].
      destruct (Cont.StreamLogs _) as [?|replayed]; [discriminate|].
      intros [= <- _]. by exists replayed.
Qed.

Lemma Stop_logs lf w : logs (Stop lf w).1.2 = logs lf.
Proof.
  unfold Stop. destruct (isRunning lf); [|reflexivity].
  destruct (container lf); [|reflexivity].
  destruct (Cont.Stop _ _ _) as [[[?|] ?] ?]; simpl;
    unfold cancelIdleTimer; now destruct (idleTimer lf).
Qed.

Lemma idleTimerFire_logs lf w : logs (idleTimerFire lf w).1.2 = logs lf.
Proof.
  unfold idleTimerFire. destruct (idleTimer lf) as [t|]; [|reflexivity].
  destruct (active t); [|reflexivity]. simpl.
  destruct (isRunning lf); [|reflexivity]. now rewrite Stop_logs.
Qed.

Lemma bounded_Start lf w : bounded lf -> bounded (Start lf w).1.2.
Proof.
  intros H. destruct (Start_logs lf w) as [lines Hl]. unfold bounded.
  rewrite Hl. now apply bounded_foldl_logCallback.
Qed.

Lemma bounded_Invoke lf event w : bounded lf -> bounded (Invoke lf event w).1.2.
Proof.
  intros H. unfold Invoke.
  assert (Hp : bounded (invokePrepare lf event w).1.2).
  { unfold invokePrepare. destruct (isRunning lf); simpl.
    - now destruct (negb (newRequestOk w)).
    - pose proof (bounded_Start lf (coldStartW w) H) as Hs.
      destruct (Start lf (coldStartW w)) as [[[e|] lf'] fx]; [exact Hs|].
      now destruct (negb (newRequestOk w)). }
  destruct (invokePrepare lf event w) as [[[e|[ev url]] lf1] tr];
    simpl in Hp; [exact Hp|].
  assert (Hd : bounded (duringPost lf1 w)).
  { unfold duringPost, bounded. destruct (idleFire w); [|exact Hp].
    now rewrite idleTimerFire_logs. }
  assert (Hfin : forall lf0 decoded,
             bounded lf0 -> bounded (invokeFinish lf0 ev decoded).2).
  { intros lf0 [d|] H0; exact H0. }
  unfold invokeSend. destruct (post1 w) as [decoded|err].
  - specialize (Hfin _ decoded Hd). now destruct (invokeFinish _ _ _).
  - destruct (isRunning (duringPost lf1 w)); [|exact Hd].
    assert (Hs : bounded (Stop (duringPost lf1 w) (restartStopW w)).1.2)
      by (unfold bounded; now rewrite Stop_logs).
    destruct (Stop _ _) as [[serr lf2] sfx]. simpl in Hs.
    pose proof (bounded_Start lf2 (restartStartW w) Hs) as Hr.
    destruct (Start _ _) as [[[e|] lf3] rfx]; simpl in Hr; [exact Hr|].
    destruct (post2 w) as [decoded|err2]; [|exact Hr].
    specialize (Hfin _ decoded Hr). now destruct (invokeFinish _ _ _).
Qed.

Lemma bounded_step s o :
  map_Forall (fun _ fn => bounded fn) s ->
  map_Forall (fun _ fn => bounded fn) (step s o).
Proof.
  intros Hs.
  assert (Hon : forall name f,
             (forall fn, bounded fn -> bounded (f fn)) ->
             map_Forall (fun _ fn => bounded fn) (onInstance s name f)).
  { intros name f Hf. unfold onInstance.
    destruct (s !! name) as [fn|] eqn:Hl; [|exact Hs].
    apply map_Forall_insert_2; [|exact Hs]. apply Hf, (Hs _ _ Hl). }
  destruct o as [req stat|name r w|name w|name w|name w|name w|name d|name line];
    simpl.
  - unfold registerFunction. destruct req as [config|]; [|exact Hs].
    destruct (decide _); [exact Hs|].
    destruct stat; simpl; try exact Hs;
      (apply map_Forall_insert_2; [unfold bounded; simpl; lia|exact Hs]).
  - unfold invokeFunction. destruct (s !! name) as [fn|] eqn:Hl; [|exact Hs].
    destruct (reqBody r) as [b|]; [|exact Hs].
    match goal with
    | |- context [Invoke fn ?ev w] =>
        pose proof (bounded_Invoke fn ev w (Hs _ _ Hl)) as Hi;
        destruct (Invoke fn ev w) as [[[err|resp] fn'] tr]
    end; simpl in *.
    + now apply map_Forall_insert_2.
    + now apply map_Forall_insert_2.
  - unfold deleteFunction. destruct (s !! name) as [fn|] eqn:Hl; [|exact Hs].
    unfold IsRunning. destruct (isRunning fn).
    + pose proof (Stop_logs fn w) as Hi.
      destruct (Stop fn w) as [[[e|] fn'] fx]; simpl in *.
      * apply map_Forall_insert_2; [|exact Hs].
        unfold bounded. rewrite Hi. exact (Hs _ _ Hl).
      * now apply map_Forall_delete.
    + simpl. now apply map_Forall_delete.
  - apply Hon. intros fn. apply bounded_Start.
  - apply Hon. intros fn H. unfold bounded. now rewrite Stop_logs.
  - apply Hon. intros fn H. unfold bounded. now rewrite idleTimerFire_logs.
  - apply Hon. intros fn H. unfold SetIdleTimeout. simpl.
    now destruct (idleTimer fn).
  - apply Hon. intros fn H.
    destruct (container fn); [now apply logCallback_length|exact H].
Qed.

Lemma bounded_run ops : forall s,
  map_Forall (fun _ fn => bounded fn) s ->
  map_Forall (fun _ fn => bounded fn) (run s ops).
Proof.
  induction ops as [|o ops IH]; intros s Hs; [exact Hs|].
  apply IH, bounded_step, Hs.
Qed.

(** Whatever happens to a registry, no instance in it ever holds more
    than 1000 log lines. *)
Theorem log_buffer_bounded_in_every_history (ops : list Op) (name : string)
    (fn : KappaFunction) :
  run ∅ ops !! name = Some fn -> (length (GetLogs fn) <= 1000)%nat.
Proof.
  intros Hl.
  exact (bounded_run ops ∅ (map_Forall_empty _) name fn Hl).
Qed.

End LogBound.


(* ===================================================================== *)
(** ** More on the container adapter *)
(* ===================================================================== *)

Section ContMore.

Import Cont Obs.

Lemma removed_RemoveAll dirs : removed (CRemoveAll <$> dirs) = dirs.
Proof. induction dirs as [|d dirs IH]; simpl; [reflexivity|]. now f_equal. Qed.

Lemma kills_RemoveAll dirs : kills (CRemoveAll <$> dirs) = [].
Proof. induction dirs as [|d dirs IH]; simpl; [reflexivity|exact IH]. Qed.

Lemma kills_app a b : kills (a ++ b) = kills a ++ kills b.
Proof. unfold kills. apply omap_app. Qed.

Lemma removed_app a b : removed (a ++ b) = removed a ++ removed b.
Proof. unfold removed. apply omap_app. Qed.

Ltac remove_cases c w :=
  unfold Remove, cleanup;
  destruct (task c) as [?|], (container c) as [?|];
  destruct (rmStatusErr w) as [?|];
  destruct (taskDeleteErr w) as [[|]|];
  destruct (containerDeleteErr w) as [[|]|]; simpl.

Lemma Remove_handle c w :
  (Remove c w).1.2
  = {| id := id c; mounts := mounts c; container := container c;
       task := task c; config := config c; logs := logs c; tempDirs := [] |}.
Proof. remove_cases c w; reflexivity. Qed.

Lemma Remove_removed c w : removed (Remove c w).2 = tempDirs c.
Proof. remove_cases c w; apply removed_RemoveAll. Qed.

Lemma Remove_kills c w : kills (Remove c w).2 = [].
Proof. remove_cases c w; apply kills_RemoveAll. Qed.

Lemma filter_nil_Forall {A} (P : A -> Prop) `{!forall x, Decision (P x)} l :
  filter P l = [] <-> Forall (fun x => ~ P x) l.
Proof.
  induction l as [|x l IH]; [by split|].
  rewrite filter_cons, Forall_cons. destruct (decide (P x)); [|tauto].
  split; [discriminate|]. tauto.
Qed.

(** X2: [Remove] returns nil exactly when no deletion failed with anything
    but not-found and no directory removal failed.  The task is deleted
    only if the handle has one and its status query succeeds (a failing
    query skips the deletion and is not an error); the engine container
    is deleted only if the handle has one. *)
Theorem remove_succeeds_iff (c : Cont.Container) (w : Cont.RemoveWorld) :
  (Cont.Remove c w).1.1 = None <->
  (Cont.task c <> None -> Cont.rmStatusErr w = None ->
     Cont.taskDeleteErr w <> Some Cont.ErrOther)
  /\ (Cont.container c <> None ->
        Cont.containerDeleteErr w <> Some Cont.ErrOther)
  /\ Forall (fun d => Cont.removeAllFails w d = false) (Cont.tempDirs c).
Proof.
  assert (Hf : filter (fun d => removeAllFails w d = true) (tempDirs c) = [] <->
               Forall (fun d => removeAllFails w d = false) (tempDirs c)).
  { rewrite filter_nil_Forall. apply Forall_proper; [|reflexivity].
    intros d. now destruct (removeAllFails w d). }
  rewrite <- Hf.
  remove_cases c w;
    destruct (filter _ (tempDirs c)); simpl;
    (split; [intros H; try discriminate; split_and!; congruence
            |intros (H1 & H2 & H3); try reflexivity; try discriminate;
             exfalso; first [now apply H1 | now apply H2]]).
Qed.

End ContMore.

(** X1: whatever the engine answers, [Remove] leaves the handle as it was
    except that no temp directory is registered any more; it has called
    [os.RemoveAll] once on each directory that was registered, in the
    order of registration, and sent no signal; a second [Remove] of the
    handle removes no directory. *)
Theorem remove_cleans_up (c : Cont.Container) (w : Cont.RemoveWorld) :
  let '(_, c', tr) := Cont.Remove c w in
  c' = {| Cont.id := Cont.id c; Cont.mounts := Cont.mounts c;
          Cont.container := Cont.container c; Cont.task := Cont.task c;
          Cont.config := Cont.config c; Cont.logs := Cont.logs c;
          Cont.tempDirs := [] |}
  /\ Obs.removed tr = Cont.tempDirs c
  /\ Obs.kills tr = []
  /\ (forall w2, Obs.removed (Cont.Remove c' w2).2 = []).
Proof.
  pose proof (Remove_handle c w) as Hh.
  pose proof (Remove_removed c w) as Hr.
  pose proof (Remove_kills c w) as Hk.
  destruct (Cont.Remove c w) as [[e c'] tr]. simpl in *. subst c'.
  split_and!; try done. intros w2. now rewrite Remove_removed.
Qed.


Section ContStopMore.

Import Cont Obs.

Ltac stop_cases c opts w :=
  unfold Stop;
  destruct (task c) as [?|]; [|simpl];
  [ destruct (decide (observedStatus w <> Running)) as [?|?];
    destruct (RemoveOnStop opts) eqn:?, (ForceKill opts) eqn:?;
    destruct (killErr w) as [[|]|] eqn:?;
    destruct (waitErr w) as [?|] eqn:?;
    destruct (exitedInTime w) eqn:?;
    destruct (forceKillErr w) as [[|]|] eqn:?; simpl
  | ].

Lemma kills_cons c tr :
  kills (c :: tr)
  = match c with CKill s => s :: kills tr | _ => kills tr end.
Proof. now destruct c. Qed.

Lemma Stop_kills c opts w :
  let tr := (Stop c opts w).2 in
  (kills tr = [] /\ (task c = None \/ observedStatus w <> Running))
  \/ (kills tr = [firstSignal opts]
      /\ task c <> None /\ observedStatus w = Running
      /\ (killErr w <> None \/ waitErr w <> None \/ exitedInTime w = true))
  \/ (kills tr = [firstSignal opts; SIGKILL]
      /\ task c <> None /\ observedStatus w = Running
      /\ killErr w = None /\ waitErr w = None /\ exitedInTime w = false).
Proof.
  pose proof (Remove_kills c (removeW w)) as Hk.
  unfold firstSignal in *.
  destruct (Remove c (removeW w)) as [[re rc] rtr] eqn:Hrem. simpl in Hk.
  stop_cases c opts w; rewrite ?Hrem; cbn -[kills];
    rewrite ?kills_app, ?kills_cons, ?kills_app, ?kills_cons, ?Hk;
    change (kills []) with (@nil Signal); cbn -[kills].
  all: try (left; split; [reflexivity|tauto]).
  all: try (right; left; split; [reflexivity|];
            split; [discriminate|]; split; [by apply dec_stable|];
            first [left; discriminate | right; left; discriminate
                  | right; right; reflexivity]).
  all: right; right; split; [reflexivity|];
       split; [discriminate|]; split; [by apply dec_stable|]; by split_and!.
Qed.

End ContStopMore.

(** X3: [Stop] sends at most two signals.  It sends none exactly when the
    handle has no task or the task is not seen running.  Otherwise the
    first is SIGKILL when [ForceKill] is set and SIGTERM when not, and a
    second one, always SIGKILL, follows exactly when the first was
    delivered, the wait was set up, and the task did not exit within the
    timeout. *)
Theorem stop_signals (c : Cont.Container) (opts : Cont.StopOptions)
    (w : Cont.StopWorld) :
  let sent := Obs.kills (Cont.Stop c opts w).2 in
  let first := if Cont.ForceKill opts then Cont.SIGKILL else Cont.SIGTERM in
  (sent = [] \/ sent = [first] \/ sent = [first; Cont.SIGKILL])
  /\ (sent = [] <->
      Cont.task c = None \/ Cont.observedStatus w <> Cont.Running)
  /\ (sent = [first; Cont.SIGKILL] <->
      Cont.task c <> None /\ Cont.observedStatus w = Cont.Running
      /\ Cont.killErr w = None /\ Cont.waitErr w = None
      /\ Cont.exitedInTime w = false).
Proof.
  cbv zeta. fold (Obs.firstSignal opts).
  destruct (Stop_kills c opts w)
    as [[-> H]|[[-> (Ht & Hs & H)]|[-> (Ht & Hs & Hk & Hw & He)]]].
  - split_and!; [by left|by split|].
    split; [discriminate|]. intros (Ht & Hs & _). now destruct H.
  - split_and!; [by right; left| |].
    + split; [discriminate|]. intros [?|?]; congruence.
    + split; [discriminate|]. intros (_ & _ & Hk & Hw & He).
      destruct H as [H|[H|H]]; congruence.
  - split_and!; [by right; right| |].
    + split; [discriminate|]. intros [?|?]; congruence.
    + split; [|reflexivity]. intros _. by split_and!.
Qed.

Section ContStopMore2.

Import Cont Obs.

(** X4: without [RemoveOnStop], [Stop] destroys nothing -- it deletes no
    task and no container and removes no directory -- and leaves the
    handle exactly as it was, temp directories included, whether it
    succeeds or fails. *)
Theorem stop_without_remove_destroys_nothing (c : Cont.Container)
    (opts : Cont.StopOptions) (w : Cont.StopWorld) :
  Cont.RemoveOnStop opts = false ->
  (Cont.Stop c opts w).1.2 = c
  /\ Forall (fun call => Obs.destroys call = false) (Cont.Stop c opts w).2.
Proof.
  intros Hr. unfold Stop. rewrite Hr.
  destruct (task c); [|by split].
  destruct (decide _); [by split; [|repeat constructor]|].
  destruct (killErr w) as [[|]|]; simpl; [by split; repeat constructor..|].
  destruct (waitErr w); simpl; [by split; repeat constructor|].
  destruct (exitedInTime w); simpl; [by split; repeat constructor|].
  destruct (forceKillErr w) as [[|]|]; simpl; by split; repeat constructor.
Qed.

(** X5: a process that is already gone does not make [Stop] fail.  When
    the handle has a task, every signal is answered by success or
    not-found and the wait can be set up, the result of [Stop] is that of
    [Remove] when [RemoveOnStop] is set, and success with the handle
    unchanged when it is not. *)
Theorem stop_tolerates_vanished_process (c : Cont.Container)
    (opts : Cont.StopOptions) (w : Cont.StopWorld) :
  Cont.task c <> None ->
  Cont.killErr w <> Some Cont.ErrOther ->
  Cont.waitErr w = None ->
  Cont.forceKillErr w <> Some Cont.ErrOther ->
  (Cont.Stop c opts w).1
  = if Cont.RemoveOnStop opts
    then (Cont.Remove c (Cont.removeW w)).1 else (None, c).
Proof.
  intros Ht Hk Hw Hf. unfold Stop. rewrite Hw.
  destruct (task c); [|congruence].
  destruct (Remove c (removeW w)) as [[re rc] rtr].
  destruct (decide _); [now destruct (RemoveOnStop opts)|].
  destruct (killErr w) as [[|]|]; simpl;
    [now destruct (RemoveOnStop opts)|congruence|].
  destruct (exitedInTime w); [now destruct (RemoveOnStop opts)|].
  destruct (forceKillErr w) as [[|]|]; simpl;
    [now destruct (RemoveOnStop opts)|congruence
    |now destruct (RemoveOnStop opts)].
Qed.

End ContStopMore2.


Lemma stop_without_remove_destroys_nothing_witness :
  let opts := {| Cont.Timeout := 5 * Kappa.Second; Cont.ForceKill := false;
                 Cont.RemoveOnStop := false |} in
  (Cont.Stop Sample.startedContainer opts Sample.stopOk).1.2
    = Sample.startedContainer
  /\ Forall (fun call => Obs.destroys call = false)
       (Cont.Stop Sample.startedContainer opts Sample.stopOk).2.
Proof.
  apply (stop_without_remove_destroys_nothing Sample.startedContainer
           {| Cont.Timeout := 5 * Kappa.Second; Cont.ForceKill := false;
              Cont.RemoveOnStop := false |} Sample.stopOk).
  reflexivity.
Defined.


Lemma stop_tolerates_vanished_process_witness :
  let w := {| Cont.statusRes := inl Cont.Running;
              Cont.killErr := Some Cont.ErrNotFound;
              Cont.waitErr := None; Cont.exitedInTime := false;
              Cont.forceKillErr := Some Cont.ErrNotFound;
              Cont.removeW := Sample.removeOk |} in
  (Cont.Stop Sample.startedContainer Kappa.stopOpts w).1
  = (Cont.Remove Sample.startedContainer Sample.removeOk).1.
Proof.
  apply (stop_tolerates_vanished_process Sample.startedContainer
           Kappa.stopOpts
           {| Cont.statusRes := inl Cont.Running;
              Cont.killErr := Some Cont.ErrNotFound;
              Cont.waitErr := None; Cont.exitedInTime := false;
              Cont.forceKillErr := Some Cont.ErrNotFound;
              Cont.removeW := Sample.removeOk |});
    first [discriminate | reflexivity].
Defined.

(** X6: [NewContainer] rejects a configuration exactly when its image or
    name is empty or its command or environment slice is nil; an empty
    namespace is no reason, it becomes "default".  The handle it returns
    carries the name as id and the configuration's mounts, has no engine
    container, no task, no log line and no temp directory, and a
    namespace that is not empty. *)
Theorem new_container_validation (cfg : Cont.ContainerConfig) (connectOk : bool) :
  (Cont.NewContainer cfg connectOk = inl Cont.ValidationFailed <->
     Cont.Image cfg = "" \/ Cont.Name cfg = ""
     \/ Cont.Command cfg = None \/ Cont.Env cfg = None)
  /\ (forall c, Cont.NewContainer cfg connectOk = inr c ->
        connectOk = true
        /\ Cont.id c = Cont.Name cfg /\ Cont.mounts c = Cont.Mounts cfg
        /\ Cont.container c = None /\ Cont.task c = None
        /\ Cont.logs c = [] /\ Cont.tempDirs c = []
        /\ Cont.Image (Cont.config c) = Cont.Image cfg
        /\ Cont.Command (Cont.config c) = Cont.Command cfg
        /\ Cont.Env (Cont.config c) = Cont.Env cfg
        /\ Cont.Namespace (Cont.config c)
           = (if decide (Cont.Namespace cfg = "") then "default"
              else Cont.Namespace cfg)
        /\ Cont.Namespace (Cont.config c) <> "").
Proof.
  unfold Cont.NewContainer.
  destruct (decide (Cont.Namespace cfg = "")) as [Hns|Hns]; simpl;
    destruct (decide _) as [Hv|Hv]; simpl.
  - split; [split; [intros _|reflexivity]|discriminate].
    destruct Hv as [?|[?|[?|?]]]; try tauto. discriminate.
  - split.
    + split; [destruct connectOk; discriminate|]. intros H. exfalso.
      apply Hv. tauto.
    + destruct connectOk; [|discriminate]. intros c [= <-]. simpl.
      by split_and!.
  - split; [split; [intros _|reflexivity]|discriminate].
    destruct Hv as [?|[?|[?|?]]]; tauto.
  - split.
    + split; [destruct connectOk; discriminate|]. intros H. exfalso.
      apply Hv. tauto.
    + destruct connectOk; [|discriminate]. intros c [= <-]. simpl.
      by split_and!.
Qed.

(** X7: a [Start] that fails while creating the task has created the
    engine container and left the handle without a task.  [Stop] then
    refuses to work on the handle ("no running task found"), also with
    [RemoveOnStop], and calls nothing; only [Remove] deletes the engine
    container. *)
Theorem failed_start_needs_remove (c : Cont.Container)
    (opts : Cont.StopOptions) (w : Cont.StopWorld) (rw : Cont.RemoveWorld) :
  Cont.task c = None ->
  let c' := (Cont.Start c Cont.StartFailsCreatingTask).2 in
  (Cont.Start c Cont.StartFailsCreatingTask).1 = Some Cont.FailedToCreateTask
  /\ Cont.container c' <> None
  /\ Cont.Stop c' opts w = (Some Cont.NoRunningTask, c', [])
  /\ In Cont.CContainerDelete (Cont.Remove c' rw).2.
Proof.
  intros Ht. simpl. split_and!; [reflexivity|discriminate| |].
  - apply Stop_no_task. exact Ht.
  - unfold Cont.Remove, Cont.cleanup. simpl. rewrite Ht.
    destruct (Cont.containerDeleteErr rw) as [[|]|]; simpl; by left.
Qed.

Lemma failed_start_needs_remove_witness :
  let c' := (Cont.Start Sample.idleContainer Cont.StartFailsCreatingTask).2 in
  (Cont.Start Sample.idleContainer Cont.StartFailsCreatingTask).1
    = Some Cont.FailedToCreateTask
  /\ Cont.container c' <> None
  /\ Cont.Stop c' Kappa.stopOpts Sample.stopOk = (Some Cont.NoRunningTask, c', [])
  /\ In Cont.CContainerDelete (Cont.Remove c' Sample.removeOk).2.
Proof.
  apply (failed_start_needs_remove Sample.idleContainer Kappa.stopOpts
           Sample.stopOk Sample.removeOk).
  reflexivity.
Defined.


(* ===================================================================== *)
(** ** More on Start and Stop of an instance *)
(* ===================================================================== *)

Section KappaMore.

Import Kappa Wf.

Lemma foldl_processLogs_eq lines : forall c,
  foldl Cont.processLogs c lines
  = {| Cont.id := Cont.id c; Cont.mounts := Cont.mounts c;
       Cont.container := Cont.container c; Cont.task := Cont.task c;
       Cont.config := Cont.config c; Cont.logs := Cont.logs c ++ lines;
       Cont.tempDirs := Cont.tempDirs c |}.
Proof.
  induction lines as [|x lines IH]; intros c; simpl.
  - rewrite app_nil_r. now destruct c.
  - rewrite IH. simpl. now rewrite <- app_assoc.
Qed.

Lemma NewContainer_fresh cfg ok c :
  Cont.Namespace cfg <> "" ->
  Cont.NewContainer cfg ok = inr c ->
  c = {| Cont.id := Cont.Name cfg; Cont.mounts := Cont.Mounts cfg;
         Cont.container := None; Cont.task := None; Cont.config := cfg;
         Cont.logs := []; Cont.tempDirs := [] |}.
Proof.
  intros Hns. unfold Cont.NewContainer.
  destruct (decide (Cont.Namespace cfg = "")); [congruence|].
  destruct (decide _); [discriminate|].
  destruct (negb ok); [discriminate|]. now intros [= <-].
Qed.

(** A successful cold start, field by field. *)
Lemma Start_cold_shape lf w lf' fx :
  isRunning lf = false ->
  Start lf w = (None, lf', fx) ->
  exists tmpPath c,
    mkdirTemp w = Some tmpPath
    /\ c = {| Cont.id := Cont.Name (containerConfig lf tmpPath (nameUUID w));
              Cont.mounts := Cont.Mounts (containerConfig lf tmpPath (nameUUID w));
              Cont.container := Some Cont.engineContainer;
              Cont.task := Some Cont.taskHandle;
              Cont.config := containerConfig lf tmpPath (nameUUID w);
              Cont.logs := earlyLogs w;
              Cont.tempDirs := [tmpPath] |}
    /\ lf' = {| Name := Name lf; BinaryPath := BinaryPath lf;
                Image := Image lf; Env := Env lf; Port := Port lf;
                container := Some c; containerURL := localURL lf;
                logs := logs (foldl logCallback lf (earlyLogs w));
                isRunning := true;
                requestsProcessed := requestsProcessed lf;
                idleTimeout := idleTimeout lf;
                idleTimer := Some {| duration := idleTimeout lf;
                                     active := true |} |}.
Proof.
  intros Hr. unfold Start. rewrite Hr.
  destruct (mkdirTemp w) as [tmpPath|]; [|discriminate].
  destruct (negb (linkOk w) && negb (copyOk w)); [discriminate|].
  destruct (negb (chmodOk w)); [discriminate|].
  destruct (Cont.NewContainer _ _) as [e|c0] eqn:Hnew; [discriminate|].
  apply NewContainer_fresh in Hnew; [|discriminate]. subst c0.
  destruct (engineStart w); simpl; try discriminate.
  rewrite foldl_processLogs_eq. unfold Cont.StreamLogs. simpl.
  intros [= <- _].
  rewrite (foldl_logCallback_set_logs (earlyLogs w) lf).
  by eexists _, _.
Qed.

(** [Cont.Stop] changes nothing of a handle but its temp directories. *)
Lemma Cont_Stop_handle c opts w :
  let c' := (Cont.Stop c opts w).1.2 in
  c' = c
  \/ c' = {| Cont.id := Cont.id c; Cont.mounts := Cont.mounts c;
             Cont.container := Cont.container c; Cont.task := Cont.task c;
             Cont.config := Cont.config c; Cont.logs := Cont.logs c;
             Cont.tempDirs := [] |}.
Proof.
  pose proof (Remove_handle c (Cont.removeW w)) as Hh.
  destruct (Cont.Remove c (Cont.removeW w)) as [[re rc] rtr] eqn:Hrem.
  simpl in Hh. subst rc. unfold Cont.Stop.
  destruct (Cont.task c); [|by left].
  destruct (decide _); [destruct (Cont.RemoveOnStop opts); rewrite ?Hrem; auto|].
  destruct (Cont.killErr w) as [[|]|]; simpl;
    [destruct (Cont.RemoveOnStop opts); rewrite ?Hrem; auto|by left|].
  destruct (Cont.waitErr w); [by left|].
  destruct (Cont.exitedInTime w);
    [destruct (Cont.RemoveOnStop opts); rewrite ?Hrem; auto|].
  destruct (Cont.forceKillErr w) as [[|]|]; simpl;
    [destruct (Cont.RemoveOnStop opts); rewrite ?Hrem; auto|by left
    |destruct (Cont.RemoveOnStop opts); rewrite ?Hrem; auto].
Qed.

Lemma removed_cons c tr :
  Obs.removed (c :: tr)
  = match c with Cont.CRemoveAll d => d :: Obs.removed tr | _ => Obs.removed tr end.
Proof. now destruct c. Qed.

(** A [Cont.Stop] with [RemoveOnStop] that succeeds went through
    [Remove]. *)
Lemma Cont_Stop_removed c opts w :
  Cont.RemoveOnStop opts = true -> (Cont.Stop c opts w).1.1 = None ->
  Obs.removed (Cont.Stop c opts w).2 = Cont.tempDirs c
  /\ Cont.tempDirs (Cont.Stop c opts w).1.2 = [].
Proof.
  intros Hr. pose proof (Remove_handle c (Cont.removeW w)) as Hh.
  pose proof (Remove_removed c (Cont.removeW w)) as Hrm.
  destruct (Cont.Remove c (Cont.removeW w)) as [[re rc] rtr] eqn:Hrem.
  simpl in Hh, Hrm. subst rc. unfold Cont.Stop. rewrite Hr.
  destruct (Cont.task c); [|discriminate].
  destruct (decide _); [|destruct (Cont.killErr w) as [[|]|];
    [|discriminate|destruct (Cont.waitErr w); [discriminate|];
      destruct (Cont.exitedInTime w);
        [|destruct (Cont.forceKillErr w) as [[|]|]; [|discriminate|]]]];
    rewrite ?Hrem; cbn -[Obs.removed]; intros _;
    rewrite ?removed_app, ?removed_cons, ?removed_app, ?removed_cons, ?Hrm;
    by split.
Qed.

Lemma sameFunction_refl lf : sameFunction lf lf.
Proof. by repeat split. Qed.

Lemma sameFunction_trans a b c :
  sameFunction a b -> sameFunction b c -> sameFunction a c.
Proof.
  intros (?&?&?&?&?) (?&?&?&?&?). repeat split; congruence.
Qed.

Lemma containerConfig_same lf lf' tmp u :
  sameFunction lf lf' -> containerConfig lf' tmp u = containerConfig lf tmp u.
Proof.
  intros (Hn&_&Hi&He&Hp). unfold containerConfig. now rewrite Hn, Hi, He, Hp.
Qed.

Lemma keeps_refl lf : keeps lf lf.
Proof. split; [apply sameFunction_refl|auto]. Qed.

Lemma keeps_trans a b c : keeps a b -> keeps b c -> keeps a c.
Proof.
  intros [? ?] [? ?]. split; [by eapply sameFunction_trans|auto].
Qed.

Lemma keeps_Start lf w : keeps lf (Start lf w).1.2.
Proof.
  destruct (isRunning lf) eqn:Hr.
  - rewrite Start_running by exact Hr. apply keeps_refl.
  - destruct (Start lf w) as [[[e|] lf'] fx] eqn:Hs; simpl.
    + rewrite (Start_failure _ _ _ _ _ Hs). apply keeps_refl.
    + destruct (Start_cold_shape lf w lf' fx Hr Hs) as (tmp & c & _ & -> & ->).
      split; [by repeat split|]. intros _. split_and!; simpl.
      * reflexivity.
      * by intros t [= <-].
      * intros c [= <-]. simpl. split; [reflexivity|]. by eexists _, _.
Qed.

Lemma keeps_Stop lf w : keeps lf (Stop lf w).1.2.
Proof.
  unfold Stop. destruct (isRunning lf) eqn:Hr; [|apply keeps_refl].
  destruct (container lf) as [c|] eqn:Hc; [|apply keeps_refl].
  pose proof (Cont_Stop_handle c stopOpts w) as Hh.
  destruct (Cont.Stop c stopOpts w) as [[err c'] calls]. simpl in Hh.
  assert (Hk : forall b,
    keeps lf (set_isRunning b (set_container (Some c') (cancelIdleTimer lf)))).
  { intros b. split.
    - unfold cancelIdleTimer. destruct (idleTimer lf); by repeat split.
    - intros (H1 & H2 & H3). destruct (H3 c Hc) as (Ht & tmp & u & Hcfg & Hid).
      unfold cancelIdleTimer. destruct (idleTimer lf) eqn:Hti; split_and!; simpl.
      + intros _. apply H1, Hr.
      + discriminate.
      + intros c0 [= <-]. destruct Hh as [->| ->]; simpl;
          (split; [exact Ht|by eexists _, _]).
      + intros _. apply H1, Hr.
      + rewrite Hti. discriminate.
      + intros c0 [= <-]. destruct Hh as [->| ->]; simpl;
          (split; [exact Ht|by eexists _, _]). }
  destruct err; simpl.
  - specialize (Hk true).
    replace (set_container (Some c') (cancelIdleTimer lf))
      with (set_isRunning true (set_container (Some c') (cancelIdleTimer lf)));
      [exact Hk|].
    unfold cancelIdleTimer, set_isRunning, set_container.
    destruct (idleTimer lf); simpl; now rewrite Hr.
  - apply Hk.
Qed.

Lemma keeps_idleTimerFire lf w : keeps lf (idleTimerFire lf w).1.2.
Proof.
  unfold idleTimerFire. destruct (idleTimer lf) as [t|] eqn:Ht; [|apply keeps_refl].
  destruct (active t); [|apply keeps_refl]. simpl.
  assert (Hk : keeps lf (set_idleTimer
                           (Some {| duration := duration t; active := false |}) lf)).
  { split; [by repeat split|]. intros (H1 & H2 & H3). split_and!; simpl; auto.
    intros t0 [= <-]. simpl. now apply H2. }
  destruct (isRunning lf); [|exact Hk].
  eapply keeps_trans; [exact Hk|]. apply keeps_Stop.
Qed.

Lemma keeps_resetIdleTimer lf : keeps lf (resetIdleTimer lf).
Proof.
  split; [by repeat split|]. intros (H1 & H2 & H3). split_and!; simpl; auto.
  by intros t [= <-].
Qed.

Lemma keeps_SetIdleTimeout lf d : keeps lf (SetIdleTimeout lf d).
Proof.
  unfold SetIdleTimeout. simpl.
  destruct (idleTimer lf) eqn:Ht; (split; [by repeat split|]);
    intros (H1 & H2 & H3); split_and!; simpl; auto.
  - by intros t0 [= <-].
  - rewrite Ht. discriminate.
Qed.

Lemma keeps_logCallback lf line : keeps lf (logCallback lf line).
Proof.
  rewrite logCallback_set_logs. split; [by repeat split|]. auto.
Qed.

Lemma keeps_invokeFinish lf ev decoded : keeps lf (invokeFinish lf ev decoded).2.
Proof.
  unfold invokeFinish. destruct decoded; simpl; [|apply keeps_refl].
  split; [by repeat split|]. auto.
Qed.

Lemma keeps_invokePrepare lf ev w : keeps lf (invokePrepare lf ev w).1.2.
Proof.
  unfold invokePrepare. destruct (isRunning lf); simpl.
  - destruct (negb (newRequestOk w)); simpl; apply keeps_resetIdleTimer.
  - pose proof (keeps_Start lf (coldStartW w)) as Hs.
    destruct (Start lf (coldStartW w)) as [[[e|] lf'] fx]; simpl in *;
      [exact Hs|].
    destruct (negb (newRequestOk w)); simpl;
      (eapply keeps_trans; [exact Hs|apply keeps_resetIdleTimer]).
Qed.

Lemma keeps_duringPost lf w : keeps lf (duringPost lf w).
Proof.
  unfold duringPost. destruct (idleFire w); [|apply keeps_refl].
  apply keeps_idleTimerFire.
Qed.

Lemma keeps_invokeSend lf ev url w : keeps lf (invokeSend lf ev url w).1.2.
Proof.
  unfold invokeSend. pose proof (keeps_duringPost lf w) as Hd.
  destruct (post1 w) as [decoded|err].
  - pose proof (keeps_invokeFinish (duringPost lf w) ev decoded) as Hf.
    destruct (invokeFinish _ _ _). simpl in *. by eapply keeps_trans.
  - destruct (isRunning (duringPost lf w)); [|exact Hd].
    pose proof (keeps_Stop (duringPost lf w) (restartStopW w)) as Hs.
    destruct (Stop _ _) as [[serr lf1] sfx]. simpl in Hs.
    pose proof (keeps_Start lf1 (restartStartW w)) as Hr.
    destruct (Start _ _) as [[rerr lf2] rfx]. simpl in Hr.
    assert (H2 : keeps lf lf2) by (eapply keeps_trans; [|exact Hr];
                                   by eapply keeps_trans).
    destruct rerr; [exact H2|].
    destruct (post2 w) as [decoded|err2]; [|exact H2].
    pose proof (keeps_invokeFinish lf2 ev decoded) as Hf.
    destruct (invokeFinish _ _ _). simpl in *. by eapply keeps_trans.
Qed.

Lemma keeps_Invoke lf ev w : keeps lf (Invoke lf ev w).1.2.
Proof.
  unfold Invoke. pose proof (keeps_invokePrepare lf ev w) as Hp.
  destruct (invokePrepare lf ev w) as [[[e|[ev' url]] lf1] tr];
    simpl in Hp; [exact Hp|].
  pose proof (keeps_invokeSend lf1 ev' url w) as Hs.
  destruct (invokeSend _ _ _ _) as [[r lf2] tr']. simpl in *.
  by eapply keeps_trans.
Qed.

End KappaMore.

Section RegistryWf.

Import Kappa Service Wf.

Lemma registered_keeps name lf lf' :
  keeps lf lf' -> registered name lf /\ instance_wf lf ->
  registered name lf' /\ instance_wf lf'.
Proof.
  intros [(Hn&Hb&Hi&_&Hp) Hw] [(?&?&?&?&?) ?]. split; [|auto].
  unfold registered. rewrite Hn, Hb, Hi, Hp. by split_and!.
Qed.

Lemma wf_New name binaryPath image env port :
  instance_wf (NewKappaFunction name binaryPath image env port).
Proof. split_and!; simpl; discriminate. Qed.

Lemma wf_onInstance s name f :
  (forall fn, keeps fn (f fn)) ->
  registry_wf s -> registry_wf (onInstance s name f).
Proof.
  intros Hf Hs. unfold onInstance.
  destruct (s !! name) as [fn|] eqn:Hl; [|exact Hs].
  apply map_Forall_insert_2; [|exact Hs].
  eapply registered_keeps; [apply Hf|]. exact (Hs _ _ Hl).
Qed.

Lemma wf_step s o : registry_wf s -> registry_wf (step s o).
Proof.
  intros Hs.
  destruct o as [req stat|name r w|name w|name w|name w|name w|name d|name line];
    simpl.
  - unfold registerFunction. destruct req as [config|]; [|exact Hs].
    destruct (decide _) as [|Hv]; [exact Hs|].
    assert (Hnew : registered (cName config)
              (NewKappaFunction (cName config) (cBinaryPath config)
                 (cImage config) (cEnv config)
                 (if decide (cPort config = 0) then 8080 else cPort config))).
    { unfold registered. simpl. split_and!; try tauto.
      case_decide; [discriminate|assumption]. }
    destruct stat; simpl; try exact Hs;
      (apply map_Forall_insert_2; [split; [exact Hnew|apply wf_New]|exact Hs]).
  - unfold invokeFunction. destruct (s !! name) as [fn|] eqn:Hl; [|exact Hs].
    destruct (reqBody r) as [b|]; [|exact Hs].
    match goal with
    | |- context [Invoke fn ?ev w] =>
        pose proof (registered_keeps name _ _ (keeps_Invoke fn ev w) (Hs _ _ Hl)) as Hi;
        destruct (Invoke fn ev w) as [[[err|resp] fn'] tr]
    end; simpl in *.
    + now apply map_Forall_insert_2.
    + now apply map_Forall_insert_2.
  - unfold deleteFunction. destruct (s !! name) as [fn|] eqn:Hl; [|exact Hs].
    unfold IsRunning. destruct (isRunning fn).
    + pose proof (registered_keeps name _ _ (keeps_Stop fn w) (Hs _ _ Hl)) as Hi.
      destruct (Stop fn w) as [[[e|] fn'] fx]; simpl in *.
      * now apply map_Forall_insert_2.
      * now apply map_Forall_delete.
    + simpl. now apply map_Forall_delete.
  - apply wf_onInstance; [|exact Hs]. intros fn. apply keeps_Start.
  - apply wf_onInstance; [|exact Hs]. intros fn. apply keeps_Stop.
  - apply wf_onInstance; [|exact Hs]. intros fn. apply keeps_idleTimerFire.
  - apply wf_onInstance; [|exact Hs]. intros fn. apply keeps_SetIdleTimeout.
  - apply wf_onInstance; [|exact Hs]. intros fn.
    destruct (container fn); [apply keeps_logCallback|apply keeps_refl].
Qed.

Lemma wf_run ops : forall s, registry_wf s -> registry_wf (run s ops).
Proof.
  induction ops as [|o ops IH]; intros s Hs; [exact Hs|].
  apply IH, wf_step, Hs.
Qed.

Lemma wf_history ops name fn :
  run ∅ ops !! name = Some fn -> registered name fn /\ instance_wf fn.
Proof. intros Hl. exact (wf_run ops ∅ (map_Forall_empty _) name fn Hl). Qed.

(** What a send of [Invoke] is made of. *)
Lemma Invoke_posts lf ev w u h p :
  In (IPost u h p) (Invoke lf ev w).2 ->
  exists lf1 tr0,
    invokePrepare lf ev w = (inr (p, u), lf1, tr0) /\ h = eRequestID p.
Proof.
  unfold Invoke.
  destruct (invokePrepare lf ev w) as [[[e|[ev' url]] lf1] tr0] eqn:Hp.
  - destruct (invokePrepare_err_trace _ _ _ _ _ _ Hp) as [_ Hposts].
    simpl. intros Hin. exfalso. unfold Spec.posts in Hposts.
    apply length_zero_iff_nil in Hposts.
    assert (Hel : IPost u h p ∈ filter Spec.isPost tr0)
      by (apply list_elem_of_filter; split; [done|by apply list_elem_of_In]).
    rewrite Hposts in Hel. by apply not_elem_of_nil in Hel.
  - destruct (invokePrepare_ok _ _ _ _ _ _ _ Hp) as (_ & _ & _ & Hstarts).
    pose proof (invokeSend_trace lf1 ev' url w) as Htr. simpl in Htr.
    destruct (invokeSend lf1 ev' url w) as [[r lf2] tr1]. simpl in *.
    intros [Hin|Hin]%in_app_or.
    + rewrite Forall_forall in Hstarts. apply list_elem_of_In in Hin.
      destruct (Hstarts _ Hin) as (? & ? & ?). discriminate.
    + assert (Hall : forall st, In st tr1 -> Spec.isPost st = true ->
                       st = IPost url (eRequestID ev') ev').
      { destruct (post1 w).
        - subst tr1. intros st [<-|[]] _. reflexivity.
        - destruct (isRunning _).
          + destruct Htr as (? & ? & [?|] & ? & ->);
              intros st Hst Hpost; simpl in Hst;
              repeat (destruct Hst as [<-|Hst]; try discriminate; try reflexivity);
              destruct Hst.
          + subst tr1. intros st [<-|[]] _. reflexivity. }
      specialize (Hall _ Hin eq_refl). injection Hall as -> -> ->.
      by eexists _, _.
Qed.

Lemma invokePrepare_running lf ev w ev' url lf1 tr :
  invokePrepare lf ev w = (inr (ev', url), lf1, tr) ->
  isRunning lf1 = true /\ url = containerURL lf1 +:+ invocationsPath.
Proof.
  unfold invokePrepare. destruct (isRunning lf) eqn:Hr; simpl.
  - destruct (negb (newRequestOk w)); [discriminate|].
    intros [= _ <- <- _]. by split.
  - destruct (Start lf (coldStartW w)) as [[[e|] lf'] fx] eqn:Hs; [discriminate|].
    destruct (negb (newRequestOk w)); [discriminate|].
    intros [= _ <- <- _]. simpl.
    destruct (Start_cold_shape lf _ lf' fx Hr Hs) as (? & ? & _ & _ & ->).
    by split.
Qed.

Lemma Remove_err_joined c w e :
  (Cont.Remove c w).1.1 = Some e -> exists errs, e = Cont.Joined errs.
Proof.
  unfold Cont.Remove, Cont.cleanup.
  destruct (Cont.task c), (Cont.container c), (Cont.rmStatusErr w),
    (Cont.taskDeleteErr w) as [[|]|], (Cont.containerDeleteErr w) as [[|]|];
    simpl; destruct (filter _ _); simpl; intros [= <-]; by eexists.
Qed.

(** With a task on the handle, [Cont.Stop] does not answer "no running
    task found". *)
Lemma Cont_Stop_has_task c opts w :
  Cont.task c <> None -> (Cont.Stop c opts w).1.1 <> Some Cont.NoRunningTask.
Proof.
  intros Ht. pose proof (Remove_err_joined c (Cont.removeW w)) as Hj.
  unfold Cont.Stop. destruct (Cont.task c); [|congruence].
  destruct (Cont.Remove c (Cont.removeW w)) as [[re rc] rtr]. simpl in Hj.
  assert (Hre : re <> Some Cont.NoRunningTask).
  { intros ->. destruct (Hj _ eq_refl) as [? [=]]. }
  destruct (decide _); [destruct (Cont.RemoveOnStop opts); simpl; congruence|].
  destruct (Cont.killErr w) as [[|]|]; simpl;
    [destruct (Cont.RemoveOnStop opts); simpl; congruence|discriminate|].
  destruct (Cont.waitErr w); [discriminate|].
  destruct (Cont.exitedInTime w);
    [destruct (Cont.RemoveOnStop opts); simpl; congruence|].
  destruct (Cont.forceKillErr w) as [[|]|]; simpl;
    [destruct (Cont.RemoveOnStop opts); simpl; congruence|discriminate
    |destruct (Cont.RemoveOnStop opts); simpl; congruence].
Qed.

End RegistryWf.

(** X8: in every history of a registry, the instance found under a name
    has that name, and name, binary path and image are not empty and the
    port is not 0: what [registerFunction] checked and defaulted stays
    true whatever is done to the instance afterwards. *)
Theorem registered_instances_stay_valid (ops : list Service.Op)
    (name : string) (fn : Kappa.KappaFunction) :
  Service.run ∅ ops !! name = Some fn ->
  Kappa.Name fn = name /\ name <> "" /\ Kappa.BinaryPath fn <> ""
  /\ Kappa.Image fn <> "" /\ Kappa.Port fn <> 0.
Proof.
  intros Hl. destruct (wf_history ops name fn Hl) as [Hreg _].
  exact Hreg.
Qed.

Lemma registered_instances_stay_valid_witness :
  Kappa.Name Sample.greetWarm = "greet" /\ "greet" <> ""
  /\ Kappa.BinaryPath Sample.greetWarm <> ""
  /\ Kappa.Image Sample.greetWarm <> "" /\ Kappa.Port Sample.greetWarm <> 0.
Proof.
  apply (registered_instances_stay_valid
           [Service.OpRegister (Some Sample.greetConfig) Service.StatOk;
            Service.OpStart "greet" Sample.startOk]
           "greet" Sample.greetWarm).
  vm_compute. reflexivity.
Defined.

(** X9: in every history, a running instance has the URL
    http://localhost:<its port>, and every request an [Invoke] of a
    registered instance sends goes to that URL followed by
    /2015-03-31/functions/function/invocations, also after a restart. *)
Theorem requests_go_to_own_port (ops : list Service.Op) (name : string)
    (fn : Kappa.KappaFunction) :
  Service.run ∅ ops !! name = Some fn ->
  (Kappa.isRunning fn = true ->
     Kappa.containerURL fn = "http://localhost:" +:+ pretty (Kappa.Port fn))
  /\ (forall event w url h payload,
        In (Kappa.IPost url h payload) (Kappa.Invoke fn event w).2 ->
        url = ("http://localhost:" +:+ pretty (Kappa.Port fn))
              +:+ "/2015-03-31/functions/function/invocations").
Proof.
  intros Hl. destruct (wf_history ops name fn Hl) as [_ Hwf].
  split; [exact (proj1 Hwf)|].
  intros event w url h payload Hin.
  destruct (Invoke_posts _ _ _ _ _ _ Hin) as (lf1 & tr0 & Hp & _).
  destruct (invokePrepare_running _ _ _ _ _ _ _ Hp) as [Hrun ->].
  pose proof (keeps_invokePrepare fn event w) as [(_&_&_&_&HP) Hk].
  rewrite Hp in HP, Hk. simpl in HP, Hk.
  destruct (Hk Hwf) as (Hurl & _). rewrite (Hurl Hrun).
  unfold Wf.localURL. now rewrite HP.
Qed.

Lemma requests_go_to_own_port_witness :
  (Kappa.isRunning Sample.greetWarm = true ->
     Kappa.containerURL Sample.greetWarm
     = "http://localhost:" +:+ pretty (Kappa.Port Sample.greetWarm))
  /\ (forall event w url h payload,
        In (Kappa.IPost url h payload) (Kappa.Invoke Sample.greetWarm event w).2 ->
        url = ("http://localhost:" +:+ pretty (Kappa.Port Sample.greetWarm))
              +:+ "/2015-03-31/functions/function/invocations").
Proof.
  apply (requests_go_to_own_port
           [Service.OpRegister (Some Sample.greetConfig) Service.StatOk;
            Service.OpStart "greet" Sample.startOk]
           "greet" Sample.greetWarm).
  vm_compute. reflexivity.
Defined.

(** X10: in every history, an idle timer of a registered instance is set
    to the instance's current idle timeout.  [SetIdleTimeout] makes the
    new duration the timeout; it re-arms a timer that exists with the new
    duration and creates none. *)
Theorem idle_timer_follows_timeout (ops : list Service.Op) (name : string)
    (fn : Kappa.KappaFunction) :
  Service.run ∅ ops !! name = Some fn ->
  (forall t, Kappa.idleTimer fn = Some t ->
     Kappa.duration t = Kappa.idleTimeout fn)
  /\ (forall d,
        let fn' := Kappa.SetIdleTimeout fn d in
        Kappa.idleTimeout fn' = d
        /\ (Kappa.idleTimer fn = None -> Kappa.idleTimer fn' = None)
        /\ (Kappa.idleTimer fn <> None ->
              Kappa.idleTimer fn'
              = Some {| Kappa.duration := d; Kappa.active := true |})).
Proof.
  intros Hl. destruct (wf_history ops name fn Hl) as [_ (_ & Ht & _)].
  split; [exact Ht|]. intros d. unfold Kappa.SetIdleTimeout. simpl.
  destruct (Kappa.idleTimer fn) eqn:E; simpl; split_and!;
    try done; try discriminate.
Qed.

Lemma idle_timer_follows_timeout_witness :
  (forall t, Kappa.idleTimer Sample.greetWarm = Some t ->
     Kappa.duration t = Kappa.idleTimeout Sample.greetWarm)
  /\ (forall d,
        let fn' := Kappa.SetIdleTimeout Sample.greetWarm d in
        Kappa.idleTimeout fn' = d
        /\ (Kappa.idleTimer Sample.greetWarm = None -> Kappa.idleTimer fn' = None)
        /\ (Kappa.idleTimer Sample.greetWarm <> None ->
              Kappa.idleTimer fn'
              = Some {| Kappa.duration := d; Kappa.active := true |})).
Proof.
  apply (idle_timer_follows_timeout
           [Service.OpRegister (Some Sample.greetConfig) Service.StatOk;
            Service.OpStart "greet" Sample.startOk]
           "greet" Sample.greetWarm).
  vm_compute. reflexivity.
Defined.

(** X11: the supervisor never runs into the adapter's own refusals.  In
    every history, [Start] of a registered instance does not fail on the
    validation of the container configuration, and [Stop] does not fail
    with "no running task found": a container held by an instance has a
    task and was configured with the instance's image, the command
    /app/main and the namespace kappa. *)
Theorem supervisor_respects_adapter (ops : list Service.Op) (name : string)
    (fn : Kappa.KappaFunction) :
  Service.run ∅ ops !! name = Some fn ->
  (forall w, (Kappa.Start fn w).1.1
             <> Some (Kappa.FailedCreateContainer Cont.ValidationFailed))
  /\ (forall w, (Kappa.Stop fn w).1.1
                <> Some (Kappa.FailedStopContainer Cont.NoRunningTask))
  /\ (forall c, Kappa.container fn = Some c ->
        Cont.task c <> None
        /\ Cont.Image (Cont.config c) = Kappa.Image fn
        /\ Cont.Command (Cont.config c) = Some ["/app/main"]
        /\ Cont.Namespace (Cont.config c) = "kappa").
Proof.
  intros Hl.
  destruct (wf_history ops name fn Hl) as [(_ & _ & _ & Himg & _) (_ & _ & Hc)].
  split_and!.
  - intros w. unfold Kappa.Start.
    destruct (Kappa.isRunning fn); [discriminate|].
    destruct (Kappa.mkdirTemp w) as [tmp|]; [|discriminate].
    destruct (_ && _); [discriminate|].
    destruct (negb (Kappa.chmodOk w)); [discriminate|].
    destruct (Cont.NewContainer _ _) as [e|c0] eqn:Hnew.
    + simpl. intros [= ->]. revert Hnew. unfold Cont.NewContainer. simpl.
      destruct (decide _) as [[H|[H|[H|[H|H]]]]|_]; try discriminate;
        try (destruct (negb _); discriminate).
      contradiction.
    + destruct (Cont.Start _ _) as [[?|] ?]; [discriminate|].
      destruct (Cont.StreamLogs _); discriminate.
  - intros w. unfold Kappa.Stop.
    destruct (Kappa.isRunning fn); [|discriminate].
    destruct (Kappa.container fn) as [c|] eqn:Hcf; [|discriminate].
    destruct (Hc c eq_refl) as (Ht & _).
    pose proof (Cont_Stop_has_task c Kappa.stopOpts w) as Hn.
    destruct (Cont.Stop c Kappa.stopOpts w) as [[[e|] c'] calls]; simpl in *;
      [|discriminate].
    intros [= ->]. apply Hn; [|reflexivity]. rewrite Ht. discriminate.
  - intros c Hcf. destruct (Hc c Hcf) as (Ht & tmp & u & -> & _).
    split_and!; try reflexivity. rewrite Ht. discriminate.
Qed.

Lemma supervisor_respects_adapter_witness :
  (forall w, (Kappa.Start Sample.greetWarm w).1.1
             <> Some (Kappa.FailedCreateContainer Cont.ValidationFailed))
  /\ (forall w, (Kappa.Stop Sample.greetWarm w).1.1
                <> Some (Kappa.FailedStopContainer Cont.NoRunningTask))
  /\ (forall c, Kappa.container Sample.greetWarm = Some c ->
        Cont.task c <> None
        /\ Cont.Image (Cont.config c) = Kappa.Image Sample.greetWarm
        /\ Cont.Command (Cont.config c) = Some ["/app/main"]
        /\ Cont.Namespace (Cont.config c) = "kappa").
Proof.
  apply (supervisor_respects_adapter
           [Service.OpRegister (Some Sample.greetConfig) Service.StatOk;
            Service.OpStart "greet" Sample.startOk]
           "greet" Sample.greetWarm).
  vm_compute. reflexivity.
Defined.

Section KappaCompose.

Import Kappa Wf.

(** [Stop] on a running instance with a container, step by step. *)
Lemma Stop_running_shape lf w c :
  isRunning lf = true -> container lf = Some c ->
  Stop lf w
  = (match (Cont.Stop c stopOpts w).1.1 with
     | Some e => Some (FailedStopContainer e)
     | None => None
     end,
     set_isRunning
       (match (Cont.Stop c stopOpts w).1.1 with Some _ => true | None => false end)
       (set_container (Some (Cont.Stop c stopOpts w).1.2) (cancelIdleTimer lf)),
     [FxContainerStop stopOpts (Cont.Stop c stopOpts w).2]).
Proof.
  intros Hr Hc. unfold Stop. rewrite Hr, Hc.
  destruct (Cont.Stop c stopOpts w) as [[[e|] c'] calls]; simpl; [|reflexivity].
  f_equal. f_equal. unfold cancelIdleTimer, set_isRunning, set_container.
  destruct (idleTimer lf); simpl; now rewrite Hr.
Qed.

End KappaCompose.

(** X12: the temp directory [Start] creates for the binary is removed by
    the [Stop] that follows.  After a cold start that succeeded, a [Stop]
    that succeeds has called the adapter once, with force-kill and
    remove-on-stop and a 10 s timeout, and [os.RemoveAll] exactly on the
    directory [os.MkdirTemp] had returned; the container the instance
    still holds has no temp directory registered any more. *)
Theorem stop_removes_start_tempdir (lf lf1 lf2 : Kappa.KappaFunction)
    (w : Kappa.StartWorld) (sw : Cont.StopWorld)
    (fx1 fx2 : list Kappa.Effect) :
  Kappa.isRunning lf = false ->
  Kappa.Start lf w = (None, lf1, fx1) ->
  Kappa.Stop lf1 sw = (None, lf2, fx2) ->
  exists tmpPath calls c,
    Kappa.mkdirTemp w = Some tmpPath
    /\ fx2 = [Kappa.FxContainerStop
                {| Cont.Timeout := 10 * Kappa.Second; Cont.ForceKill := true;
                   Cont.RemoveOnStop := true |} calls]
    /\ Obs.removed calls = [tmpPath]
    /\ Kappa.container lf2 = Some c /\ Cont.tempDirs c = [].
Proof.
  intros Hr Hs Hp.
  destruct (Start_cold_shape lf w lf1 fx1 Hr Hs) as (tmp & c & Hm & Hc & Hlf).
  assert (Hr1 : Kappa.isRunning lf1 = true) by now subst lf1.
  assert (Hc1 : Kappa.container lf1 = Some c) by now subst lf1.
  rewrite (Stop_running_shape lf1 sw c Hr1 Hc1) in Hp.
  destruct (Cont.Stop c Kappa.stopOpts sw) as [[[e|] c'] calls] eqn:Hcs;
    simpl in Hp; [discriminate|].
  injection Hp as <- <-.
  destruct (Cont_Stop_removed c Kappa.stopOpts sw eq_refl) as [Hrm Htd];
    [now rewrite Hcs|].
  rewrite Hcs in Hrm, Htd. simpl in Hrm, Htd.
  subst c. simpl in Hrm.
  exists tmp, calls, c'. by split_and!.
Qed.

Lemma stop_removes_start_tempdir_witness :
  exists tmpPath calls c,
    Kappa.mkdirTemp Sample.startOk = Some tmpPath
    /\ (Kappa.Stop Sample.greetWarm Sample.stopOk).2
       = [Kappa.FxContainerStop
            {| Cont.Timeout := 10 * Kappa.Second; Cont.ForceKill := true;
               Cont.RemoveOnStop := true |} calls]
    /\ Obs.removed calls = [tmpPath]
    /\ Kappa.container (Kappa.Stop Sample.greetWarm Sample.stopOk).1.2 = Some c
    /\ Cont.tempDirs c = [].
Proof.
  apply (stop_removes_start_tempdir Sample.greet Sample.greetWarm
           (Kappa.Stop Sample.greetWarm Sample.stopOk).1.2
           Sample.startOk Sample.stopOk
           (Kappa.Start Sample.greet Sample.startOk).2
           (Kappa.Stop Sample.greetWarm Sample.stopOk).2);
    reflexivity.
Defined.

(** X13: log lines the container emits before [Start] registers its
    callback are not lost, and a restart keeps the earlier lines: after a
    cold start that succeeded, the buffer is the former buffer followed
    by those early lines, cut to its last 1000 lines; the counter of
    requests and the idle timeout are as before. *)
Theorem start_replays_early_logs (lf lf' : Kappa.KappaFunction)
    (w : Kappa.StartWorld) (fx : list Kappa.Effect) :
  (length (Kappa.logs lf) <= 1000)%nat ->
  Kappa.isRunning lf = false ->
  Kappa.Start lf w = (None, lf', fx) ->
  let all := Kappa.logs lf ++ Kappa.earlyLogs w in
  Kappa.GetLogs lf' = drop (length all - 1000) all
  /\ Kappa.requestsProcessed lf' = Kappa.requestsProcessed lf
  /\ Kappa.idleTimeout lf' = Kappa.idleTimeout lf.
Proof.
  intros Hb Hr Hs.
  destruct (Start_cold_shape lf w lf' fx Hr Hs) as (tmp & c & _ & _ & ->).
  simpl. unfold Kappa.GetLogs. simpl. split; [|by split].
  apply logs_foldl_logCallback.
  replace (length (Kappa.logs lf) - 1000)%nat with 0%nat by lia.
  reflexivity.
Qed.

Lemma start_replays_early_logs_witness :
  let w := {| Kappa.mkdirTemp := Some "/tmp/k"; Kappa.linkOk := false;
              Kappa.copyOk := true; Kappa.chmodOk := true;
              Kappa.nameUUID := "u"; Kappa.connectOk := true;
              Kappa.engineStart := Cont.StartSucceeds;
              Kappa.earlyLogs := ["[stdout] up"; "[stderr] warn"] |} in
  Kappa.GetLogs (Kappa.Start Sample.greet w).1.2
    = ["[stdout] up"; "[stderr] warn"]
  /\ Kappa.requestsProcessed (Kappa.Start Sample.greet w).1.2 = 0
  /\ Kappa.idleTimeout (Kappa.Start Sample.greet w).1.2 = 5 * Kappa.Minute.
Proof.
  apply (start_replays_early_logs Sample.greet
           (Kappa.Start Sample.greet
              {| Kappa.mkdirTemp := Some "/tmp/k"; Kappa.linkOk := false;
                 Kappa.copyOk := true; Kappa.chmodOk := true;
                 Kappa.nameUUID := "u"; Kappa.connectOk := true;
                 Kappa.engineStart := Cont.StartSucceeds;
                 Kappa.earlyLogs := ["[stdout] up"; "[stderr] warn"] |}).1.2
           {| Kappa.mkdirTemp := Some "/tmp/k"; Kappa.linkOk := false;
              Kappa.copyOk := true; Kappa.chmodOk := true;
              Kappa.nameUUID := "u"; Kappa.connectOk := true;
              Kappa.engineStart := Cont.StartSucceeds;
              Kappa.earlyLogs := ["[stdout] up"; "[stderr] warn"] |}
           (Kappa.Start Sample.greet
              {| Kappa.mkdirTemp := Some "/tmp/k"; Kappa.linkOk := false;
                 Kappa.copyOk := true; Kappa.chmodOk := true;
                 Kappa.nameUUID := "u"; Kappa.connectOk := true;
                 Kappa.engineStart := Cont.StartSucceeds;
                 Kappa.earlyLogs := ["[stdout] up"; "[stderr] warn"] |}).2).
  - simpl. lia.
  - reflexivity.
  - reflexivity.
Defined.

Section InvokeMore.

Import Kappa Wf.

(** Fields that only [Invoke]'s last step and [SetIdleTimeout] write. *)
Lemma Start_counters lf w :
  requestsProcessed (Start lf w).1.2 = requestsProcessed lf
  /\ idleTimeout (Start lf w).1.2 = idleTimeout lf.
Proof.
  destruct (isRunning lf) eqn:Hr.
  - now rewrite Start_running.
  - destruct (Start lf w) as [[[e|] lf'] fx] eqn:Hs; simpl.
    + now rewrite (Start_failure _ _ _ _ _ Hs).
    + destruct (Start_cold_shape lf w lf' fx Hr Hs) as (? & ? & _ & _ & ->).
      by split.
Qed.

Lemma Stop_counters lf w :
  requestsProcessed (Stop lf w).1.2 = requestsProcessed lf
  /\ idleTimeout (Stop lf w).1.2 = idleTimeout lf.
Proof.
  unfold Stop. destruct (isRunning lf); [|by split].
  destruct (container lf); [|by split].
  destruct (Cont.Stop _ _ _) as [[[?|] ?] ?]; simpl;
    unfold cancelIdleTimer; now destruct (idleTimer lf).
Qed.

Lemma idleTimerFire_counters lf w :
  requestsProcessed (idleTimerFire lf w).1.2 = requestsProcessed lf
  /\ idleTimeout (idleTimerFire lf w).1.2 = idleTimeout lf.
Proof.
  unfold idleTimerFire. destruct (idleTimer lf) as [t|]; [|by split].
  destruct (active t); [|by split]. simpl.
  destruct (isRunning lf); [|by split].
  apply (Stop_counters
           (set_idleTimer (Some {| duration := duration t; active := false |}) lf)).
Qed.

Lemma invokePrepare_counters lf ev w :
  requestsProcessed (invokePrepare lf ev w).1.2 = requestsProcessed lf
  /\ idleTimeout (invokePrepare lf ev w).1.2 = idleTimeout lf.
Proof.
  unfold invokePrepare. destruct (isRunning lf); simpl.
  - now destruct (negb (newRequestOk w)).
  - pose proof (Start_counters lf (coldStartW w)) as Hs.
    destruct (Start lf (coldStartW w)) as [[[e|] lf'] fx]; simpl in *;
      [exact Hs|].
    now destruct (negb (newRequestOk w)).
Qed.

Lemma duringPost_counters lf w :
  requestsProcessed (duringPost lf w) = requestsProcessed lf
  /\ idleTimeout (duringPost lf w) = idleTimeout lf.
Proof.
  unfold duringPost. destruct (idleFire w); [|by split].
  apply idleTimerFire_counters.
Qed.

End InvokeMore.

(** X14: the counter of requests counts exactly the invocations that
    return a response: an [Invoke] that returns one adds 1 to it (in
    64-bit arithmetic), whatever restarts happened on the way, and an
    [Invoke] that returns an error leaves it as it was. *)
Theorem invoke_counts_responses (lf : Kappa.KappaFunction)
    (event : Kappa.KappaEvent) (w : Kappa.InvokeWorld) :
  let '(res, lf', _) := Kappa.Invoke lf event w in
  match res with
  | inr _ =>
      Kappa.requestsProcessed lf'
      = Kappa.wrap64 (Kappa.requestsProcessed lf + 1)
      /\ (- 2^63 <= Kappa.requestsProcessed lf < 2^63 - 1 ->
          Kappa.requestsProcessed lf' = Kappa.requestsProcessed lf + 1)
  | inl _ => Kappa.requestsProcessed lf' = Kappa.requestsProcessed lf
  end.
Proof.
  assert (Hwrap : forall n, - 2^63 <= n < 2^63 - 1 -> Kappa.wrap64 (n + 1) = n + 1).
  { intros n Hn. unfold Kappa.wrap64. rewrite Z.mod_small; lia. }
  unfold Kappa.Invoke.
  pose proof (invokePrepare_counters lf event w) as [Hp _].
  destruct (Kappa.invokePrepare lf event w) as [[[e|[ev url]] lf1] tr0];
    simpl in Hp; [exact Hp|].
  unfold Kappa.invokeSend.
  pose proof (duringPost_counters lf1 w) as [Hd _].
  destruct (Kappa.post1 w) as [[d|]|err]; simpl.
  - rewrite Hd, Hp. split; [reflexivity|]. apply Hwrap.
  - congruence.
  - destruct (Kappa.isRunning (Kappa.duringPost lf1 w)); [|congruence].
    pose proof (Stop_counters (Kappa.duringPost lf1 w) (Kappa.restartStopW w))
      as [Hs _].
    destruct (Kappa.Stop _ _) as [[serr lf2] sfx]. simpl in Hs.
    pose proof (Start_counters lf2 (Kappa.restartStartW w)) as [Hr _].
    destruct (Kappa.Start _ _) as [[[e|] lf3] rfx]; simpl in Hr; [congruence|].
    destruct (Kappa.post2 w) as [[d|]|err2]; simpl; try congruence.
    replace (Kappa.requestsProcessed lf3) with (Kappa.requestsProcessed lf)
      by congruence.
    split; [reflexivity|]. apply Hwrap.
Qed.

Lemma invoke_counts_responses_witness :
  Kappa.requestsProcessed
    (Kappa.Invoke Sample.greet Sample.emptyEvent Sample.invokeOk).1.2
  = 0 + 1.
Proof.
  pose proof (invoke_counts_responses
                Sample.greet Sample.emptyEvent Sample.invokeOk) as H.
  remember (Kappa.Invoke Sample.greet Sample.emptyEvent Sample.invokeOk)
    as x eqn:E in H |- *.
  vm_compute in E. subst x. apply H. simpl. lia.
Defined.

(** X15: an [Invoke] of an instance that is not running begins with a
    [Start]; when that [Start] fails, its error is returned, no request
    is sent and the instance is as before.  An [Invoke] of a running
    instance calls no [Start] before its first request. *)
Theorem invoke_starts_cold_instance (lf : Kappa.KappaFunction)
    (event : Kappa.KappaEvent) (w : Kappa.InvokeWorld) :
  let '(res, lf', tr) := Kappa.Invoke lf event w in
  (Kappa.isRunning lf = false ->
     exists fx tr',
       tr = Kappa.IStart (Kappa.Start lf (Kappa.coldStartW w)).1.1 fx :: tr'
       /\ fx = (Kappa.Start lf (Kappa.coldStartW w)).2
       /\ (forall e, (Kappa.Start lf (Kappa.coldStartW w)).1.1 = Some e ->
             res = inl (Kappa.FailedToStart e) /\ lf' = lf /\ tr' = []))
  /\ (Kappa.isRunning lf = true ->
        tr = [] \/ exists url h p tr', tr = Kappa.IPost url h p :: tr').
Proof.
  unfold Kappa.Invoke, Kappa.invokePrepare.
  destruct (Kappa.isRunning lf) eqn:Hr; simpl.
  - destruct (negb (Kappa.newRequestOk w)); simpl.
    + split; [discriminate|]. intros _. by left.
    + match goal with
      | |- context [Kappa.invokeSend ?a ?b ?c w] =>
          pose proof (invokeSend_trace a b c w) as Htr; cbv zeta in Htr;
          destruct (Kappa.invokeSend a b c w) as [[r lf2] tr1] eqn:Hsend
      end.
      simpl in *.
      split; [discriminate|]. intros _. right. clear Hsend. revert Htr.
      destruct (Kappa.post1 w); cbn iota;
        [intros ->; by eexists _, _, _, _|].
      match goal with
      | |- (if ?b then _ else _) -> _ => destruct b
      end; [|intros ->; by eexists _, _, _, _].
      intros (? & ? & ? & ? & ->). by eexists _, _, _, _.
  - destruct (Kappa.Start lf (Kappa.coldStartW w)) as [[[e|] lf1] fx] eqn:Hs;
      simpl.
    + split; [|discriminate]. intros _. exists fx, []. split_and!; try done.
      intros e0 [= <-]. split_and!; try done.
      apply (Start_failure _ _ _ _ _ Hs).
    + destruct (negb (Kappa.newRequestOk w)); simpl.
      * split; [|discriminate]. intros _. exists fx, []. by split_and!.
      * destruct (Kappa.invokeSend _ _ _ _) as [[r lf2] tr1]. simpl.
        split; [|discriminate]. intros _. exists fx, tr1. by split_and!.
Qed.

Lemma invoke_starts_cold_instance_witness :
  exists fx tr',
    (Kappa.Invoke Sample.greet Sample.emptyEvent Sample.invokeOk).2
    = Kappa.IStart (Kappa.Start Sample.greet Sample.startOk).1.1 fx :: tr'
    /\ fx = (Kappa.Start Sample.greet Sample.startOk).2
    /\ (forall e, (Kappa.Start Sample.greet Sample.startOk).1.1 = Some e ->
          (Kappa.Invoke Sample.greet Sample.emptyEvent Sample.invokeOk).1.1
          = inl (Kappa.FailedToStart e)
          /\ (Kappa.Invoke Sample.greet Sample.emptyEvent Sample.invokeOk).1.2
             = Sample.greet
          /\ tr' = []).
Proof.
  pose proof (invoke_starts_cold_instance
                Sample.greet Sample.emptyEvent Sample.invokeOk) as H.
  destruct (Kappa.Invoke Sample.greet Sample.emptyEvent Sample.invokeOk)
    as [[res lf'] tr].
  apply H. reflexivity.
Defined.

Section InvokeWarm.

Import Kappa Wf.

Lemma invokePrepare_timer lf ev w ev' url lf1 tr :
  invokePrepare lf ev w = (inr (ev', url), lf1, tr) ->
  idleTimer lf1 = Some {| duration := idleTimeout lf1; active := true |}.
Proof.
  unfold invokePrepare. destruct (isRunning lf); simpl.
  - destruct (negb (newRequestOk w)); [discriminate|]. now intros [= _ _ <- _].
  - destruct (Start lf (coldStartW w)) as [[[e|] lf'] fx]; [discriminate|].
    destruct (negb (newRequestOk w)); [discriminate|]. now intros [= _ _ <- _].
Qed.

(** After the restart of [Invoke], when its [Stop] did not fail and its
    [Start] did not either: running, with a fresh timer. *)
Lemma restart_warm lf sw w :
  isRunning lf = true ->
  idleTimer lf = Some {| duration := idleTimeout lf; active := true |} ->
  (Stop lf sw).1.1 = None ->
  (Start (Stop lf sw).1.2 w).1.1 = None ->
  let lf2 := (Start (Stop lf sw).1.2 w).1.2 in
  isRunning lf2 = true
  /\ idleTimer lf2 = Some {| duration := idleTimeout lf; active := true |}
  /\ idleTimeout lf2 = idleTimeout lf.
Proof.
  intros Hr Ht Hs Hst. pose proof (Stop_counters lf sw) as [_ Hto].
  destruct (container lf) as [c|] eqn:Hc.
  - rewrite (Stop_running_shape lf sw c Hr Hc) in *. simpl in *.
    destruct (Cont.Stop c stopOpts sw) as [[[e|] c'] calls]; [discriminate|].
    simpl in *.
    destruct (Start _ w) as [[[e|] lf2] fx] eqn:Hstart; [discriminate|].
    apply Start_cold_shape in Hstart as (? & ? & _ & _ & ->); [|reflexivity].
    simpl in *. rewrite Hto. by split_and!.
  - rewrite Stop_idle in * by (now right). simpl.
    rewrite Start_running by exact Hr. by split_and!.
Qed.

End InvokeWarm.

(** X16: an [Invoke] that returns a response leaves the function warm.
    Unless the idle timer expired while the request was in flight or the
    [Stop] of a restart failed, the instance is running afterwards and
    its idle timer has been armed anew with the idle timeout. *)
Theorem invoke_success_leaves_warm (lf lf' : Kappa.KappaFunction)
    (event : Kappa.KappaEvent) (w : Kappa.InvokeWorld)
    (resp : Kappa.KappaResponse) (tr : list Kappa.Step) :
  Kappa.idleFire w = None ->
  Kappa.Invoke lf event w = (inr resp, lf', tr) ->
  (forall e fx, ~ In (Kappa.IStop (Some e) fx) tr) ->
  Kappa.isRunning lf' = true
  /\ Kappa.idleTimer lf'
     = Some {| Kappa.duration := Kappa.idleTimeout lf; Kappa.active := true |}
  /\ Kappa.idleTimeout lf' = Kappa.idleTimeout lf.
Proof.
  intros Hfire Hinv Hstops. unfold Kappa.Invoke in Hinv.
  pose proof (invokePrepare_counters lf event w) as [_ Hto].
  destruct (Kappa.invokePrepare lf event w) as [[[e|[ev url]] lf1] tr0] eqn:Hp;
    [discriminate|].
  simpl in Hto.
  destruct (invokePrepare_running _ _ _ _ _ _ _ Hp) as [Hrun _].
  pose proof (invokePrepare_timer _ _ _ _ _ _ _ Hp) as Htimer.
  revert Hinv. unfold Kappa.invokeSend, Kappa.duringPost. rewrite Hfire.
  destruct (Kappa.post1 w) as [[d|]|err]; simpl; try discriminate.
  - intros [= _ <- _]. simpl. rewrite Htimer, Hto. by split_and!.
  - rewrite Hrun.
    pose proof (restart_warm lf1 (Kappa.restartStopW w) (Kappa.restartStartW w)
                  Hrun Htimer) as Hwarm.
    destruct (Kappa.Stop lf1 (Kappa.restartStopW w)) as [[serr lf2] sfx].
    destruct (Kappa.Start lf2 (Kappa.restartStartW w)) as [[[e|] lf3] rfx]
      eqn:Hst; [discriminate|].
    simpl in Hwarm. rewrite Hst in Hwarm. simpl in Hwarm.
    destruct (Kappa.post2 w) as [[d|]|err2]; simpl; try discriminate.
    intros [= _ <- <-]. simpl.
    destruct serr as [se|].
    + exfalso. apply (Hstops se sfx). apply in_or_app. right.
      simpl. right. by left.
    + destruct (Hwarm eq_refl eq_refl) as (H1 & H2 & H3).
      rewrite H1, H2, H3, Hto. by split_and!.
Qed.

Lemma invoke_success_leaves_warm_witness :
  let lf' := (Kappa.Invoke Sample.greetWarm Sample.emptyEvent
                Sample.invokeTimeout).1.2 in
  Kappa.isRunning lf' = true
  /\ Kappa.idleTimer lf'
     = Some {| Kappa.duration := Kappa.idleTimeout Sample.greetWarm;
               Kappa.active := true |}
  /\ Kappa.idleTimeout lf' = Kappa.idleTimeout Sample.greetWarm.
Proof.
  apply (invoke_success_leaves_warm Sample.greetWarm
           (Kappa.Invoke Sample.greetWarm Sample.emptyEvent
              Sample.invokeTimeout).1.2
           Sample.emptyEvent Sample.invokeTimeout
           (Kappa.set_rRequestID "0b7e1c52-5d4e-4c1b-9d0a-6b1f3f2a9c11"
              (Sample.okResponse ""))
           (Kappa.Invoke Sample.greetWarm Sample.emptyEvent
              Sample.invokeTimeout).2).
  - reflexivity.
  - vm_compute. reflexivity.
  - intros e fx. vm_compute.
    intros [H|[H|[H|[H|[H|[]]]]]]; discriminate.
Defined.

(** X17: what the expiry of the idle timer does.  A timer that is absent
    or no longer pending does nothing.  A pending timer of an instance
    that is not running is only marked as fired.  A pending timer of a
    running instance stops it: when the container stops, the instance is
    not running and has no timer afterwards, and the adapter has been
    called once. *)
Theorem idle_timer_expiry (lf : Kappa.KappaFunction) (w : Cont.StopWorld) :
  (Spec.timerArmed lf = false ->
     Kappa.idleTimerFire lf w = (None, lf, []))
  /\ (Spec.timerArmed lf = true -> Kappa.isRunning lf = false ->
        exists t, Kappa.idleTimer lf = Some t
          /\ Kappa.idleTimerFire lf w
             = (None,
                Kappa.set_idleTimer
                  (Some {| Kappa.duration := Kappa.duration t;
                           Kappa.active := false |}) lf,
                []))
  /\ (forall c,
        Spec.timerArmed lf = true -> Kappa.isRunning lf = true ->
        Kappa.container lf = Some c ->
        (Cont.Stop c Kappa.stopOpts w).1.1 = None ->
        let '(err, lf', fx) := Kappa.idleTimerFire lf w in
        err = None
        /\ Kappa.isRunning lf' = false /\ Kappa.idleTimer lf' = None
        /\ fx = [Kappa.FxContainerStop Kappa.stopOpts
                   (Cont.Stop c Kappa.stopOpts w).2]).
Proof.
  unfold Spec.timerArmed, Kappa.idleTimerFire.
  destruct (Kappa.idleTimer lf) as [t|] eqn:Ht.
  - destruct (Kappa.active t) eqn:Ha; split_and!; try discriminate; try done.
    + intros _ Hr. exists t. simpl. rewrite Hr. by split.
    + intros c _ Hr Hc Hs. simpl. rewrite Hr.
      rewrite (Stop_running_shape _ w c) by (simpl; assumption).
      rewrite Hs. simpl. by split_and!.
  - split_and!; try discriminate; done.
Qed.

Lemma idle_timer_expiry_witness :
  Kappa.idleTimerFire Sample.greet Sample.stopOk = (None, Sample.greet, [])
  /\ (let '(err, lf', fx) := Kappa.idleTimerFire Sample.greetWarm Sample.stopOk in
      err = None
      /\ Kappa.isRunning lf' = false /\ Kappa.idleTimer lf' = None
      /\ fx = [Kappa.FxContainerStop Kappa.stopOpts
                 (Cont.Stop (default Sample.idleContainer
                               (Kappa.container Sample.greetWarm))
                    Kappa.stopOpts Sample.stopOk).2]).
Proof.
  split.
  - apply (idle_timer_expiry Sample.greet Sample.stopOk). reflexivity.
  - apply (idle_timer_expiry Sample.greetWarm Sample.stopOk); reflexivity.
Defined.


(* ===================================================================== *)
(** ** More on the gateway *)
(* ===================================================================== *)

Section GatewayMore.

Import Kappa Service Gateway.

Lemma Stop_success_not_running lf w :
  Spec.lifecycle_inv lf -> (Stop lf w).1.1 = None ->
  isRunning (Stop lf w).1.2 = false.
Proof.
  intros [H1 _] Hs. destruct (isRunning lf) eqn:Hr.
  - destruct (H1 eq_refl) as [[c Hc] _].
    rewrite (Stop_running_shape lf w c Hr Hc) in *. simpl in *.
    now destruct (Cont.Stop c stopOpts w) as [[[e|] c'] calls].
  - rewrite Stop_idle by (now left). exact Hr.
Qed.

Lemma Stop_failure_running lf w e :
  (Stop lf w).1.1 = Some e -> isRunning (Stop lf w).1.2 = true.
Proof.
  unfold Stop. destruct (isRunning lf) eqn:Hr; [|discriminate].
  destruct (container lf); [|discriminate].
  destruct (Cont.Stop _ _ _) as [[[?|] ?] ?]; simpl; [|discriminate].
  intros _. unfold cancelIdleTimer. now destruct (idleTimer lf).
Qed.

End GatewayMore.

(** X18: [listFunctions] lists exactly the registered functions, each
    name once, each with the running flag of its instance; the list is as
    long as the registry is large. *)
Theorem list_functions_complete (s : gmap string Kappa.KappaFunction) :
  (forall name b,
     In {| Gateway.fiName := name; Gateway.fiIsRunning := b |}
        (Gateway.listFunctions s)
     <-> exists fn, s !! name = Some fn /\ Kappa.IsRunning fn = b)
  /\ NoDup (Gateway.fiName <$> Gateway.listFunctions s)
  /\ length (Gateway.listFunctions s) = size s.
Proof.
  unfold Gateway.listFunctions. split_and!.
  - intros name b. rewrite <- list_elem_of_In, list_elem_of_fmap. split.
    + intros ([n fn] & [= -> ->] & Hin). exists fn. split; [|reflexivity].
      now apply elem_of_map_to_list in Hin.
    + intros (fn & Hl & <-). exists (name, fn). split; [reflexivity|].
      now apply elem_of_map_to_list.
  - rewrite <- list_fmap_compose.
    replace (Gateway.fiName ∘ _) with (@fst string Kappa.KappaFunction)
      by reflexivity.
    apply NoDup_fst_map_to_list.
  - rewrite length_fmap. apply length_map_to_list.
Qed.

(** X19: [Shutdown] removes no function from the registry and returns
    what the HTTP server's shutdown returns, however the stops went.
    After a shutdown of a registry reached by any history, the functions
    still running are exactly those for which a warning was logged, that
    is, those whose [Stop] failed. *)
Theorem shutdown_stops_all (ops : list Service.Op)
    (w : string -> Cont.StopWorld) (serverFails : bool) :
  let s := Service.run ∅ ops in
  let '(s', warnings, failed) := Gateway.Shutdown s w serverFails in
  dom s' = dom s
  /\ failed = serverFails
  /\ (forall name fn', s' !! name = Some fn' ->
        (Kappa.isRunning fn' = true <-> is_Some (warnings !! name)))
  /\ (forall name e, warnings !! name = Some e ->
        exists fn, s !! name = Some fn /\ Kappa.isRunning fn = true
                   /\ (Kappa.Stop fn (w name)).1.1 = Some e).
Proof.
  cbv zeta. unfold Gateway.Shutdown. split_and!.
  - apply set_eq. intros name. rewrite !elem_of_dom, map_lookup_imap.
    destruct (Service.run ∅ ops !! name); simpl; split;
      intros [? ?]; try discriminate; by eexists.
  - reflexivity.
  - intros name fn'. rewrite !map_lookup_imap.
    destruct (Service.run ∅ ops !! name) as [fn|] eqn:Hl; simpl; [|discriminate].
    pose proof (inv_run ops ∅ (map_Forall_empty _) name fn Hl) as Hinv.
    unfold Kappa.IsRunning. destruct (Kappa.isRunning fn) eqn:Hr.
    + intros [= <-].
      destruct ((Kappa.Stop fn (w name)).1.1) as [e|] eqn:Hs.
      * rewrite (Stop_failure_running _ _ _ Hs). split; [by eexists|done].
      * rewrite (Stop_success_not_running _ _ Hinv Hs).
        split; [discriminate|]. intros [? ?]. discriminate.
    + intros [= <-]. rewrite Hr. split; [discriminate|].
      intros [? ?]. discriminate.
  - intros name e. rewrite map_lookup_imap.
    destruct (Service.run ∅ ops !! name) as [fn|] eqn:Hl; simpl; [|discriminate].
    unfold Kappa.IsRunning. destruct (Kappa.isRunning fn) eqn:Hr; [|discriminate].
    intros Hs. exists fn. by split_and!.
Qed.

(** X20: a handler touches the entry of the name it is given and no
    other.  Registering changes nothing but the entry of the configured
    name; invoking keeps the set of registered names and every other
    instance; deleting removes at most the given name and keeps every
    other instance. *)
Theorem handlers_are_local (s : gmap string Kappa.KappaFunction)
    (name : string) :
  (forall req stat n,
     (forall config, req = Some config -> Service.cName config <> n) ->
     (Service.registerFunction s req stat).1 !! n = s !! n)
  /\ (forall r w,
        dom (Service.invokeFunction s name r w).1.1 = dom s
        /\ forall n, n <> name ->
             (Service.invokeFunction s name r w).1.1 !! n = s !! n)
  /\ (forall w,
        dom (Service.deleteFunction s name w).1.1 ⊆ dom s
        /\ forall n, n <> name ->
             (Service.deleteFunction s name w).1.1 !! n = s !! n).
Proof.
  split_and!.
  - intros req stat n Hn. unfold Service.registerFunction.
    destruct req as [config|]; [|reflexivity].
    destruct (decide _) as [|_]; [reflexivity|].
    destruct stat; simpl; try reflexivity;
      apply lookup_insert_ne, (Hn config eq_refl).
  - intros r w. unfold Service.invokeFunction.
    destruct (s !! name) as [fn|] eqn:Hl; [|by split].
    destruct (Service.reqBody r); [|by split].
    destruct (Kappa.Invoke _ _ _) as [[[err|resp] fn'] tr]; simpl;
      try destruct (decide _); simpl;
      (split; [apply set_eq; intros k; rewrite dom_insert, elem_of_union,
                 elem_of_singleton, !elem_of_dom;
               split; [intros [->|?]; [by eexists|done]|tauto]
              |intros k Hk; by apply lookup_insert_ne]).
  - intros w. unfold Service.deleteFunction.
    destruct (s !! name) as [fn|] eqn:Hl; [|by split].
    destruct (if Kappa.IsRunning fn then _ else _) as [[[e|] fn'] fx]; simpl.
    + split; [|intros k Hk; by apply lookup_insert_ne].
      intros k. rewrite dom_insert, elem_of_union, elem_of_singleton,
        !elem_of_dom. intros [->|?]; [by eexists|done].
    + split; [|intros k Hk; by apply lookup_delete_ne].
      intros k. rewrite dom_delete, elem_of_difference. tauto.
Qed.

(** X21: what the gateway sends for an invocation.  Every request that
    [invokeFunction] has [Invoke] send carries the generated UUID as
    request id, in the header and in the event: the gateway leaves the
    event's id empty, so no id of the client is forwarded.  The event's
    body is the decoded request body, its path and method are the
    request's, and its headers and query parameters are the first value
    of each key that has a value. *)
Theorem gateway_event (s : gmap string Kappa.KappaFunction) (name : string)
    (r : Service.Request) (w : Kappa.InvokeWorld)
    (url h : string) (p : Kappa.KappaEvent) :
  In (Kappa.IPost url h p) (Service.invokeFunction s name r w).2 ->
  h = Kappa.uuid w /\ Kappa.eRequestID p = Kappa.uuid w
  /\ Service.reqBody r = Some (Kappa.eBody p)
  /\ Kappa.ePath p = Service.reqPath r
  /\ Kappa.eHTTPMethod p = Service.reqMethod r
  /\ (forall k, Kappa.eHeaders p !! k = Service.reqHeader r !! k ≫= head)
  /\ (forall k, Kappa.eQueryParams p !! k = Service.reqQuery r !! k ≫= head).
Proof.
  unfold Service.invokeFunction.
  destruct (s !! name) as [fn|]; [|intros []].
  destruct (Service.reqBody r) as [b|] eqn:Hb; [|intros []].
  match goal with
  | |- context [Kappa.Invoke fn ?ev w] =>
      pose proof (fun u h p => Invoke_posts fn ev w u h p) as Hposts;
      destruct (Kappa.Invoke fn ev w) as [[res fn'] tr] eqn:Hinv
  end.
  simpl in Hposts.
  assert (Htr : In (Kappa.IPost url h p) tr ->
                h = Kappa.uuid w /\ Kappa.eRequestID p = Kappa.uuid w
                /\ Some b = Some (Kappa.eBody p)
                /\ Kappa.ePath p = Service.reqPath r
                /\ Kappa.eHTTPMethod p = Service.reqMethod r
                /\ (forall k, Kappa.eHeaders p !! k
                              = Service.reqHeader r !! k ≫= head)
                /\ (forall k, Kappa.eQueryParams p !! k
                              = Service.reqQuery r !! k ≫= head)).
  { intros Hin. destruct (Hposts _ _ _ Hin) as (lf1 & tr0 & Hp & ->).
    destruct (invokePrepare_ok _ _ _ _ _ _ _ Hp) as (-> & _). simpl.
    split_and!; try reflexivity; intros k; apply lookup_omap. }
  destruct res as [err|resp]; simpl; exact Htr.
Qed.

Lemma gateway_event_witness :
  let p := {| Kappa.eBody := ∅; Kappa.ePath := "/functions/greet";
              Kappa.eHTTPMethod := "POST"; Kappa.eHeaders := ∅;
              Kappa.eQueryParams := ∅;
              Kappa.eRequestID := "0b7e1c52-5d4e-4c1b-9d0a-6b1f3f2a9c11" |} in
  "0b7e1c52-5d4e-4c1b-9d0a-6b1f3f2a9c11" = Kappa.uuid Sample.invokeOk
  /\ Kappa.eRequestID p = Kappa.uuid Sample.invokeOk
  /\ Service.reqBody Sample.emptyRequest = Some (Kappa.eBody p)
  /\ Kappa.ePath p = Service.reqPath Sample.emptyRequest
  /\ Kappa.eHTTPMethod p = Service.reqMethod Sample.emptyRequest
  /\ (forall k, Kappa.eHeaders p !! k
                = Service.reqHeader Sample.emptyRequest !! k ≫= head)
  /\ (forall k, Kappa.eQueryParams p !! k
                = Service.reqQuery Sample.emptyRequest !! k ≫= head).
Proof.
  intros p.
  assert (Hin : In (Kappa.IPost
                      "http://localhost:8080/2015-03-31/functions/function/invocations"
                      "0b7e1c52-5d4e-4c1b-9d0a-6b1f3f2a9c11" p)
                   (Service.invokeFunction {[ "greet" := Sample.greetWarm ]}
                      "greet" Sample.emptyRequest Sample.invokeOk).2)
    by (vm_compute; left; reflexivity).
  exact (gateway_event {[ "greet" := Sample.greetWarm ]} "greet"
           Sample.emptyRequest Sample.invokeOk
           "http://localhost:8080/2015-03-31/functions/function/invocations"
           "0b7e1c52-5d4e-4c1b-9d0a-6b1f3f2a9c11" p Hin).
Defined.

(** X22: the logs endpoint never returns more than 1000 lines.  On the
    registry of any history, [getFunctionLogs] answers 404 for a name
    that is not registered and otherwise 200 with the instance's log
    buffer, which holds at most 1000 lines. *)
Theorem logs_endpoint_bounded (ops : list Service.Op) (name : string) :
  let s := Service.run ∅ ops in
  match s !! name with
  | None =>
      Service.getFunctionLogs s name
      = Service.httpError (Service.FunctionNotFound name) 404
  | Some fn =>
      exists lines,
        Service.statusCode (Service.getFunctionLogs s name) = 200
        /\ Service.body (Service.getFunctionLogs s name)
           = Service.LogsBody name lines
        /\ lines = Kappa.logs fn /\ (length lines <= 1000)%nat
  end.
Proof.
  cbv zeta. unfold Service.getFunctionLogs.
  destruct (Service.run ∅ ops !! name) as [fn|] eqn:Hl; [|reflexivity].
  exists (Kappa.logs fn). split_and!; try reflexivity.
  exact (bounded_run ops ∅ (map_Forall_empty _) name fn Hl).
Qed.

Lemma handlers_are_local_witness :
  let s : gmap string Kappa.KappaFunction :=
    {[ "greet" := Sample.greet; "other" := Sample.greetWarm ]} in
  (Service.registerFunction s (Some Sample.greetConfig) Service.StatOk).1
    !! "other" = s !! "other"
  /\ (Service.invokeFunction s "greet" Sample.emptyRequest Sample.invokeOk).1.1
       !! "other" = s !! "other"
  /\ (Service.deleteFunction s "greet" Sample.stopOk).1.1 !! "other"
     = s !! "other".
Proof.
  intros s. destruct (handlers_are_local s "greet") as (H1 & H2 & H3).
  split_and!.
  - exact (H1 (Some Sample.greetConfig) Service.StatOk "other"
             ltac:(intros config [= <-]; discriminate)).
  - exact (proj2 (H2 Sample.emptyRequest Sample.invokeOk) "other"
             ltac:(discriminate)).
  - exact (proj2 (H3 Sample.stopOk) "other" ltac:(discriminate)).
Defined.

Section ColdStart.

Import Kappa Service.



End ColdStart.



(** An envelope with status 204: the gateway answers 204 and the body of
    the envelope is not sent. *)
Example gateway_204_has_no_body :
  Service.writeEnvelope
    {| Kappa.rStatusCode := 204; Kappa.rHeaders := ∅;
       Kappa.rBody := {[ "message" := Kappa.JString "done" ]};
       Kappa.rRequestID := "id-1" |}
  = Service.Responded
      {| Service.statusCode := 204; Service.headers := ∅;
         Service.body := Service.NoBody |}.
Proof. reflexivity. Qed.

(** X24: registering and deleting undo each other.  After a valid
    registration under a name that was free, deleting the name is
    answered 200 without any call to the engine and gives back the
    registry as it was before; registering it again gives the registry
    of the first registration. *)
Theorem register_delete_round_trip (s : gmap string Kappa.KappaFunction)
    (config : Service.KappaFunctionConfig) (stat : Service.StatResult)
    (w : Cont.StopWorld) :
  Service.cName config <> "" -> Service.cBinaryPath config <> "" ->
  Service.cImage config <> "" -> stat <> Service.StatNotExist ->
  s !! Service.cName config = None ->
  let s1 := (Service.registerFunction s (Some config) stat).1 in
  let '(s2, resp, fx) := Service.deleteFunction s1 (Service.cName config) w in
  s2 = s /\ Service.statusCode resp = 200 /\ fx = []
  /\ (Service.registerFunction s2 (Some config) stat).1 = s1.
Proof.
  intros Hn Hb Hi Hs Hfree.
  pose proof (registerFunction_valid s config stat Hn Hb Hi Hs) as Hreg.
  rewrite Hreg. cbn [fst]. cbv zeta.
  unfold Service.deleteFunction. rewrite lookup_insert_eq.
  cbn [Kappa.IsRunning Kappa.isRunning Kappa.NewKappaFunction].
  rewrite delete_insert_eq, (delete_id s) by exact Hfree.
  split_and!; try reflexivity.
  now rewrite Hreg.
Qed.

Lemma register_delete_round_trip_witness :
  let s1 := (Service.registerFunction ∅ (Some Sample.greetConfig)
               Service.StatOk).1 in
  let '(s2, resp, fx) := Service.deleteFunction s1 "greet" Sample.stopOk in
  s2 = ∅ /\ Service.statusCode resp = 200 /\ fx = []
  /\ (Service.registerFunction s2 (Some Sample.greetConfig) Service.StatOk).1
     = s1.
Proof.
  apply (register_delete_round_trip ∅ Sample.greetConfig Service.StatOk
           Sample.stopOk); try discriminate.
  apply lookup_empty.
Defined.

(* ===================================================================== *)
(** ** Close, the handler package and the language runtimes *)
(* ===================================================================== *)

Section CloseFacts.

Import Cont Obs.

(** X25: [Close] gives up what the handle holds in this process and
    nothing else.  Whatever the file system answers, after [Close] no
    log line is stored and no temp directory is registered; the calls
    made are one [os.RemoveAll] per registered directory, in order, so
    no signal is sent and the task and the engine's container stay as
    they were.  The joined error is nil exactly when every removal
    worked and the client closed; a [Remove] after [Close] removes no
    directory. *)
Theorem close_releases (c : Cont.Container) (w : Cont.RemoveWorld)
    (clientCloseFails : bool) :
  let '(errs, c', tr) := Closing.Close c w clientCloseFails in
  Closing.GetLogs c' = [] /\ Cont.tempDirs c' = []
  /\ Cont.task c' = Cont.task c /\ Cont.container c' = Cont.container c
  /\ Cont.config c' = Cont.config c
  /\ tr = Cont.CRemoveAll <$> Cont.tempDirs c
  /\ Obs.kills tr = []
  /\ (errs = [] <->
      Forall (fun d => Cont.removeAllFails w d = false) (Cont.tempDirs c)
      /\ clientCloseFails = false)
  /\ Obs.removed (Cont.Remove c' w).2 = [].
Proof.
  unfold Closing.Close, cleanup. cbn [logs tempDirs task container config id mounts].
  split_and!; try reflexivity.
  - apply kills_RemoveAll.
  - pose proof (filter_nil_Forall (fun d => removeAllFails w d = true)
                  (tempDirs c)) as Hf.
    destruct (filter _ (tempDirs c)) as [|d ds] eqn:Hfl.
    + destruct clientCloseFails; simpl.
      * split; [discriminate|]. intros [_ ?]. discriminate.
      * split; [|reflexivity]. intros _. split; [|reflexivity].
        eapply Forall_impl; [apply Hf; reflexivity|].
        intros d Hd. simpl in Hd. by destruct (removeAllFails w d).
    + split; [discriminate|]. intros [Hall _]. exfalso.
      assert (Hnil : Forall (fun d => ~ removeAllFails w d = true) (tempDirs c)).
      { eapply Forall_impl; [exact Hall|]. intros x Hx. simpl in Hx. congruence. }
      apply Hf in Hnil. discriminate.
  - rewrite Remove_removed. reflexivity.
Qed.

End CloseFacts.

Section HandlerFacts.

Import Handler.

Lemma requestIDOf_nonempty r : requestIDOf r <> "".
Proof.
  unfold requestIDOf. destruct (decide _) as [|Hne]; [discriminate|exact Hne].
Qed.

(** X26: the HTTP status of the invocation endpoint is decided by the
    request alone: 405 exactly for a method other than POST (nothing is
    written or logged then), 200 exactly for a POST whose body decodes,
    400 otherwise.  It is the same for every handler function: the
    status code a handler puts in its response travels in the encoded
    body only, and an encoded response is always what the handler
    returned for some event. *)
Theorem handler_transport_status (handler : Handler.HandlerFn)
    (r : Handler.Request) :
  let out := (Handler.createInvocationHandler handler r).1 in
  (Handler.wStatus out = 200 \/ Handler.wStatus out = 400
   \/ Handler.wStatus out = 405)
  /\ (Handler.wStatus out = 405 <-> Handler.Method r <> "POST")
  /\ (Handler.wStatus out = 200 <->
      Handler.Method r = "POST" /\ is_Some (Handler.decoded r))
  /\ (forall other : Handler.HandlerFn,
        Handler.wStatus (Handler.createInvocationHandler other r).1
        = Handler.wStatus out)
  /\ (forall resp, Handler.wPayload out = Handler.Encoded resp ->
        Handler.wStatus out = 200 /\ exists event, resp = handler event)
  /\ (Handler.Method r <> "POST" ->
      Handler.createInvocationHandler handler r
      = ({| Handler.wStatus := 405; Handler.wContentType := None;
            Handler.wPayload := Handler.NoPayload |}, [])).
Proof.
  unfold createInvocationHandler.
  destruct (decide (Method r <> "POST")) as [Hm|Hm]; cbn.
  - split; [by right; right|]. split; [done|].
    split; [split; [discriminate|tauto]|].
    split; [done|]. split; [discriminate|done].
  - apply dec_stable in Hm.
    destruct (decoded r) as [event|]; cbn.
    + split; [by left|]. split; [split; [discriminate|congruence]|].
      split; [done|]. split; [done|].
      split; [|congruence].
      intros resp [= <-]. split; [done|]. by eexists.
    + split; [by right; left|]. split; [split; [discriminate|congruence]|].
      split; [split; [discriminate|]|].
      { intros [_ [? ?]]. discriminate. }
      split; [done|]. split; [discriminate|congruence].
Qed.

(** X27: a handler function never sees an event without a request id.
    For a POST whose body decodes, what is encoded is the handler's
    answer to the decoded event with at most its request id changed:
    an id carried by the event is kept; otherwise the id is the header
    Kappa-Runtime-Aws-Request-Id, or, when that is empty, "req-"
    followed by the header X-Request-Id.  Both log lines carry the id
    taken from the headers. *)
Theorem handler_request_id (handler : Handler.HandlerFn)
    (r : Handler.Request) (event : Handler.Event) :
  Handler.Method r = "POST" -> Handler.decoded r = Some event ->
  exists seen,
    Handler.createInvocationHandler handler r
    = ({| Handler.wStatus := 200;
          Handler.wContentType := Some "application/json";
          Handler.wPayload := Handler.Encoded (handler seen) |},
       [Handler.LogRequest (Handler.requestIDOf r) (Handler.URLPath r);
        Handler.LogResponse (Handler.requestIDOf r)
          (Handler.StatusCode (handler seen))])
    /\ Handler.evRequestID seen <> ""
    /\ seen = Handler.set_evRequestID (Handler.evRequestID seen) event
    /\ (Handler.evRequestID event <> "" -> seen = event)
    /\ (Handler.evRequestID event = "" ->
        Handler.evRequestID seen = Handler.requestIDOf r)
    /\ (Handler.HeaderGet r "Kappa-Runtime-Aws-Request-Id" <> "" ->
        Handler.requestIDOf r
        = Handler.HeaderGet r "Kappa-Runtime-Aws-Request-Id")
    /\ (Handler.HeaderGet r "Kappa-Runtime-Aws-Request-Id" = "" ->
        Handler.requestIDOf r = "req-" +:+ Handler.HeaderGet r "X-Request-Id").
Proof.
  intros Hm Hd. unfold createInvocationHandler.
  destruct (decide (Method r <> "POST")) as [|_]; [done|]. rewrite Hd.
  assert (Hh1 : HeaderGet r "Kappa-Runtime-Aws-Request-Id" <> "" ->
                requestIDOf r = HeaderGet r "Kappa-Runtime-Aws-Request-Id").
  { unfold requestIDOf. by destruct (decide _). }
  assert (Hh2 : HeaderGet r "Kappa-Runtime-Aws-Request-Id" = "" ->
                requestIDOf r = "req-" +:+ HeaderGet r "X-Request-Id").
  { unfold requestIDOf. by destruct (decide _). }
  destruct (decide (evRequestID event = "")) as [He|He].
  - exists (set_evRequestID (requestIDOf r) event).
    split_and!; try done. apply requestIDOf_nonempty.
  - exists event. split_and!; try done. by destruct event.
Qed.

End HandlerFacts.

Section EndToEnd.

Import Handler.

(** X28: the request id of the supervisor reaches the function.  Take
    any request [Invoke] sends, received by the invocation handler with
    the header and the request id of the event as they were sent: the
    URL ends in the route the handler package serves, the handler
    function is called on the decoded event unchanged, its request id
    is not empty (given a UUID that is not), it is the id of the
    caller's event if that had one and the generated UUID otherwise,
    and the log lines of the function carry the same id. *)
Theorem invoke_id_reaches_handler (lf : Kappa.KappaFunction)
    (event : Kappa.KappaEvent) (w : Kappa.InvokeWorld)
    (url h : string) (payload : Kappa.KappaEvent)
    (handler : Handler.HandlerFn) (r : Handler.Request)
    (ev : Handler.Event) :
  Kappa.uuid w <> "" ->
  In (Kappa.IPost url h payload) (Kappa.Invoke lf event w).2 ->
  Handler.Method r = "POST" ->
  Handler.HeaderGet r "Kappa-Runtime-Aws-Request-Id" = h ->
  Handler.decoded r = Some ev ->
  Handler.evRequestID ev = Kappa.eRequestID payload ->
  (exists base, url = base +:+ Handler.invocationsRoute)
  /\ Handler.evRequestID ev <> ""
  /\ (Kappa.eRequestID event <> "" ->
      Handler.evRequestID ev = Kappa.eRequestID event)
  /\ (Kappa.eRequestID event = "" -> Handler.evRequestID ev = Kappa.uuid w)
  /\ Handler.createInvocationHandler handler r
     = ({| Handler.wStatus := 200;
           Handler.wContentType := Some "application/json";
           Handler.wPayload := Handler.Encoded (handler ev) |},
        [Handler.LogRequest (Handler.evRequestID ev) (Handler.URLPath r);
         Handler.LogResponse (Handler.evRequestID ev)
           (Handler.StatusCode (handler ev))]).
Proof.
  intros Hu Hin Hm Hh Hd Hid.
  destruct (Invoke_posts _ _ _ _ _ _ Hin) as (lf1 & tr0 & Hp & ->).
  destruct (invokePrepare_ok _ _ _ _ _ _ _ Hp) as (Hev & _).
  destruct (invokePrepare_running _ _ _ _ _ _ _ Hp) as [_ Hurl].
  assert (Hids : (Kappa.eRequestID event <> "" ->
                  Kappa.eRequestID payload = Kappa.eRequestID event)
                 /\ (Kappa.eRequestID event = "" ->
                     Kappa.eRequestID payload = Kappa.uuid w)).
  { rewrite Hev. destruct (decide _) as [He|He]; by split. }
  assert (Hne : Kappa.eRequestID payload <> "").
  { destruct (decide (Kappa.eRequestID event = "")) as [He|He].
    - by rewrite (proj2 Hids He).
    - by rewrite (proj1 Hids He). }
  split; [by eexists|]. rewrite Hid.
  split; [exact Hne|]. split; [exact (proj1 Hids)|].
  split; [exact (proj2 Hids)|].
  unfold createInvocationHandler.
  destruct (decide (Method r <> "POST")) as [|_]; [done|]. rewrite Hd.
  unfold requestIDOf. rewrite Hh.
  destruct (decide (evRequestID ev = "")) as [He|_]; [congruence|].
  destruct (decide (Kappa.eRequestID payload = "")) as [|_]; [congruence|].
  reflexivity.
Qed.

End EndToEnd.

Section RuntimeFacts.

Import Runtime.

Lemma rt_made_app a b : made (a ++ b) = made a ++ made b.
Proof. apply omap_app. Qed.

Lemma rt_removed_app a b : removed (a ++ b) = removed a ++ removed b.
Proof. apply omap_app. Qed.

Lemma rt_removed_cons f tr : removed (f :: tr) = removed [f] ++ removed tr.
Proof. by destruct f. Qed.

Lemma setupRun_quiet c w :
  made (setupRun c w).2 = [] /\ removed (setupRun c w).2 = [].
Proof.
  unfold setupRun.
  destruct (Cont.Start c (sStart w)) as [[e|] c1]; [by split|].
  destruct (Cont.StreamLogs c1); [by split|].
  destruct (negb (sWaitOk w)); [by split|].
  destruct (sExit w) as [code|].
  - destruct (decide _); [by split|].
    destruct (Cont.Stop c1 cleanStopOpts (sStopW w)) as [[? ?] ?].
    by destruct (sReadDir w) as [[|?]|].
  - by destruct (Cont.Stop c1 timeoutStopOpts (sStopW w)) as [[? ?] ?].
Qed.

Lemma setup_accounted r w :
  made (setupNodeModules r w).2 = removed (setupNodeModules r w).2.
Proof.
  unfold setupNodeModules.
  destruct (sMkdirTemp w) as [tmp|]; [|reflexivity].
  destruct (negb (sMkdirNodeModulesOk w)); [reflexivity|].
  destruct (negb (sMkdirAppOk w)); [reflexivity|].
  destruct (Code r !! "package.json"); [|reflexivity].
  destruct (negb (sWriteOk w)); [reflexivity|].
  destruct (Cont.NewContainer _ _) as [e|c]; [reflexivity|].
  destruct (setupRun_quiet c w) as [Hm Hr].
  destruct (setupRun c w) as [[err c1] body]. simpl in Hm, Hr.
  destruct (Closing.Close c1 _ _) as [[? ?] calls]. cbn [snd].
  rewrite !rt_made_app, !rt_removed_app, Hm, Hr. reflexivity.
Qed.

Lemma writeCode_quiet tmp entries w :
  made (writeCode tmp entries w).2 = []
  /\ removed (writeCode tmp entries w).2 = [].
Proof.
  induction entries as [|[path code] rest IH]; [by split|]. simpl.
  destruct (negb (mkdirDirOk w path)); [by split|].
  destruct (negb (writeFileOk w path)); [by split|].
  destruct (writeCode tmp rest w) as [e tr]. exact IH.
Qed.

Lemma createCodeDirs_quiet tmp w :
  made (createCodeDirs tmp w).2 = []
  /\ removed (createCodeDirs tmp w).2 = [].
Proof.
  unfold createCodeDirs. destruct (negb (mkdirTmpOk w)); [by split|].
  pose proof (writeCode_quiet tmp (rangeOrder w) w) as H.
  destruct (writeCode tmp (rangeOrder w) w) as [e tr]. exact H.
Qed.

Lemma Cont_NewContainer_fields cfg ok c :
  Cont.NewContainer cfg ok = inr c ->
  Cont.tempDirs c = [] /\ Cont.task c = None /\ Cont.container c = None
  /\ Cont.Image (Cont.config c) = Cont.Image cfg
  /\ Cont.Command (Cont.config c) = Cont.Command cfg
  /\ Cont.Env (Cont.config c) = Cont.Env cfg
  /\ Cont.Env cfg <> None.
Proof.
  unfold Cont.NewContainer.
  destruct (decide (Cont.Namespace cfg = "")); cbn;
    (destruct (decide _) as [|Hv]; [discriminate|]);
    (destruct (negb ok); [discriminate|]);
    intros [= <-]; cbn; split_and!; try reflexivity; tauto.
Qed.

(** X29: [Runtime.NewContainer] leaks no temp directory.  Whatever the
    outside answers, the directories made by [os.MkdirTemp] during the
    call (by [setupNodeModules] and by [NewContainer] itself) are, in
    order, the ones given to [os.RemoveAll], followed on success by the
    one registered with the returned container; the container's
    [Remove] then removes that one. *)
Theorem runtime_tempdirs_accounted (r : Runtime.Runtime) (w : Runtime.World) :
  let '(res, tr) := Runtime.NewContainer r w in
  Runtime.made tr
  = Runtime.removed tr
    ++ match res with inr c => Cont.tempDirs c | inl _ => [] end
  /\ (forall c rw, res = inr c ->
        Obs.removed (Cont.Remove c rw).2 = Cont.tempDirs c
        /\ Cont.tempDirs (Cont.Remove c rw).1.2 = []).
Proof.
  unfold NewContainer.
  assert (Hrm : forall c rw,
             Obs.removed (Cont.Remove c rw).2 = Cont.tempDirs c
             /\ Cont.tempDirs (Cont.Remove c rw).1.2 = []).
  { intros c rw. split; [apply Remove_removed|]. by rewrite Remove_handle. }
  assert (Hs : exists serr tr0,
             (if decide (Language r = "nodejs")
              then setupNodeModules r (setupW w) else (None, []))
             = (serr, tr0) /\ made tr0 = removed tr0).
  { destruct (decide _).
    - pose proof (setup_accounted r (setupW w)) as H.
      destruct (setupNodeModules r (setupW w)) as [serr tr0]. by eexists _, _.
    - by eexists _, _. }
  destruct Hs as (serr & tr0 & -> & H0).
  destruct serr as [e|]; [split; [by rewrite app_nil_r|done]|].
  destruct (languageConfigs (Language r)) as [configFn|];
    [|split; [by rewrite app_nil_r|done]].
  destruct (mkdirTemp w) as [tmp|];
    [|split; [by rewrite rt_made_app, rt_removed_app, H0, !app_nil_r|done]].
  destruct (rcSetupFn (configFn (Version r) tmp)) as [dir|].
  - destruct (setupFnOk w).
    + destruct (createCodeDirs_quiet tmp w) as [Hm Hr].
      destruct (createCodeDirs tmp w) as [[e|] tr2]; simpl in Hm, Hr.
      * split; [|done].
        rewrite !rt_made_app, !rt_removed_app, H0, Hm, Hr. simpl.
        by rewrite !app_nil_r.
      * destruct (Cont.NewContainer _ _) as [e|c] eqn:Hc.
        -- split; [|done].
           rewrite !rt_made_app, !rt_removed_app, H0, Hm, Hr. simpl.
           by rewrite !app_nil_r.
        -- split; [|intros; apply Hrm].
           destruct (Cont_NewContainer_fields _ _ _ Hc) as (Ht & _).
           rewrite !rt_made_app, !rt_removed_app, H0, Hm, Hr. simpl.
           by rewrite Ht, !app_nil_r.
    + split; [|done]. rewrite !rt_made_app, !rt_removed_app, H0. simpl.
      by rewrite !app_nil_r.
  - destruct (createCodeDirs_quiet tmp w) as [Hm Hr].
    destruct (createCodeDirs tmp w) as [[e|] tr2]; simpl in Hm, Hr.
    + split; [|done].
      rewrite !rt_made_app, !rt_removed_app, H0, Hm, Hr. simpl.
      by rewrite !app_nil_r.
    + destruct (Cont.NewContainer _ _) as [e|c] eqn:Hc.
      * split; [|done].
        rewrite !rt_made_app, !rt_removed_app, H0, Hm, Hr. simpl.
        by rewrite !app_nil_r.
      * split; [|intros; apply Hrm].
        destruct (Cont_NewContainer_fields _ _ _ Hc) as (Ht & _).
        rewrite !rt_made_app, !rt_removed_app, H0, Hm, Hr. simpl.
        by rewrite Ht, !app_nil_r.
Qed.

Lemma setupRun_ok c w c' tr :
  setupRun c w = (None, c', tr) ->
  sExit w = Some 0%N /\ exists n, sReadDir w = Some (S n).
Proof.
  unfold setupRun.
  destruct (Cont.Start c (sStart w)) as [[e|] c1]; [discriminate|].
  destruct (Cont.StreamLogs c1); [discriminate|].
  destruct (negb (sWaitOk w)); [discriminate|].
  destruct (sExit w) as [code|].
  - destruct (decide (code <> 0%N)) as [|Hz]; [discriminate|].
    apply dec_stable in Hz. subst code.
    destruct (Cont.Stop c1 cleanStopOpts (sStopW w)) as [[? ?] ?].
    destruct (sReadDir w) as [[|n]|]; try discriminate.
    intros _. split; [reflexivity|by eexists].
  - by destruct (Cont.Stop c1 timeoutStopOpts (sStopW w)) as [[? ?] ?].
Qed.

Lemma setupNodeModules_ok r w tr :
  setupNodeModules r w = (None, tr) ->
  is_Some (Code r !! "package.json")
  /\ sExit w = Some 0%N /\ exists n, sReadDir w = Some (S n).
Proof.
  unfold setupNodeModules.
  destruct (sMkdirTemp w) as [tmp|]; [|discriminate].
  destruct (negb (sMkdirNodeModulesOk w)); [discriminate|].
  destruct (negb (sMkdirAppOk w)); [discriminate|].
  destruct (Code r !! "package.json"); [|discriminate].
  destruct (negb (sWriteOk w)); [discriminate|].
  destruct (Cont.NewContainer _ _) as [e|c]; [discriminate|].
  destruct (setupRun c w) as [[err c1] body] eqn:Hrun.
  destruct (Closing.Close c1 _ _) as [[? ?] calls].
  intros [= -> _]. split; [by eexists|]. exact (setupRun_ok _ _ _ _ Hrun).
Qed.

Lemma writeCode_ok tmp entries w tr :
  writeCode tmp entries w = (None, tr) ->
  Forall (fun e => In (FxWriteFile tmp e.1 e.2) tr) entries.
Proof.
  revert tr. induction entries as [|[path code] rest IH]; intros tr; [constructor|].
  simpl. destruct (negb (mkdirDirOk w path)); [discriminate|].
  destruct (negb (writeFileOk w path)); [discriminate|].
  destruct (writeCode tmp rest w) as [e tr']. intros [= -> <-].
  constructor; [right; left; reflexivity|].
  eapply Forall_impl; [exact (IH _ eq_refl)|]. intros x Hx. right. right. exact Hx.
Qed.

Lemma createCodeDirs_ok tmp w tr :
  createCodeDirs tmp w = (None, tr) ->
  Forall (fun e => In (FxWriteFile tmp e.1 e.2) tr) (rangeOrder w).
Proof.
  unfold createCodeDirs. destruct (negb (mkdirTmpOk w)); [discriminate|].
  destruct (writeCode tmp (rangeOrder w) w) as [e tr'] eqn:Hw.
  intros [= -> <-]. eapply Forall_impl; [exact (writeCode_ok _ _ _ _ Hw)|].
  intros x Hx. right. exact Hx.
Qed.

(** X30: when [Runtime.NewContainer] returns a container, the language
    is nodejs (the golang configuration has no Env, which the adapter's
    validation refuses, and other languages have no configuration), the
    code has a package.json, npm install ended with exit code 0 and
    left a module.  The container is not started, runs
    node index.js of the image docker.io/library/node:<version>, and
    has the temp directory of the code registered; nothing was removed
    but what the setup removed, and, the range visiting the entries of
    the code, [os.WriteFile] was called for every entry of the code, on
    [filepath.Join] of that directory and the entry's path, with the
    entry's content.  (The path is not checked: where [filepath.Join]
    takes it is not part of this statement.) *)
Theorem runtime_container_needs_nodejs (r : Runtime.Runtime)
    (w : Runtime.World) (c : Cont.Container) (tr : list Runtime.Fx) :
  Runtime.NewContainer r w = (inr c, tr) ->
  Runtime.Language r = "nodejs"
  /\ is_Some (Runtime.Code r !! "package.json")
  /\ Runtime.sExit (Runtime.setupW w) = Some 0%N
  /\ (exists n, Runtime.sReadDir (Runtime.setupW w) = Some (S n))
  /\ Cont.task c = None /\ Cont.container c = None
  /\ Cont.Image (Cont.config c)
     = "docker.io/library/node:" +:+ Runtime.Version r
  /\ Cont.Command (Cont.config c) = Some ["node"; "index.js"]
  /\ exists tmpPath,
       Runtime.mkdirTemp w = Some tmpPath
       /\ Cont.tempDirs c = [tmpPath]
       /\ Runtime.removed tr = Runtime.removed (Runtime.setupNodeModules r (Runtime.setupW w)).2
       /\ (Runtime.rangeOrder w ≡ₚ map_to_list (Runtime.Code r) ->
           forall path code, Runtime.Code r !! path = Some code ->
             In (Runtime.FxWriteFile tmpPath path code) tr).
Proof.
  unfold NewContainer, languageConfigs.
  destruct (decide (Language r = "nodejs")) as [Hl|Hl].
  - destruct (setupNodeModules r (setupW w)) as [[e|] tr0] eqn:Hs; [discriminate|].
    destruct (setupNodeModules_ok _ _ _ Hs) as (Hpkg & Hexit & Hrd).
    destruct (mkdirTemp w) as [tmp|]; [|discriminate]. cbn [rcSetupFn].
    destruct (setupFnOk w); [|discriminate].
    destruct (createCodeDirs tmp w) as [[e|] tr2] eqn:Hc; [discriminate|].
    destruct (Cont.NewContainer _ _) as [e|c0] eqn:Hn; [discriminate|].
    intros [= <- <-].
    destruct (Cont_NewContainer_fields _ _ _ Hn) as (Ht & Htask & Hcont & Hi & Hcmd & _).
    split_and!; try done.
    exists tmp. split; [done|]. split; [by simpl; rewrite Ht|].
    split.
    + destruct (createCodeDirs_quiet tmp w) as [_ Hr]. rewrite Hc in Hr.
      simpl in Hr.
      rewrite rt_removed_app, rt_removed_cons, !rt_removed_app, Hr.
      cbn. by rewrite !app_nil_r.
    + intros Hperm path code Hlook.
      pose proof (createCodeDirs_ok _ _ _ Hc) as Hall.
      rewrite Forall_forall in Hall.
      assert (Hin : (path, code) ∈ rangeOrder w).
      { rewrite Hperm. by apply elem_of_map_to_list. }
      specialize (Hall _ Hin). simpl in Hall.
      apply in_or_app. right. right. apply in_or_app. left. exact Hall.
  - destruct (decide (Language r = "golang")); [|discriminate].
    destruct (mkdirTemp w) as [tmp|]; [|discriminate]. cbn [rcSetupFn].
    destruct (setupFnOk w); [|discriminate].
    destruct (createCodeDirs tmp w) as [[e1|] tr2]; [discriminate|].
    destruct (Cont.NewContainer _ _) as [e2|c0] eqn:Hn; [discriminate|].
    destruct (Cont_NewContainer_fields _ _ _ Hn) as (_ & _ & _ & _ & _ & _ & He).
    by contradiction He.
Qed.

End RuntimeFacts.

Lemma handler_request_id_witness :
  exists seen,
    Handler.createInvocationHandler HandlerSample.echo
      (HandlerSample.foreignPost (HandlerSample.greetEvent ""))
    = ({| Handler.wStatus := 200;
          Handler.wContentType := Some "application/json";
          Handler.wPayload := Handler.Encoded (HandlerSample.echo seen) |},
       [Handler.LogRequest
          (Handler.requestIDOf
             (HandlerSample.foreignPost (HandlerSample.greetEvent "")))
          (Handler.URLPath
             (HandlerSample.foreignPost (HandlerSample.greetEvent "")));
        Handler.LogResponse
          (Handler.requestIDOf
             (HandlerSample.foreignPost (HandlerSample.greetEvent "")))
          (Handler.StatusCode (HandlerSample.echo seen))])
    /\ Handler.evRequestID seen = "req-42".
Proof.
  destruct (handler_request_id HandlerSample.echo
              (HandlerSample.foreignPost (HandlerSample.greetEvent ""))
              (HandlerSample.greetEvent "") eq_refl eq_refl)
    as (seen & Hout & _ & _ & _ & Hid & _ & _).
  exists seen. split; [exact Hout|]. exact (Hid eq_refl).
Defined.

Lemma invoke_id_reaches_handler_witness :
  Handler.createInvocationHandler HandlerSample.echo
    (HandlerSample.post "0b7e1c52-5d4e-4c1b-9d0a-6b1f3f2a9c11"
       (HandlerSample.greetEvent "0b7e1c52-5d4e-4c1b-9d0a-6b1f3f2a9c11"))
  = ({| Handler.wStatus := 200;
        Handler.wContentType := Some "application/json";
        Handler.wPayload :=
          Handler.Encoded
            (HandlerSample.echo
               (HandlerSample.greetEvent
                  "0b7e1c52-5d4e-4c1b-9d0a-6b1f3f2a9c11")) |},
     [Handler.LogRequest "0b7e1c52-5d4e-4c1b-9d0a-6b1f3f2a9c11"
        Handler.invocationsRoute;
      Handler.LogResponse "0b7e1c52-5d4e-4c1b-9d0a-6b1f3f2a9c11" 200]).
Proof.
  exact (proj2 (proj2 (proj2 (proj2
    (invoke_id_reaches_handler Sample.greetWarm Sample.emptyEvent
       Sample.invokeOk
       ("http://localhost:8080" +:+ Handler.invocationsRoute)
       "0b7e1c52-5d4e-4c1b-9d0a-6b1f3f2a9c11"
       (Kappa.set_eRequestID "0b7e1c52-5d4e-4c1b-9d0a-6b1f3f2a9c11"
          Sample.emptyEvent)
       HandlerSample.echo
       (HandlerSample.post "0b7e1c52-5d4e-4c1b-9d0a-6b1f3f2a9c11"
          (HandlerSample.greetEvent "0b7e1c52-5d4e-4c1b-9d0a-6b1f3f2a9c11"))
       (HandlerSample.greetEvent "0b7e1c52-5d4e-4c1b-9d0a-6b1f3f2a9c11")
       ltac:(discriminate)
       ltac:(vm_compute; left; reflexivity)
       eq_refl eq_refl eq_refl eq_refl))))).
Defined.

Lemma runtime_container_needs_nodejs_witness :
  Runtime.Language RuntimeSample.nodeApp = "nodejs"
  /\ Cont.tempDirs RuntimeSample.nodeContainer = ["/tmp/kappa-v3-2"]
  /\ In (Runtime.FxWriteFile "/tmp/kappa-v3-2" "package.json" "{}")
        RuntimeSample.nodeTrace.
Proof.
  destruct (runtime_container_needs_nodejs RuntimeSample.nodeApp
              (RuntimeSample.worldOk [("package.json", "{}")])
              RuntimeSample.nodeContainer RuntimeSample.nodeTrace
              ltac:(vm_compute; reflexivity))
    as (Hl & _ & _ & _ & _ & _ & _ & _ & tmp & Htmp & Hdirs & _ & Hfiles).
  injection Htmp as <-.
  split; [exact Hl|]. split; [exact Hdirs|].
  apply Hfiles; [vm_compute; reflexivity|vm_compute; reflexivity].
Defined.

(* ===================================================================== *)
(** ** The lifecycle of an instance, in every history *)
(* ===================================================================== *)

Section ContainerURL.

Import Kappa Service Spec.

Lemma curl_New name binaryPath image env port :
  container_url_inv (NewKappaFunction name binaryPath image env port).
Proof. split; simpl; [intros [? [=]]|congruence]. Qed.

Lemma curl_Start lf w : container_url_inv lf -> container_url_inv (Start lf w).1.2.
Proof.
  intros Hinv. destruct (isRunning lf) eqn:Hr.
  - now rewrite Start_running.
  - destruct (Start lf w) as [[[e|] lf'] fx] eqn:Hs; simpl.
    + now rewrite (Start_failure _ _ _ _ _ Hs).
    + destruct (Start_cold_success lf w lf' fx Hr Hs)
        as (tmp & c & _ & Hc & _ & _ & _ & _ & Hurl & _).
      unfold container_url_inv. rewrite Hc, Hurl.
      split; [intros _; apply localhost_URL_nonempty|by eexists].
Qed.

Lemma curl_Stop lf w : container_url_inv lf -> container_url_inv (Stop lf w).1.2.
Proof.
  intros Hinv. unfold Stop.
  destruct (isRunning lf) eqn:Hr; [|exact Hinv].
  destruct (container lf) as [c|] eqn:Hc; [|exact Hinv].
  assert (Hurl : containerURL lf <> "") by (apply Hinv; rewrite Hc; by eexists).
  destruct (Cont.Stop c stopOpts w) as [[[e|] c'] calls]; simpl;
    unfold cancelIdleTimer; destruct (idleTimer lf); simpl;
    (split; [intros _; exact Hurl|by eexists]).
Qed.

Lemma curl_idleTimerFire lf w :
  container_url_inv lf -> container_url_inv (idleTimerFire lf w).1.2.
Proof.
  intros Hinv. unfold idleTimerFire.
  destruct (idleTimer lf) as [t|]; [|exact Hinv].
  destruct (active t); [|exact Hinv]. simpl.
  destruct (isRunning lf); [|exact Hinv]. apply curl_Stop. exact Hinv.
Qed.

Lemma curl_SetIdleTimeout lf d :
  container_url_inv lf -> container_url_inv (SetIdleTimeout lf d).
Proof.
  intros H. unfold SetIdleTimeout. simpl. now destruct (idleTimer lf).
Qed.

Lemma curl_logCallback lf line :
  container_url_inv lf -> container_url_inv (logCallback lf line).
Proof. intros H. rewrite logCallback_set_logs. exact H. Qed.

Lemma curl_invokeFinish lf event decoded :
  container_url_inv lf -> container_url_inv (invokeFinish lf event decoded).2.
Proof. intros H. unfold invokeFinish. now destruct decoded. Qed.

Lemma curl_duringPost lf w :
  container_url_inv lf -> container_url_inv (duringPost lf w).
Proof.
  intros H. unfold duringPost. destruct (idleFire w); [|exact H].
  now apply curl_idleTimerFire.
Qed.

Lemma curl_invokePrepare lf event w :
  container_url_inv lf -> container_url_inv (invokePrepare lf event w).1.2.
Proof.
  intros Hinv. unfold invokePrepare.
  destruct (isRunning lf) eqn:Hr; simpl.
  - now destruct (negb (newRequestOk w)).
  - pose proof (curl_Start lf (coldStartW w) Hinv) as Hinv'.
    destruct (Start lf (coldStartW w)) as [[[e|] lf'] fx]; simpl in *;
      [exact Hinv'|].
    now destruct (negb (newRequestOk w)).
Qed.

Lemma curl_invokeSend lf event url w :
  container_url_inv lf -> container_url_inv (invokeSend lf event url w).1.2.
Proof.
  intros Hinv. unfold invokeSend.
  pose proof (curl_duringPost lf w Hinv) as Hd.
  destruct (post1 w) as [decoded|err].
  - pose proof (curl_invokeFinish (duringPost lf w) event decoded Hd) as Hf.
    now destruct (invokeFinish _ _ _).
  - destruct (isRunning (duringPost lf w)); [|exact Hd].
    pose proof (curl_Stop _ (restartStopW w) Hd) as Hs.
    destruct (Stop _ _) as [[serr lf1] sfx]. simpl in Hs.
    pose proof (curl_Start _ (restartStartW w) Hs) as Hr.
    destruct (Start _ _) as [[[e|] lf2] rfx]; simpl in Hr; [exact Hr|].
    destruct (post2 w) as [decoded|err2]; [|exact Hr].
    pose proof (curl_invokeFinish lf2 event decoded Hr) as Hf.
    now destruct (invokeFinish _ _ _).
Qed.

Lemma curl_Invoke lf event w :
  container_url_inv lf -> container_url_inv (Invoke lf event w).1.2.
Proof.
  intros Hinv. unfold Invoke.
  pose proof (curl_invokePrepare lf event w Hinv) as Hp.
  destruct (invokePrepare lf event w) as [[[e|[ev url]] lf1] tr];
    simpl in Hp; [exact Hp|].
  pose proof (curl_invokeSend lf1 ev url w Hp) as Hs.
  now destruct (invokeSend _ _ _ _) as [[r lf2] tr'].
Qed.

Lemma curl_onInstance s name f :
  (forall fn, container_url_inv fn -> container_url_inv (f fn)) ->
  map_Forall (fun _ fn => container_url_inv fn) s ->
  map_Forall (fun _ fn => container_url_inv fn) (onInstance s name f).
Proof.
  intros Hf Hs. unfold onInstance.
  destruct (s !! name) as [fn|] eqn:Hl; [|exact Hs].
  apply map_Forall_insert_2; [|exact Hs]. apply Hf. exact (Hs _ _ Hl).
Qed.

Lemma curl_step s o :
  map_Forall (fun _ fn => container_url_inv fn) s ->
  map_Forall (fun _ fn => container_url_inv fn) (step s o).
Proof.
  intros Hs. destruct o as [req stat|name r w|name w|name w|name w|name w|name d|name line];
    simpl.
  - unfold registerFunction. destruct req as [config|]; [|exact Hs].
    destruct (decide _); [exact Hs|].
    destruct stat; simpl; try exact Hs;
      (apply map_Forall_insert_2; [apply curl_New|exact Hs]).
  - unfold invokeFunction. destruct (s !! name) as [fn|] eqn:Hl; [|exact Hs].
    destruct (reqBody r) as [b|]; [|exact Hs].
    pose proof (curl_Invoke fn
      {| eBody := b; ePath := reqPath r; eHTTPMethod := reqMethod r;
         eHeaders := omap head (reqHeader r);
         eQueryParams := omap head (reqQuery r); eRequestID := "" |}
      w (Hs _ _ Hl)) as Hi.
    destruct (Invoke _ _ _) as [[[err|resp] fn'] tr]; simpl in *;
      now apply map_Forall_insert_2.
  - unfold deleteFunction. destruct (s !! name) as [fn|] eqn:Hl; [|exact Hs].
    unfold IsRunning. destruct (isRunning fn).
    + pose proof (curl_Stop fn w (Hs _ _ Hl)) as Hi.
      destruct (Stop fn w) as [[[e|] fn'] fx]; simpl in *.
      * now apply map_Forall_insert_2.
      * now apply map_Forall_delete.
    + simpl. now apply map_Forall_delete.
  - apply curl_onInstance; [|exact Hs]. intros fn. apply curl_Start.
  - apply curl_onInstance; [|exact Hs]. intros fn. apply curl_Stop.
  - apply curl_onInstance; [|exact Hs]. intros fn. apply curl_idleTimerFire.
  - apply curl_onInstance; [|exact Hs]. intros fn H. now apply curl_SetIdleTimeout.
  - apply curl_onInstance; [|exact Hs]. intros fn H.
    destruct (container fn); [now apply curl_logCallback|exact H].
Qed.

Lemma curl_run ops : forall s,
  map_Forall (fun _ fn => container_url_inv fn) s ->
  map_Forall (fun _ fn => container_url_inv fn) (run s ops).
Proof.
  induction ops as [|o ops IH]; intros s Hs; [exact Hs|].
  apply IH, curl_step, Hs.
Qed.

(** The timer expiring inside [Invoke], between the check and the
    re-arming: the instance is stopped and its timer armed. *)
Lemma expiry_before_reset lf sw lf' :
  lifecycle_inv lf -> isRunning lf = true -> timerArmed lf = true ->
  (idleTimerFire lf sw).1.1 = None ->
  Interleaving.invokeHeadWithExpiry lf sw = Some lf' ->
  isRunning lf' = false /\ timerArmed lf' = true
  /\ container lf' <> None /\ containerURL lf' = containerURL lf.
Proof.
  intros [H1 _] Hr Ha Hok. unfold Interleaving.invokeHeadWithExpiry.
  rewrite Hr. intros [= <-]. revert Hok. unfold idleTimerFire, timerArmed in *.
  destruct (idleTimer lf) as [t|] eqn:Ht; [|discriminate].
  rewrite Ha. simpl. rewrite Hr.
  destruct (H1 Hr) as [[c Hc] _].
  set (lf0 := set_idleTimer _ lf).
  rewrite (Stop_running_shape lf0 sw c Hr Hc). simpl.
  destruct (Cont.Stop c stopOpts sw) as [[[e|] c'] calls]; simpl;
    [discriminate|].
  intros _. by split_and!.
Qed.

End ContainerURL.

(** C1, as the code has it.  After every history of a registry (handlers,
    direct calls of [Start], [Stop] and [SetIdleTimeout], expiries of the
    idle timer, log lines, each run to its end before the next), every
    registered instance that is running has its container and a
    non-empty URL; it has a container exactly when it has a URL; and its
    idle timer is armed only if it is running.  A [Start] of a stopped
    instance that succeeds makes all four true.  A [Stop] of a running
    instance that succeeds sets running to false and disarms the timer,
    and keeps the container field and the URL as they were.  The timer
    bound is one of whole operations: when the timer expires inside an
    [Invoke], after its check of running and before it re-arms the
    timer, and the stop goes through, the instance is left stopped with
    its timer armed. *)
Theorem lifecycle_invariant (ops : list Service.Op) (name : string)
    (fn : Kappa.KappaFunction) :
  Service.run ∅ ops !! name = Some fn ->
  (Kappa.isRunning fn = true ->
     is_Some (Kappa.container fn) /\ Kappa.containerURL fn <> "")
  /\ (is_Some (Kappa.container fn) <-> Kappa.containerURL fn <> "")
  /\ (Spec.timerArmed fn = true -> Kappa.isRunning fn = true)
  /\ (forall w fn' fx,
        Kappa.isRunning fn = false -> Kappa.Start fn w = (None, fn', fx) ->
        Kappa.isRunning fn' = true /\ is_Some (Kappa.container fn')
        /\ Kappa.containerURL fn' <> "" /\ Spec.timerArmed fn' = true)
  /\ (forall w fn' fx,
        Kappa.isRunning fn = true -> Kappa.Stop fn w = (None, fn', fx) ->
        Kappa.isRunning fn' = false /\ Spec.timerArmed fn' = false
        /\ is_Some (Kappa.container fn')
        /\ Kappa.containerURL fn' = Kappa.containerURL fn
        /\ Kappa.containerURL fn' <> "")
  /\ (forall sw fn',
        Kappa.isRunning fn = true -> Spec.timerArmed fn = true ->
        (Kappa.idleTimerFire fn sw).1.1 = None ->
        Interleaving.invokeHeadWithExpiry fn sw = Some fn' ->
        Kappa.isRunning fn' = false /\ Spec.timerArmed fn' = true).
Proof.
  intros Hl.
  assert (Hinv : Spec.lifecycle_inv fn).
  { apply (inv_run ops ∅ (map_Forall_empty _) name fn Hl). }
  assert (Hcurl : Spec.container_url_inv fn).
  { apply (curl_run ops ∅ (map_Forall_empty _) name fn Hl). }
  pose proof Hinv as [H1 H2]. split_and!.
  - exact H1.
  - exact Hcurl.
  - unfold Spec.timerArmed. intros Ha. apply H2.
    destruct (Kappa.idleTimer fn); [by eexists|discriminate].
  - intros w fn' fx Hr Hs.
    destruct (Start_cold_success fn w fn' fx Hr Hs)
      as (tmp & c & _ & Hc & _ & _ & _ & Hrun & Hurl & Ht).
    unfold Spec.timerArmed. rewrite Hc, Hurl, Ht.
    split_and!; [exact Hrun|by eexists|discriminate|reflexivity].
  - intros w fn' fx Hr Hs. destruct (H1 Hr) as [Hc Hu].
    destruct (Stop_success fn w fn' fx Hr Hs Hc) as (Hr' & Ht' & Hc' & Hu').
    unfold Spec.timerArmed. rewrite Ht', Hu'. by split_and!.
  - intros sw fn' Hr Ha Hok Hrace.
    destruct (expiry_before_reset fn sw fn' Hinv Hr Ha Hok Hrace)
      as (Hr' & Ha' & _). by split.
Qed.

Lemma lifecycle_invariant_witness :
  (Kappa.isRunning Sample.greetWarm = true ->
     is_Some (Kappa.container Sample.greetWarm)
     /\ Kappa.containerURL Sample.greetWarm <> "")
  /\ (is_Some (Kappa.container Sample.greetWarm)
      <-> Kappa.containerURL Sample.greetWarm <> "")
  /\ (Spec.timerArmed Sample.greetWarm = true ->
        Kappa.isRunning Sample.greetWarm = true)
  /\ (forall w fn' fx,
        Kappa.isRunning Sample.greetWarm = false ->
        Kappa.Start Sample.greetWarm w = (None, fn', fx) ->
        Kappa.isRunning fn' = true /\ is_Some (Kappa.container fn')
        /\ Kappa.containerURL fn' <> "" /\ Spec.timerArmed fn' = true)
  /\ (forall w fn' fx,
        Kappa.isRunning Sample.greetWarm = true ->
        Kappa.Stop Sample.greetWarm w = (None, fn', fx) ->
        Kappa.isRunning fn' = false /\ Spec.timerArmed fn' = false
        /\ is_Some (Kappa.container fn')
        /\ Kappa.containerURL fn' = Kappa.containerURL Sample.greetWarm
        /\ Kappa.containerURL fn' <> "")
  /\ (forall sw fn',
        Kappa.isRunning Sample.greetWarm = true ->
        Spec.timerArmed Sample.greetWarm = true ->
        (Kappa.idleTimerFire Sample.greetWarm sw).1.1 = None ->
        Interleaving.invokeHeadWithExpiry Sample.greetWarm sw = Some fn' ->
        Kappa.isRunning fn' = false /\ Spec.timerArmed fn' = true).
Proof.
  apply (lifecycle_invariant
           [Service.OpRegister (Some Sample.greetConfig) Service.StatOk;
            Service.OpStart "greet" Sample.startOk]
           "greet" Sample.greetWarm).
  vm_compute. reflexivity.
Defined.

(** The timer expiring inside an [Invoke] of the warm sample instance:
    stopped, with its timer armed. *)
Example armed_timer_on_stopped_instance :
  exists fn,
    Interleaving.invokeHeadWithExpiry Sample.greetWarm Sample.stopOk = Some fn
    /\ Kappa.isRunning fn = false /\ Spec.timerArmed fn = true.
Proof. eexists. split; [vm_compute; reflexivity|]. by split. Qed.

(* ===================================================================== *)
(** ** Delete: the stop and the removal *)
(* ===================================================================== *)

Section DeleteStops.

Import Kappa Service.

Lemma Cont_Stop_asks_status c opts w :
  Cont.task c <> None ->
  exists rest, (Cont.Stop c opts w).2 = Cont.CStatus :: rest.
Proof.
  intros Ht. unfold Cont.Stop. destruct (Cont.task c); [|congruence].
  destruct (Cont.Remove c (Cont.removeW w)) as [[re rc] rtr].
  destruct (decide _); [destruct (Cont.RemoveOnStop opts); by eexists|].
  destruct (Cont.killErr w) as [[|]|]; simpl;
    [destruct (Cont.RemoveOnStop opts); by eexists|by eexists|].
  destruct (Cont.waitErr w); [by eexists|].
  destruct (Cont.exitedInTime w);
    [destruct (Cont.RemoveOnStop opts); by eexists|].
  destruct (Cont.forceKillErr w) as [[|]|]; simpl;
    [destruct (Cont.RemoveOnStop opts); by eexists|by eexists
    |destruct (Cont.RemoveOnStop opts); by eexists].
Qed.

Lemma Cont_Stop_kills_running c w :
  Cont.task c <> None -> Cont.observedStatus w = Cont.Running ->
  head (Obs.kills (Cont.Stop c stopOpts w).2) = Some Cont.SIGKILL.
Proof.
  intros Ht Hs.
  destruct (Stop_kills c stopOpts w) as [[_ [H|H]]|[[-> _]|[-> _]]];
    [congruence|congruence|reflexivity|reflexivity].
Qed.

End DeleteStops.

(** C8: deleting a name that is not registered is answered 404 and
    changes nothing.  Deleting a registered function stops it first when
    it is running: the container adapter's [Stop] is called once on the
    container the instance holds, with force-kill, remove-on-stop and a
    10 s timeout; it asks for the status of the task and, seeing it
    running, sends SIGKILL (in every history a running instance holds a
    container with a task).  Once the stop has gone through (or when
    there was nothing to stop) the entry is removed, the answer is 200,
    and every invocation of the name on the registry that results is
    answered 404.  When the stop fails the answer is 500 and the entry is
    still there, running. *)
Theorem delete_function (s : gmap string Kappa.KappaFunction)
    (name : string) (w : Cont.StopWorld) :
  (s !! name = None ->
     Service.deleteFunction s name w
     = (s, Service.httpError (Service.FunctionNotFound name) 404, []))
  /\ (forall fn, s !! name = Some fn ->
        let '(s', resp, fx) := Service.deleteFunction s name w in
        (Kappa.IsRunning fn = false ->
           s' = delete name s /\ Service.statusCode resp = 200 /\ fx = [])
        /\ (forall c,
              Kappa.IsRunning fn = true -> Kappa.container fn = Some c ->
              let '(err, c', calls) := Cont.Stop c Kappa.stopOpts w in
              fx = [Kappa.FxContainerStop Kappa.stopOpts calls]
              /\ (Cont.task c <> None ->
                    exists rest, calls = Cont.CStatus :: rest)
              /\ (Cont.task c <> None ->
                  Cont.observedStatus w = Cont.Running ->
                    head (Obs.kills calls) = Some Cont.SIGKILL)
              /\ (err = None ->
                    s' = delete name s /\ Service.statusCode resp = 200
                    /\ Kappa.isRunning (Kappa.Stop fn w).1.2 = false)
              /\ (forall e, err = Some e ->
                    Service.statusCode resp = 500
                    /\ exists fn', s' !! name = Some fn'
                         /\ Kappa.isRunning fn' = true
                         /\ Kappa.container fn' = Some c'))
        /\ (forall fn' sfx,
              Kappa.IsRunning fn = true -> Kappa.Stop fn w = (None, fn', sfx) ->
              s' = delete name s /\ Service.statusCode resp = 200 /\ fx = sfx)
        /\ (forall e fn' sfx,
              Kappa.IsRunning fn = true -> Kappa.Stop fn w = (Some e, fn', sfx) ->
              s' !! name = Some fn' /\ Service.statusCode resp = 500 /\ fx = sfx)
        /\ (Service.statusCode resp = 200 ->
              s' !! name = None
              /\ forall r iw,
                   Service.invokeFunction s' name r iw
                   = (s', Service.Responded
                            (Service.httpError (Service.FunctionNotFound name) 404),
                      [])))
  /\ (forall ops fn,
        s = Service.run ∅ ops -> s !! name = Some fn ->
        Kappa.IsRunning fn = true ->
        exists c, Kappa.container fn = Some c
                  /\ Cont.task c = Some Cont.taskHandle).
Proof.
  split; [|split].
  - intros H. unfold Service.deleteFunction. now rewrite H.
  - intros fn Hl. unfold Service.deleteFunction. rewrite Hl.
    destruct (Kappa.IsRunning fn) eqn:Hrun.
    + unfold Kappa.IsRunning in Hrun.
      assert (Hshape : forall c, Kappa.container fn = Some c ->
                let '(err, c', calls) := Cont.Stop c Kappa.stopOpts w in
                Kappa.Stop fn w
                = (match err with
                   | Some e => Some (Kappa.FailedStopContainer e)
                   | None => None
                   end,
                   (Kappa.Stop fn w).1.2,
                   [Kappa.FxContainerStop Kappa.stopOpts calls])
                /\ Kappa.isRunning (Kappa.Stop fn w).1.2
                   = (if err is Some _ then true else false)
                /\ Kappa.container (Kappa.Stop fn w).1.2 = Some c'
                /\ (Cont.task c <> None ->
                      exists rest, calls = Cont.CStatus :: rest)
                /\ (Cont.task c <> None ->
                    Cont.observedStatus w = Cont.Running ->
                      head (Obs.kills calls) = Some Cont.SIGKILL)).
      { intros c Hc. rewrite (Stop_running_shape fn w c Hrun Hc).
        pose proof (Cont_Stop_asks_status c Kappa.stopOpts w) as Hst.
        pose proof (Cont_Stop_kills_running c w) as Hk.
        destruct (Cont.Stop c Kappa.stopOpts w) as [[[e|] c'] calls];
          simpl in *; by split_and!. }
      destruct (Kappa.Stop fn w) as [[err fn'] sfx] eqn:HS. simpl in Hshape.
      assert (Hstop : forall c, Kappa.container fn = Some c ->
                let '(e', c', calls) := Cont.Stop c Kappa.stopOpts w in
                sfx = [Kappa.FxContainerStop Kappa.stopOpts calls]
                /\ (e' = None <-> err = None)
                /\ Kappa.isRunning fn' = (if e' is Some _ then true else false)
                /\ Kappa.container fn' = Some c'
                /\ (Cont.task c <> None ->
                      exists rest, calls = Cont.CStatus :: rest)
                /\ (Cont.task c <> None ->
                    Cont.observedStatus w = Cont.Running ->
                      head (Obs.kills calls) = Some Cont.SIGKILL)).
      { intros c Hc. specialize (Hshape c Hc).
        destruct (Cont.Stop c Kappa.stopOpts w) as [[e' c'] calls].
        destruct Hshape as (Heq & Hr' & Hc' & Hst & Hk).
        injection Heq as -> ->. split_and!; try done.
        destruct e'; split; congruence. }
      clear Hshape.
      destruct err as [e|]; simpl.
      * split; [discriminate|]. split; [|split_and!; try discriminate].
        -- intros c _ Hc. specialize (Hstop c Hc).
           destruct (Cont.Stop c Kappa.stopOpts w) as [[e' c'] calls].
           destruct Hstop as (-> & Hiff & Hr' & Hc' & Hst & Hk).
           split; [reflexivity|]. split; [exact Hst|]. split; [exact Hk|].
           destruct e' as [e'|]; [|destruct Hiff as [Hiff _]; by specialize (Hiff eq_refl)].
           split; [discriminate|]. intros e0 _. split; [reflexivity|].
           exists fn'. rewrite lookup_insert_eq. by split_and!.
        -- intros e0 fn0 sfx0 _ [= <- <- <-]. by rewrite lookup_insert_eq.
      * split; [discriminate|]. split; [|split_and!; try discriminate].
        -- intros c _ Hc. specialize (Hstop c Hc).
           destruct (Cont.Stop c Kappa.stopOpts w) as [[e' c'] calls].
           destruct Hstop as (-> & Hiff & Hr' & Hc' & Hst & Hk).
           split; [reflexivity|]. split; [exact Hst|]. split; [exact Hk|].
           destruct e' as [e'|]; [destruct Hiff as [_ Hiff]; by specialize (Hiff eq_refl)|].
           split; [|discriminate]. intros _. by split_and!.
        -- intros fn0 sfx0 _ [= <- <-]. done.
        -- intros _. split; [apply lookup_delete_eq|].
           intros r iw. apply invokeFunction_unknown, lookup_delete_eq.
    + simpl. split_and!; try discriminate; try done.
      intros _. split; [apply lookup_delete_eq|].
      intros r iw. apply invokeFunction_unknown, lookup_delete_eq.
  - intros ops fn -> Hl Hrun.
    pose proof (inv_run ops ∅ (map_Forall_empty _) name fn Hl) as [H1 _].
    destruct (H1 Hrun) as [[c Hc] _]. exists c. split; [exact Hc|].
    destruct (wf_history ops name fn Hl) as [_ (_ & _ & Hcont)].
    exact (proj1 (Hcont c Hc)).
Qed.

Lemma delete_function_witness :
  Service.deleteFunction (∅ : gmap string _) "greet" Sample.stopOk
    = (∅, Service.httpError (Service.FunctionNotFound "greet") 404, [])
  /\ (let '(s', resp, fx) :=
        Service.deleteFunction {[ "greet" := Sample.greetWarm ]} "greet"
          Sample.stopOk in
      (s' = delete "greet" {[ "greet" := Sample.greetWarm ]}
       /\ Service.statusCode resp = 200
       /\ fx = [Kappa.FxContainerStop Kappa.stopOpts
                  [Cont.CStatus; Cont.CKill Cont.SIGKILL; Cont.CWait;
                   Cont.CStatus; Cont.CTaskDelete; Cont.CContainerDelete;
                   Cont.CRemoveAll "/tmp/kappa-kappa-greet-1"]])
      /\ s' !! "greet" = None
      /\ forall r iw,
           Service.invokeFunction s' "greet" r iw
           = (s', Service.Responded
                    (Service.httpError (Service.FunctionNotFound "greet") 404),
              [])).
Proof.
  split.
  - apply (delete_function ∅ "greet" Sample.stopOk). reflexivity.
  - pose proof (proj1 (proj2 (delete_function {[ "greet" := Sample.greetWarm ]}
                                "greet" Sample.stopOk))
                  Sample.greetWarm (lookup_singleton_eq _ _)) as H.
    destruct (Service.deleteFunction _ _ _) as [[s' resp] fx].
    destruct H as (_ & _ & Hstop & _ & Hgone).
    assert (Hs : s' = delete "greet" {[ "greet" := Sample.greetWarm ]}
                 /\ Service.statusCode resp = 200
                 /\ fx = (Kappa.Stop Sample.greetWarm Sample.stopOk).2).
    { apply (Hstop (Kappa.Stop Sample.greetWarm Sample.stopOk).1.2);
        reflexivity. }
    split; [|apply Hgone, Hs].
    destruct Hs as (Hs1 & Hs2 & ->). split; [exact Hs1|].
    split; [exact Hs2|]. vm_compute. reflexivity.
Defined.

(** A delete whose stop the engine refuses: 500, and the function stays. *)
Example delete_refused :
  let '(s', resp, fx) :=
    Service.deleteFunction {[ "greet" := Sample.greetWarm ]} "greet"
      Sample.stopRefused in
  Service.statusCode resp = 500 /\ is_Some (s' !! "greet").
Proof. vm_compute. split; [reflexivity|by eexists]. Qed.
